(** * saia: a client for the SAIA pickup-request web service

    A shallow embedding of [saia.go] (package [saia]) and of the parts of the
    Go libraries it calls, followed by the properties of the package.

    Go values are modelled as follows.
    - [string] is a sequence of bytes: Rocq's [string].
    - [time.Duration] is a signed 64-bit count of nanoseconds: a [Z], with the
      wrap-around of its arithmetic written out.
    - [uint] is taken at 64 bits: an [N] below [2^64].
    - [float64] is its IEEE 754 bit pattern (as [math.Float64bits] gives it);
      its decimal formatting and parsing are parameters ([Library]).
    - [error] is an interface value that may be [nil]: [option error].
    - The package-level variables [testMode] and [timeout] are the fields of
      [Globals], passed explicitly.
    - The network is an oracle ([Transport]) queried by [http.Client.Post];
      what a call does to the outside world is recorded in a list of
      [event]s. *)

From Stdlib Require Import ZArith NArith String Ascii List Bool Lia.
From Stdlib Require Import DecimalString DecimalN.
Import ListNotations.

Local Open Scope string_scope.
Local Open Scope Z_scope.

(* ===================================================================== *)
(** ** Bytes and strings *)
(* ===================================================================== *)

(** The numeric value of a byte of a string, [s[i]]. *)
Definition byte (c : ascii) : Z := Z.of_N (N_of_ascii c).

(** The byte of value [z], for [0 <= z < 256]. *)
Definition chr (z : Z) : ascii := ascii_of_N (Z.to_N z).

(** [s[n:]] *)
Fixpoint drop (n : nat) (s : string) : string :=
  match n, s with
  | O, _ => s
  | S n', String _ s' => drop n' s'
  | S _, EmptyString => EmptyString
  end.

(** [s[:n]] *)
Definition take (n : nat) (s : string) : string := substring 0 n s.

(* ===================================================================== *)
(** ** package time *)
(* ===================================================================== *)

Module time.

(** [type Duration int64] *)
Definition Duration := Z.

(** The value a 64-bit signed integer takes when a computation gives [z]. *)
Definition int64 (z : Z) : Z := (z + 2 ^ 63) mod 2 ^ 64 - 2 ^ 63.

Definition Nanosecond : Duration := 1.
Definition Microsecond : Duration := 1000 * Nanosecond.
Definition Millisecond : Duration := 1000 * Microsecond.
Definition Second : Duration := 1000 * Millisecond.

(** [a * b] on [Duration]s. *)
Definition mul (a b : Duration) : Duration := int64 (a * b).

End time.

(* ===================================================================== *)
(** ** package github.com/pkg/errors *)
(* ===================================================================== *)

Module errors.

(** The error values the package meets.  The stack traces that
    [errors.New] and [errors.Wrap] record are left out: they do not show
    in [Error()]. *)
Inductive error : Type :=
| fundamental (msg : string)                  (* errors.New(msg) *)
| withMessage (cause : error) (msg : string)  (* errors.Wrap(cause, msg) *)
| foreign (text : string).                    (* an error of another package *)

(** [err.Error()] *)
Fixpoint Error (e : error) : string :=
  match e with
  | fundamental msg => msg
  | withMessage cause msg => msg ++ ": " ++ Error cause
  | foreign text => text
  end.

(** [errors.New(message)] *)
Definition New (message : string) : option error :=
  Some (fundamental message).

(** [errors.Wrap(err, message)]: [nil] when [err] is [nil]. *)
Definition Wrap (err : option error) (message : string) : option error :=
  match err with
  | None => None
  | Some e => Some (withMessage e message)
  end.

End errors.

(* ===================================================================== *)
(** ** package unicode/utf8 *)
(* ===================================================================== *)

Module utf8.

Definition RuneError : Z := 0xFFFD.
Definition MaxRune : Z := 0x10FFFF.

Definition maskx : Z := 0x3F.
Definition mask2 : Z := 0x1F.
Definition mask3 : Z := 0x0F.
Definition mask4 : Z := 0x07.

Definition locb : Z := 0x80.
Definition hicb : Z := 0xBF.

(** The entries of the table [first]. *)
Definition xx : Z := 0xF1.
Definition as' : Z := 0xF0.
Definition s1 : Z := 0x02.
Definition s2 : Z := 0x13.
Definition s3 : Z := 0x03.
Definition s4 : Z := 0x23.
Definition s5 : Z := 0x34.
Definition s6 : Z := 0x04.
Definition s7 : Z := 0x44.

(** [first[p0]]: information about the first byte of an encoding. *)
Definition first (p0 : Z) : Z :=
  if p0 <? 0x80 then as'
  else if p0 <? 0xC2 then xx
  else if p0 <? 0xE0 then s1
  else if p0 =? 0xE0 then s2
  else if p0 <? 0xED then s3
  else if p0 =? 0xED then s4
  else if p0 <? 0xF0 then s3
  else if p0 =? 0xF0 then s5
  else if p0 <? 0xF4 then s6
  else if p0 =? 0xF4 then s7
  else xx.

(** [acceptRanges[i]]: the range of a valid second byte. *)
Definition acceptRanges (i : Z) : Z * Z :=
  match i with
  | 0 => (locb, hicb)
  | 1 => (0xA0, hicb)
  | 2 => (locb, 0x9F)
  | 3 => (0x90, hicb)
  | 4 => (locb, 0x8F)
  | _ => (0, 0)
  end.

(** [utf8.DecodeRune(p)] and [utf8.DecodeRuneInString(p)]: the first rune
    of [p] and its width in bytes. *)
Definition DecodeRune (p : string) : Z * nat :=
  match p with
  | EmptyString => (RuneError, 0%nat)
  | String c0 p1 =>
    let p0 := byte c0 in
    let x := first p0 in
    if as' <=? x then
      (* mask := rune(x) << 31 >> 31: all ones when x is xx, otherwise 0 *)
      let mask := if Z.odd x then -1 else 0 in
      (Z.lor (Z.ldiff p0 mask) (Z.land RuneError mask), 1%nat)
    else
      let sz := Z.land x 7 in
      let accept := acceptRanges (Z.shiftr x 4) in
      if Z.of_nat (String.length p) <? sz then (RuneError, 1%nat)
      else
        match p1 with
        | EmptyString => (RuneError, 1%nat)
        | String c1 p2 =>
          let b1 := byte c1 in
          if (b1 <? fst accept) || (snd accept <? b1) then (RuneError, 1%nat)
          else if sz <=? 2 then
            (Z.lor (Z.shiftl (Z.land p0 mask2) 6) (Z.land b1 maskx), 2%nat)
          else
            match p2 with
            | EmptyString => (RuneError, 1%nat)
            | String c2 p3 =>
              let b2 := byte c2 in
              if (b2 <? locb) || (hicb <? b2) then (RuneError, 1%nat)
              else if sz <=? 3 then
                (Z.lor (Z.lor (Z.shiftl (Z.land p0 mask3) 12)
                              (Z.shiftl (Z.land b1 maskx) 6))
                       (Z.land b2 maskx), 3%nat)
              else
                match p3 with
                | EmptyString => (RuneError, 1%nat)
                | String c3 _ =>
                  let b3 := byte c3 in
                  if (b3 <? locb) || (hicb <? b3) then (RuneError, 1%nat)
                  else
                    (Z.lor (Z.lor (Z.lor (Z.shiftl (Z.land p0 mask4) 18)
                                         (Z.shiftl (Z.land b1 maskx) 12))
                                  (Z.shiftl (Z.land b2 maskx) 6))
                           (Z.land b3 maskx), 4%nat)
                end
            end
        end
  end.

Definition surrogateMin : Z := 0xD800.
Definition surrogateMax : Z := 0xDFFF.

(** [string(rune(r))]: the UTF-8 encoding of [r], that of [RuneError] for
    a value that is no rune ([utf8.AppendRune]). *)
Definition EncodeRune (r : Z) : string :=
  let two (r : Z) :=
    String (chr (Z.lor 0xC0 (Z.shiftr r 6)))
      (String (chr (Z.lor 0x80 (Z.land r maskx))) EmptyString) in
  let three (r : Z) :=
    String (chr (Z.lor 0xE0 (Z.shiftr r 12)))
      (String (chr (Z.lor 0x80 (Z.land (Z.shiftr r 6) maskx)))
         (String (chr (Z.lor 0x80 (Z.land r maskx))) EmptyString)) in
  if (0 <=? r) && (r <=? 0x7F) then String (chr r) EmptyString
  else if (0 <=? r) && (r <=? 0x7FF) then two r
  else if (r <? 0) || (MaxRune <? r)
          || ((surrogateMin <=? r) && (r <=? surrogateMax)) then three RuneError
  else if r <=? 0xFFFF then three r
  else
    String (chr (Z.lor 0xF0 (Z.shiftr r 18)))
      (String (chr (Z.lor 0x80 (Z.land (Z.shiftr r 12) maskx)))
         (String (chr (Z.lor 0x80 (Z.land (Z.shiftr r 6) maskx)))
            (String (chr (Z.lor 0x80 (Z.land r maskx))) EmptyString))).

End utf8.

(* ===================================================================== *)
(** ** package strconv *)
(* ===================================================================== *)

Module strconv.

(** [strconv.FormatUint(n, 10)] *)
Definition FormatUint (n : N) : string :=
  NilZero.string_of_uint (N.to_uint n).

(** [strconv.ParseUint(s, 10, 64)]: [None] stands for a non-nil error
    (empty input, a byte that is no decimal digit, a value out of
    range). *)
Definition ParseUint (s : string) : option N :=
  match s with
  | EmptyString => None
  | _ =>
    match NilEmpty.uint_of_string s with
    | Some d => let n := N.of_uint d in
                if (n <? 2 ^ 64)%N then Some n else None
    | None => None
    end
  end.

(** The value of a digit of a character reference, in base 10 or 16. *)
Definition digit (base : N) (c : ascii) : option N :=
  let b := byte c in
  if (48 <=? b) && (b <=? 57) then Some (Z.to_N (b - 48))
  else if (base =? 16)%N && (97 <=? b) && (b <=? 102) then Some (Z.to_N (b - 87))
  else if (base =? 16)%N && (65 <=? b) && (b <=? 70) then Some (Z.to_N (b - 55))
  else None.

(** The value of a string of digits in the given base — what
    [strconv.ParseUint(s, base, 64)] gives while the value fits. *)
Fixpoint digits (base : N) (acc : N) (s : string) : option N :=
  match s with
  | EmptyString => Some acc
  | String c s' =>
    match digit base c with
    | Some d => digits base (acc * base + d)%N s'
    | None => None
    end
  end.

End strconv.

(* ===================================================================== *)
(** ** package strings *)
(* ===================================================================== *)

Module strings.

(** [asciiSpace[c] == 1] *)
Definition asciiSpace (c : ascii) : bool :=
  let b := byte c in
  (b =? 9) || (b =? 10) || (b =? 11) || (b =? 12) || (b =? 13) || (b =? 32).

Fixpoint trimLeft (s : string) : string :=
  match s with
  | EmptyString => EmptyString
  | String c s' => if asciiSpace c then trimLeft s' else s
  end.

Fixpoint trimRight (s : string) : string :=
  match s with
  | EmptyString => EmptyString
  | String c s' =>
    match trimRight s' with
    | EmptyString => if asciiSpace c then EmptyString else String c EmptyString
    | t => String c t
    end
  end.

(** [strings.TrimSpace(s)] on its ASCII path: the white space bytes
    [\t \n \v \f \r] and space are cut from both ends.  (When a byte at
    an end is not ASCII the library goes on to cut Unicode white space
    there.  The texts cut here are those of numbers: with such an end
    left on the text, the conversion of this model fails, where the
    library may go on.) *)
Definition TrimSpace (s : string) : string := trimRight (trimLeft s).

(** [strings.EqualFold(s, t)] on ASCII text: equal but for the case of the
    letters [A] to [Z]. *)
Definition lower (c : ascii) : ascii :=
  let b := byte c in
  if (65 <=? b) && (b <=? 90) then chr (b + 32) else c.

Fixpoint EqualFold (s t : string) : bool :=
  match s, t with
  | EmptyString, EmptyString => true
  | String a s', String b t' => (lower a =? lower b)%char && EqualFold s' t'
  | _, _ => false
  end.

End strings.

(* ===================================================================== *)
(** ** package encoding/xml: the encoder *)
(* ===================================================================== *)

Module xml.

(** [type Name struct { Space, Local string }] *)
Record Name : Type := { Space : string; Local : string }.

Definition quot : string := String (chr 34) EmptyString.
Definition newline : string := String (chr 10) EmptyString.

(** [xml.Header] *)
Definition Header : string :=
  "<?xml version=" ++ quot ++ "1.0" ++ quot
    ++ " encoding=" ++ quot ++ "UTF-8" ++ quot ++ "?>" ++ newline.

Definition escQuot : string := "&#34;".
Definition escApos : string := "&#39;".
Definition escAmp : string := "&amp;".
Definition escLT : string := "&lt;".
Definition escGT : string := "&gt;".
Definition escTab : string := "&#x9;".
Definition escNL : string := "&#xA;".
Definition escCR : string := "&#xD;".
Definition escFFFD : string :=
  String (chr 0xEF) (String (chr 0xBF) (String (chr 0xBD) EmptyString)).

(** [isInCharacterRange(r)]: the Char production of the XML
    recommendation. *)
Definition isInCharacterRange (r : Z) : bool :=
  (r =? 0x09) || (r =? 0x0A) || (r =? 0x0D)
  || ((0x20 <=? r) && (r <=? 0xD7FF))
  || ((0xE000 <=? r) && (r <=? 0xFFFD))
  || ((0x10000 <=? r) && (r <=? 0x10FFFF)).

(** What [EscapeString] writes in place of a rune [r] decoded over
    [width] bytes; [None] when the rune is written as it is. *)
Definition escapeOf (r : Z) (width : nat) : option string :=
  if r =? 34 then Some escQuot
  else if r =? 39 then Some escApos
  else if r =? 38 then Some escAmp
  else if r =? 60 then Some escLT
  else if r =? 62 then Some escGT
  else if r =? 9 then Some escTab
  else if r =? 10 then Some escNL
  else if r =? 13 then Some escCR
  else if negb (isInCharacterRange r) || ((r =? 0xFFFD) && (width =? 1)%nat)
  then Some escFFFD
  else None.

(** The loop of [printer.EscapeString]: one rune of [s] per turn. *)
Fixpoint escapeRunes (fuel : nat) (s : string) : string :=
  match fuel with
  | O => EmptyString
  | S fuel' =>
    match s with
    | EmptyString => EmptyString
    | _ =>
      let (r, width) := utf8.DecodeRune s in
      match escapeOf r width with
      | Some esc => esc
      | None => take width s
      end ++ escapeRunes fuel' (drop width s)
    end
  end.

(** [p.EscapeString(s)]: the escaped equivalent of the plain text [s].
    Every turn of the loop consumes at least one byte. *)
Definition EscapeString (s : string) : string :=
  escapeRunes (String.length s) s.

(** [p.writeStart(&start)] and [p.writeEnd(name)] for an element without
    attributes or name space. *)
Definition writeStart (name : string) : string := "<" ++ name ++ ">".
Definition writeEnd (name : string) : string := "</" ++ name ++ ">".

(** [fieldInfo]: the element name of a field and the path of parent
    elements of its tag ([a>b>name]). *)
Record fieldInfo : Type := { parents : list string; name : string }.

(** A field read off a struct tag without a path. *)
Definition field (name : string) : fieldInfo :=
  {| parents := []; name := name |}.

(** The length of the longest common prefix of the stack of open parent
    elements and the parents of the next field. *)
Fixpoint commonPrefix (stack parents : list string) : nat :=
  match stack, parents with
  | s :: stack', p :: parents' =>
    if String.eqb s p then S (commonPrefix stack' parents') else O
  | _, _ => O
  end.

(** [parentStack.trim(parents)]: closes the open parents that the next
    field does not share.  Gives what is written and the stack left. *)
Definition trim (stack parents : list string) : string * list string :=
  let split := commonPrefix stack parents in
  (String.concat EmptyString (map writeEnd (rev (skipn split stack))),
   firstn split stack).

(** [parentStack.push(parents)] *)
Definition push (stack parents : list string) : string * list string :=
  (String.concat EmptyString (map writeStart parents), (stack ++ parents)%list).

(** [p.marshalValue] of a field whose content is already written out. *)
Definition element (name : string) (content : string) : string :=
  writeStart name ++ content ++ writeEnd name.

(** The loop of [printer.marshalStruct] over the fields of a struct,
    each given with its marshalled content. *)
Fixpoint marshalFields (stack : list string)
         (fields : list (fieldInfo * string)) : string :=
  match fields with
  | [] => fst (trim stack [])
  | (finfo, content) :: rest =>
    let (w1, stack1) := trim stack (parents finfo) in
    let (w2, stack2) :=
      if (List.length stack1 <? List.length (parents finfo))%nat
      then push stack1 (skipn (List.length stack1) (parents finfo))
      else (EmptyString, stack1) in
    w1 ++ w2 ++ element (name finfo) content ++ marshalFields stack2 rest
  end.

Definition marshalStruct (fields : list (fieldInfo * string)) : string :=
  marshalFields [] fields.

(* ------------------------------------------------------------------- *)
(** *** The decoder

    The decoder reads elements with attributes, character data with
    character and entity references, CDATA sections, comments and
    processing instructions, among them the XML declaration.  Names are
    ASCII names without a name-space prefix.  On a directive
    ([<!DOCTYPE ...>]), on a prefixed or non-ASCII name and on an
    attribute [xmlns] this model fails, where the library goes on.
    [None] stands for a non-nil error. *)

(** [type Attr struct { Name Name; Value string }], the name without a
    name space. *)
Record Attr : Type := { AttrName : string; Value : string }.

Inductive Token : Type :=
| StartElement (name : string) (attr : list Attr)
| EndElement (name : string)
| CharData (data : string)
| Comment (data : string)
| ProcInst (target : string) (inst : string).

(** The state of a [Decoder]: the input not yet read, the names of the
    open elements (innermost first), and the name of a self-closing
    element whose end is still to be returned. *)
Record Decoder : Type := {
  input : string;
  stk : list string;
  needClose : option string
}.

(** [NewDecoder(bytes.NewReader(data))] *)
Definition NewDecoder (data : string) : Decoder :=
  {| input := data; stk := []; needClose := None |}.

Definition isNameByte (c : ascii) : bool :=
  let b := byte c in
  ((65 <=? b) && (b <=? 90)) || ((97 <=? b) && (b <=? 122))
  || ((48 <=? b) && (b <=? 57))
  || (b =? 95) || (b =? 58) || (b =? 46) || (b =? 45).

(** The ASCII bytes that may start a name, less the colon. *)
Definition isNameStart (c : ascii) : bool :=
  let b := byte c in
  ((65 <=? b) && (b <=? 90)) || ((97 <=? b) && (b <=? 122)) || (b =? 95).

(** [d.readName()]: the bytes up to the first ASCII byte that is no name
    byte, with the input left. *)
Fixpoint readName (s : string) : string * string :=
  match s with
  | EmptyString => (EmptyString, EmptyString)
  | String c s' =>
    if (byte c <? 0x80) && negb (isNameByte c) then (EmptyString, s)
    else let (n, rest) := readName s' in (String c n, rest)
  end.

Fixpoint allBytes (f : ascii -> bool) (s : string) : bool :=
  match s with
  | EmptyString => true
  | String c s' => f c && allBytes f s'
  end.

(** [isName] on the names of the model: ASCII, no colon. *)
Definition isName (n : string) : bool :=
  match n with
  | EmptyString => false
  | String c n' =>
    isNameStart c
    && allBytes (fun c => isNameByte c && negb (byte c =? 58)) n'
  end.

(** [d.nsname()] and [d.name()]: a name, which must be followed by some
    byte. *)
Definition nsname (s : string) : option (string * string) :=
  match readName s with
  | (n, EmptyString) => None
  | (n, rest) => if isName n then Some (n, rest) else None
  end.

(** [d.space()] *)
Fixpoint space (s : string) : string :=
  match s with
  | String c s' =>
    let b := byte c in
    if (b =? 32) || (b =? 13) || (b =? 10) || (b =? 9) then space s' else s
  | EmptyString => EmptyString
  end.

(** The text of a reference [&e;]: a character reference [#n] or [#xn]
    of a code point up to [MaxRune], or one of the five entities every
    parser knows. *)
Definition reference (e : string) : option string :=
  let numeric (base : N) (ds : string) :=
    match ds with
    | EmptyString => None
    | _ =>
      match strconv.digits base 0 ds with
      | Some n => if (n <=? Z.to_N utf8.MaxRune)%N
                  then Some (utf8.EncodeRune (Z.of_N n)) else None
      | None => None
      end
    end in
  match e with
  | String "#" (String "x" ds) => numeric 16%N ds
  | String "#" ds => numeric 10%N ds
  | _ =>
    if String.eqb e "lt" then Some "<"
    else if String.eqb e "gt" then Some ">"
    else if String.eqb e "amp" then Some "&"
    else if String.eqb e "apos" then Some "'"
    else if String.eqb e "quot" then Some quot
    else None
  end.

Definition prepend (t : string) (r : option (string * string))
  : option (string * string) :=
  match r with
  | Some (data, rest) => Some (t ++ data, rest)
  | None => None
  end.

(** [quote >= 0 && b == byte(quote)] *)
Definition isQuote (quote : option ascii) (b : ascii) : bool :=
  match quote with
  | Some q => (b =? q)%char
  | None => false
  end.

(** The input loop of [d.text(quote, cdata)], one byte per turn: the
    text up to the next [<] or the end of the input, up to the closing
    quote of an attribute value ([quote]), or up to the end of a CDATA
    section ([cdata], whose closing brackets are still in the text); and
    the input left.  [b0] and [b1] are the two bytes read before; [ent]
    holds the bytes of a reference read so far, after its [&].  (The
    library reads a reference with an inner loop that stops at the first
    byte that cannot continue it and fails unless that byte is [;]; here
    the bytes are gathered up to the [;] and judged together, which fails
    on the same inputs.) *)
Fixpoint textLoop (quote : option ascii) (cdata : bool) (ent : option string)
         (b0 b1 : ascii) (s : string) : option (string * string) :=
  match s with
  | EmptyString =>
    match ent with
    | None => if cdata then None else Some (EmptyString, EmptyString)
    | Some _ => None
    end
  | String b s' =>
    match ent with
    | Some e =>
      if (b =? ";")%char then
        match reference e with
        | Some t => prepend t (textLoop quote cdata None zero zero s')
        | None => None
        end
      else textLoop quote cdata (Some (e ++ String b EmptyString)) b0 b1 s'
    | None =>
      if (b0 =? "]")%char && (b1 =? "]")%char && (b =? ">")%char then
        (* a CDATA section ends with ]]>, which ordinary text may not hold *)
        if cdata then Some (EmptyString, s') else None
      else if (b =? "<")%char && negb cdata then
        match quote with
        | None => Some (EmptyString, s)
        | Some _ => None
        end
      else if isQuote quote b then Some (EmptyString, s')
      else if (b =? "&")%char && negb cdata
      then textLoop quote cdata (Some EmptyString) b0 b1 s'
      else
        (* any \r\n or \r is rewritten into \n *)
        let out :=
          if byte b =? 13 then newline
          else if (byte b1 =? 13) && (byte b =? 10) then EmptyString
          else String b EmptyString in
        prepend out (textLoop quote cdata None b1 b s')
    end
  end.

(** The inspection of each rune of the character data: valid UTF-8, in
    the character range. *)
Fixpoint checkRunes (fuel : nat) (buf : string) : bool :=
  match fuel with
  | O => match buf with EmptyString => true | _ => false end
  | S fuel' =>
    match buf with
    | EmptyString => true
    | _ =>
      let (r, size) := utf8.DecodeRune buf in
      if (r =? utf8.RuneError) && (size =? 1)%nat then false
      else if negb (isInCharacterRange r) then false
      else checkRunes fuel' (drop size buf)
    end
  end.

(** [d.text(quote, cdata)] *)
Definition text (quote : option ascii) (cdata : bool) (s : string)
  : option (string * string) :=
  match textLoop quote cdata None zero zero s with
  | Some (data, rest) =>
    let data := if cdata then take (String.length data - 2) data else data in
    if checkRunes (String.length data) data then Some (data, rest) else None
  | None => None
  end.

(** The loop of [d.rawToken] over a processing instruction: the bytes up
    to and with the closing [?>], and the input left. *)
Fixpoint instLoop (b0 : ascii) (s : string) : option (string * string) :=
  match s with
  | EmptyString => None
  | String b s' =>
    if (b0 =? "?")%char && (b =? ">")%char
    then Some (String b EmptyString, s')
    else prepend (String b EmptyString) (instLoop b s')
  end.

(** The loop of [d.rawToken] over a comment: the bytes up to and with
    the closing [-->]; two hyphens may not be followed by anything
    else. *)
Fixpoint commentLoop (b0 b1 : ascii) (s : string) : option (string * string) :=
  match s with
  | EmptyString => None
  | String b s' =>
    if (b0 =? "-")%char && (b1 =? "-")%char then
      if (b =? ">")%char then Some (String b EmptyString, s') else None
    else prepend (String b EmptyString) (commentLoop b1 b s')
  end.

(** [strings.Index(s, substr)] and [strings.IndexByte(s, c)] *)
Fixpoint Index (s substr : string) : option nat :=
  if String.prefix substr s then Some O
  else
    match s with
    | EmptyString => None
    | String _ s' => option_map S (Index s' substr)
    end.

Fixpoint IndexByte (s : string) (c : ascii) : option nat :=
  match s with
  | EmptyString => None
  | String b s' => if (b =? c)%char then Some O else option_map S (IndexByte s' c)
  end.

(** The loop of [procInst(param, s)], with [param] already followed by
    its [=]: the input after the opening quote of the value, and the
    quote. *)
Fixpoint procInstLoop (fuel : nat) (param : string) (sub : string)
  : option (ascii * string) :=
  match fuel with
  | O => None
  | S fuel' =>
    match sub with
    | EmptyString => None
    | _ =>
      match Index sub param with
      | None => None
      | Some k =>
        match drop (String.length param + k) sub with
        | EmptyString => None
        | String c rest =>
          if (c =? "'")%char || (c =? "034")%char then Some (c, rest)
          else procInstLoop fuel' param rest
        end
      end
    end
  end.

(** [procInst(param, s)]: the value of [param="..."] or [param='...']
    in [s], or the empty string. *)
Definition procInst (param : string) (s : string) : string :=
  match procInstLoop (String.length s) (param ++ "=") s with
  | Some (sep, rest) =>
    match IndexByte rest sep with
    | Some j => take j rest
    | None => EmptyString
    end
  | None => EmptyString
  end.

(** What [d.rawToken] asks of the XML declaration [<?xml ...?>]: the
    version 1.0, if any is given, and the encoding UTF-8, if any is given
    (the decoder of [xml.Unmarshal] has no [CharsetReader]). *)
Definition declaration (content : string) : bool :=
  let ver := procInst "version" content in
  let enc := procInst "encoding" content in
  (String.eqb ver EmptyString || String.eqb ver "1.0")
  && (String.eqb enc EmptyString || String.eqb enc "utf-8"
      || String.eqb enc "UTF-8" || strings.EqualFold enc "utf-8").

(** The loop of [d.rawToken] over the attributes of a start tag, up to
    its [>] or [/>]: the attributes, whether the element is empty, and
    the input left.  Every value stands in quotes. *)
Fixpoint attributes (fuel : nat) (s : string)
  : option (list Attr * bool * string) :=
  match fuel with
  | O => None
  | S fuel' =>
    match space s with
    | EmptyString => None
    | String b s1 =>
      if (b =? "/")%char then
        match s1 with
        | String b' rest =>
          if (b' =? ">")%char then Some ([], true, rest) else None
        | EmptyString => None
        end
      else if (b =? ">")%char then Some ([], false, s1)
      else
        match nsname (String b s1) with
        | Some (a, s2) =>
          if String.eqb a "xmlns" then None
          else
            match space s2 with
            | String b2 s3 =>
              if (b2 =? "=")%char then
                match space s3 with
                | String q s4 =>
                  if (q =? "034")%char || (q =? "'")%char then
                    match text (Some q) false s4 with
                    | Some (v, s5) =>
                      match attributes fuel' s5 with
                      | Some (attr, empty, rest) =>
                        Some ({| AttrName := a; Value := v |} :: attr, empty, rest)
                      | None => None
                      end
                    | None => None
                    end
                  else None
                | EmptyString => None
                end
              else None
            | EmptyString => None
            end
        | None => None
        end
    end
  end.

(** [d.Token()]: [d.rawToken()], with the stack of open elements kept
    up: a start tag pushes its name, an end tag must close the innermost
    open element. *)
Definition Token_ (d : Decoder) : option (Token * Decoder) :=
  let next (t : Token) (rest : string) :=
    Some (t, {| input := rest; stk := stk d; needClose := None |}) in
  match needClose d with
  | Some n =>
    (* the end of a self-closing element *)
    match stk d with
    | top :: stk' =>
      if String.eqb top n
      then Some (EndElement n,
                 {| input := input d; stk := stk'; needClose := None |})
      else None
    | [] => None
    end
  | None =>
    match input d with
    | EmptyString => None                       (* io.EOF *)
    | String b s =>
      if (b =? "<")%char then
        match s with
        | EmptyString => None
        | String b' s' =>
          if (b' =? "/")%char then
            (* an end element *)
            match nsname s' with
            | Some (n, rest) =>
              match space rest with
              | String ">" rest' =>
                match stk d with
                | top :: stk' =>
                  if String.eqb top n
                  then Some (EndElement n,
                             {| input := rest'; stk := stk'; needClose := None |})
                  else None
                | [] => None
                end
              | _ => None
              end
            | None => None
            end
          else if (b' =? "?")%char then
            (* a processing instruction *)
            match nsname s' with
            | Some (target, rest) =>
              match instLoop zero (space rest) with
              | Some (data, rest') =>
                let data := take (String.length data - 2) data in
                if String.eqb target "xml" && negb (declaration data)
                then None
                else next (ProcInst target data) rest'
              | None => None
              end
            | None => None
            end
          else if (b' =? "!")%char then
            match s' with
            | EmptyString => None
            | String b2 s2 =>
              if (b2 =? "-")%char then
                (* a comment *)
                match s2 with
                | EmptyString => None
                | String b3 s3 =>
                  if (b3 =? "-")%char then
                    match commentLoop zero zero s3 with
                    | Some (data, rest) =>
                      next (Comment (take (String.length data - 3) data)) rest
                    | None => None
                    end
                  else None
                end
              else if (b2 =? "[")%char then
                (* a CDATA section *)
                if String.prefix "CDATA[" s2 then
                  match text None true (drop 6 s2) with
                  | Some (data, rest) => next (CharData data) rest
                  | None => None
                  end
                else None
              else None                         (* a directive *)
            end
          else
            (* a start element *)
            match nsname s with
            | Some (n, rest) =>
              match attributes (S (String.length rest)) rest with
              | Some (attr, empty, rest') =>
                Some (StartElement n attr,
                      {| input := rest'; stk := n :: stk d;
                         needClose := if empty then Some n else None |})
              | None => None
              end
            | None => None
            end
        end
      else
        match text None false (String b s) with
        | Some (data, rest) => next (CharData data) rest
        | None => None
        end
    end
  end.

(** The tokens of a document: [d.Token()] until [io.EOF], which must
    find every element closed. *)
Fixpoint tokensLoop (fuel : nat) (d : Decoder) : option (list Token) :=
  match fuel with
  | O => None
  | S fuel' =>
    match Token_ d with
    | Some (t, d1) =>
      match tokensLoop fuel' d1 with
      | Some ts => Some (t :: ts)
      | None => None
      end
    | None =>
      match input d, needClose d, stk d with
      | EmptyString, None, [] => Some []
      | _, _, _ => None
      end
    end
  end.

Definition Tokens (data : string) : option (list Token) :=
  tokensLoop (S (String.length data)) (NewDecoder data).

(** [d.Skip()]: reads up to the end of the current element. *)
Fixpoint Skip (fuel : nat) (depth : nat) (d : Decoder) : option Decoder :=
  match fuel with
  | O => None
  | S fuel' =>
    match Token_ d with
    | Some (StartElement _ _, d1) => Skip fuel' (S depth) d1
    | Some (EndElement _, d1) =>
      match depth with
      | O => Some d1
      | S depth' => Skip fuel' depth' d1
      end
    | Some (_, d1) => Skip fuel' depth d1
    | None => None
    end
  end.

(** The loop of [d.unmarshal] for a value of a simple kind (a string, a
    number): the character data right under the element, up to its end;
    elements inside are skipped. *)
Fixpoint unmarshalData (fuel : nat) (data : string) (d : Decoder)
  : option (string * Decoder) :=
  match fuel with
  | O => None
  | S fuel' =>
    match Token_ d with
    | Some (StartElement _ _, d1) =>
      match Skip fuel' 0 d1 with
      | Some d2 => unmarshalData fuel' data d2
      | None => None
      end
    | Some (EndElement _, d1) => Some (data, d1)
    | Some (CharData t, d1) => unmarshalData fuel' (data ++ t) d1
    | Some (_, d1) => unmarshalData fuel' data d1
    | None => None
    end
  end.

(** What reflection knows of a field of a struct of type [S]: its tag,
    how [marshalValue] writes its content, and how
    [d.unmarshal(finfo.value(sv), start)] reads it, after its start tag,
    into the struct. *)
Record fieldCodec (S : Type) : Type := {
  finfo : fieldInfo;
  marshalField : S -> string;
  unmarshalField : nat -> Decoder -> S -> option (S * Decoder)
}.
Arguments finfo {S}.
Arguments marshalField {S}.
Arguments unmarshalField {S}.

(** The text form of a value of a simple kind ([marshalSimple]) and its
    reading from character data ([copyValue]). *)
Record kind (A : Type) : Type := {
  marshalSimple : A -> string;
  copyValue : string -> option A
}.
Arguments marshalSimple {A}.
Arguments copyValue {A}.

Definition stringKind : kind string :=
  {| marshalSimple := fun s => s; copyValue := fun src => Some src |}.

Definition uintKind : kind N :=
  {| marshalSimple := strconv.FormatUint;
     copyValue := fun src =>
       match src with
       | EmptyString => Some 0%N
       | _ => strconv.ParseUint (strings.TrimSpace src)
       end |}.

Section Struct.

Context {S : Type}.

(** A field of a simple kind, with the field's selector and
    assignment. *)
Definition simpleField {A : Type} (info : fieldInfo) (k : kind A)
           (get : S -> A) (set : A -> S -> S) : fieldCodec S :=
  {| finfo := info;
     marshalField := fun sv => EscapeString (marshalSimple k (get sv));
     unmarshalField := fun fuel d sv =>
       match unmarshalData fuel EmptyString d with
       | Some (data, d1) =>
         match copyValue k data with
         | Some v => Some (set v sv, d1)
         | None => None
         end
       | None => None
       end |}.

Variable tinfo : list (fieldCodec S).

(** [p.marshalStruct(tinfo, val)] *)
Definition marshalStructOf (sv : S) : string :=
  marshalStruct (map (fun f => (finfo f, marshalField f sv)) tinfo).

(** The search of [d.unmarshalPath] through the fields: a field whose
    path is the one of the element, or a longer path the element is
    on. *)
Inductive pathMatch : Type :=
| Perfect (f : fieldCodec S)
| Prefix (parents : list string)
| NoMatch.

Fixpoint samePrefix (ps fparents : list string) : bool :=
  match ps, fparents with
  | [], _ => true
  | p :: ps', f :: fparents' => String.eqb p f && samePrefix ps' fparents'
  | _ :: _, [] => false
  end.

Fixpoint findField (fields : list (fieldCodec S)) (ps : list string)
         (start : string) : pathMatch :=
  match fields with
  | [] => NoMatch
  | f :: rest =>
    let fp := parents (finfo f) in
    if (List.length fp <? List.length ps)%nat then findField rest ps start
    else if negb (samePrefix ps fp) then findField rest ps start
    else if (List.length fp =? List.length ps)%nat
            && String.eqb (name (finfo f)) start
    then Perfect f
    else if (List.length ps <? List.length fp)%nat
            && String.eqb (nth (List.length ps) fp EmptyString) start
    then Prefix (firstn (Datatypes.S (List.length ps)) fp)
    else findField rest ps start
  end.

(** [d.unmarshalPath(tinfo, sv, parents, start)]: whether the element
    was consumed, the struct and the decoder after it.  [pathLoop] is
    its loop over the elements under a parent of a path. *)
Fixpoint unmarshalPath (fuel : nat) (d : Decoder) (sv : S)
         (ps : list string) (start : string)
  : option (bool * S * Decoder) :=
  match fuel with
  | O => None
  | Datatypes.S fuel' =>
    match findField tinfo ps start with
    | Perfect f =>
      match unmarshalField f fuel' d sv with
      | Some (sv1, d1) => Some (true, sv1, d1)
      | None => None
      end
    | NoMatch => Some (false, sv, d)
    | Prefix ps' => pathLoop fuel' d sv ps'
    end
  end
with pathLoop (fuel : nat) (d : Decoder) (sv : S) (ps : list string)
  : option (bool * S * Decoder) :=
  match fuel with
  | O => None
  | Datatypes.S fuel' =>
    match Token_ d with
    | Some (StartElement t _, d1) =>
      match unmarshalPath fuel' d1 sv ps t with
      | Some (true, sv1, d2) => pathLoop fuel' d2 sv1 ps
      | Some (false, sv1, d2) =>
        match Skip fuel' 0 d2 with
        | Some d3 => pathLoop fuel' d3 sv1 ps
        | None => None
        end
      | None => None
      end
    | Some (EndElement _, d1) => Some (true, sv, d1)
    | Some (_, d1) => pathLoop fuel' d1 sv ps
    | None => None
    end
  end.

(** The loop of [d.unmarshal] for a struct without fields for
    character data or comments: up to the end of the element, each
    element inside goes to the field it matches, or is skipped. *)
Fixpoint unmarshalStruct (fuel : nat) (d : Decoder) (sv : S)
  : option (S * Decoder) :=
  match fuel with
  | O => None
  | Datatypes.S fuel' =>
    match Token_ d with
    | Some (StartElement t _, d1) =>
      match unmarshalPath fuel' d1 sv [] t with
      | Some (true, sv1, d2) => unmarshalStruct fuel' d2 sv1
      | Some (false, sv1, d2) =>
        match Skip fuel' 0 d2 with
        | Some d3 => unmarshalStruct fuel' d3 sv1
        | None => None
        end
      | None => None
      end
    | Some (EndElement _, d1) => Some (sv, d1)
    | Some (_, d1) => unmarshalStruct fuel' d1 sv
    | None => None
    end
  end.

End Struct.

(** The search of [d.unmarshal] for the start element, when none is
    given. *)
Fixpoint findStart (fuel : nat) (d : Decoder) : option (string * Decoder) :=
  match fuel with
  | O => None
  | S fuel' =>
    match Token_ d with
    | Some (StartElement t _, d1) => Some (t, d1)
    | Some (_, d1) => findStart fuel' d1
    | None => None
    end
  end.

(** A field that is a struct of type [T] with fields [tinfo]. *)
Definition structField {S T : Type} (info : fieldInfo)
           (tinfo : list (fieldCodec T))
           (get : S -> T) (set : T -> S -> S) : fieldCodec S :=
  {| finfo := info;
     marshalField := fun sv => marshalStructOf tinfo (get sv);
     unmarshalField := fun fuel d sv =>
       match unmarshalStruct tinfo fuel d (get sv) with
       | Some (v, d1) => Some (set v sv, d1)
       | None => None
       end |}.

End xml.

(* ===================================================================== *)
(** ** package net/http and io/ioutil, as far as the package uses them *)
(* ===================================================================== *)

Module http.

(** [http.Client]: the one field the package sets. *)
Record Client : Type := { Timeout : time.Duration }.

(** [*http.Response]: its status code, and what [ioutil.ReadAll(res.Body)]
    gives: the bytes read and the error, if any, that ended the read. *)
Record Response : Type := {
  StatusCode : Z;
  Body : string * option errors.error
}.

(** The two results of [httpClient.Post]: a non-nil error, or a response.
    A response with a status code that is no success is not an error of
    [Post]. *)
Inductive PostResult : Type :=
| PostError (e : errors.error)
| PostOk (res : Response).

(** The world outside: what a POST of a body, with a content type, to a
    URL, by a client, results in. *)
Definition Transport : Type := Client -> string -> string -> string -> PostResult.

End http.

(* ===================================================================== *)
(** ** package saia *)
(* ===================================================================== *)

(** [float64], by its bits. *)
Definition float64 : Type := Z.

(** api url *)
Definition saiaURL : string := "http://www.saiasecure.com/webservice/pickup/xml.aspx".

(** The package-level variables. *)
Record Globals : Type := {
  testMode : string;        (* "Y" or "N" *)
  timeout : time.Duration
}.

(** Their values when the package is loaded:
    [var testMode = "Y"] and [var timeout = time.Duration(10 * time.Second)]. *)
Definition initial : Globals :=
  {| testMode := "Y"; timeout := time.mul 10 time.Second |}.

(** Item is details on the shipment *)
Record Item : Type := {
  DestinationZipcode : string;
  Pieces : N;
  Package : string;
  Weight : float64;
  DestinationCountry : string;
  Freezable : string
}.

(** Request is the pickup request data *)
Record Request : Type := {
  XMLName : xml.Name;              (* `xml:"Create"` *)
  Item_ : Item;                    (* field Item, `xml:"Details>DetailItem"` *)
  UserID : string;
  Password : string;
  TestMode : string;
  AccountNumber : string;
  CompanyName : string;
  Street : string;
  City : string;
  State : string;
  Zipcode : string;
  ContactName : string;
  ContactPhone : string;
  PickupDate : string;
  ReadyTime : string;
  CloseTime : string;
  SpecialInstructions : string
}.

(** PickupTerminal is data on the terminal making a pickup *)
Record PickupTerminal : Type := {
  ID : string;
  Name : string;
  Manager : string;
  Address1 : string;
  Address2 : string;
  TerminalCity : string;           (* field City *)
  TerminalState : string;          (* field State *)
  TerminalZipcode : string;        (* field Zipcode *)
  CityDispatchPhone : string;
  CustomerServicePhone : string;
  TollFreePhone : string;
  Fax : string
}.

(** ResponseData is data returned from a pickup request *)
Record ResponseData : Type := {
  Code : string;
  Element : string;
  Fault : string;
  Message : string;
  ResponseTestMode : string;       (* field TestMode *)
  PickupNumber : string;
  TotalPieces : N;
  TotalWeight : float64;
  NextBusinessDay : string;
  PickupTerminal_ : PickupTerminal (* field PickupTerminal *)
}.

(** The zero values. *)
Definition zero_PickupTerminal : PickupTerminal :=
  {| ID := EmptyString; Name := EmptyString; Manager := EmptyString;
     Address1 := EmptyString; Address2 := EmptyString;
     TerminalCity := EmptyString; TerminalState := EmptyString;
     TerminalZipcode := EmptyString; CityDispatchPhone := EmptyString;
     CustomerServicePhone := EmptyString; TollFreePhone := EmptyString;
     Fax := EmptyString |}.

Definition zero_ResponseData : ResponseData :=
  {| Code := EmptyString; Element := EmptyString; Fault := EmptyString;
     Message := EmptyString; ResponseTestMode := EmptyString;
     PickupNumber := EmptyString; TotalPieces := 0%N; TotalWeight := 0;
     NextBusinessDay := EmptyString; PickupTerminal_ := zero_PickupTerminal |}.

Definition zero_Item : Item :=
  {| DestinationZipcode := EmptyString; Pieces := 0%N; Package := EmptyString;
     Weight := 0; DestinationCountry := EmptyString; Freezable := EmptyString |}.

Definition zero_Name : xml.Name :=
  {| xml.Space := EmptyString; xml.Local := EmptyString |}.

Definition zero_Request : Request :=
  {| XMLName := zero_Name; Item_ := zero_Item; UserID := EmptyString;
     Password := EmptyString; TestMode := EmptyString;
     AccountNumber := EmptyString; CompanyName := EmptyString;
     Street := EmptyString; City := EmptyString; State := EmptyString;
     Zipcode := EmptyString; ContactName := EmptyString;
     ContactPhone := EmptyString; PickupDate := EmptyString;
     ReadyTime := EmptyString; CloseTime := EmptyString;
     SpecialInstructions := EmptyString |}.

(** Assignments to the fields of an item. *)
Definition set_DestinationZipcode (v : string) (i : Item) : Item :=
  {| DestinationZipcode := v; Pieces := Pieces i; Package := Package i;
     Weight := Weight i; DestinationCountry := DestinationCountry i;
     Freezable := Freezable i |}.
Definition set_Pieces (v : N) (i : Item) : Item :=
  {| DestinationZipcode := DestinationZipcode i; Pieces := v;
     Package := Package i; Weight := Weight i;
     DestinationCountry := DestinationCountry i; Freezable := Freezable i |}.
Definition set_Package (v : string) (i : Item) : Item :=
  {| DestinationZipcode := DestinationZipcode i; Pieces := Pieces i;
     Package := v; Weight := Weight i;
     DestinationCountry := DestinationCountry i; Freezable := Freezable i |}.
Definition set_Weight (v : float64) (i : Item) : Item :=
  {| DestinationZipcode := DestinationZipcode i; Pieces := Pieces i;
     Package := Package i; Weight := v;
     DestinationCountry := DestinationCountry i; Freezable := Freezable i |}.
Definition set_DestinationCountry (v : string) (i : Item) : Item :=
  {| DestinationZipcode := DestinationZipcode i; Pieces := Pieces i;
     Package := Package i; Weight := Weight i;
     DestinationCountry := v; Freezable := Freezable i |}.
Definition set_Freezable (v : string) (i : Item) : Item :=
  {| DestinationZipcode := DestinationZipcode i; Pieces := Pieces i;
     Package := Package i; Weight := Weight i;
     DestinationCountry := DestinationCountry i; Freezable := v |}.

(** Assignments to the fields of a request. *)
Definition set_XMLName (v : xml.Name) (p : Request) : Request :=
  {| XMLName := v; Item_ := Item_ p; UserID := UserID p;
     Password := Password p; TestMode := TestMode p;
     AccountNumber := AccountNumber p; CompanyName := CompanyName p;
     Street := Street p; City := City p; State := State p;
     Zipcode := Zipcode p; ContactName := ContactName p;
     ContactPhone := ContactPhone p; PickupDate := PickupDate p;
     ReadyTime := ReadyTime p; CloseTime := CloseTime p;
     SpecialInstructions := SpecialInstructions p |}.
Definition set_Item (v : Item) (p : Request) : Request :=
  {| XMLName := XMLName p; Item_ := v; UserID := UserID p;
     Password := Password p; TestMode := TestMode p;
     AccountNumber := AccountNumber p; CompanyName := CompanyName p;
     Street := Street p; City := City p; State := State p;
     Zipcode := Zipcode p; ContactName := ContactName p;
     ContactPhone := ContactPhone p; PickupDate := PickupDate p;
     ReadyTime := ReadyTime p; CloseTime := CloseTime p;
     SpecialInstructions := SpecialInstructions p |}.
Definition set_UserID (v : string) (p : Request) : Request :=
  {| XMLName := XMLName p; Item_ := Item_ p; UserID := v;
     Password := Password p; TestMode := TestMode p;
     AccountNumber := AccountNumber p; CompanyName := CompanyName p;
     Street := Street p; City := City p; State := State p;
     Zipcode := Zipcode p; ContactName := ContactName p;
     ContactPhone := ContactPhone p; PickupDate := PickupDate p;
     ReadyTime := ReadyTime p; CloseTime := CloseTime p;
     SpecialInstructions := SpecialInstructions p |}.
Definition set_Password (v : string) (p : Request) : Request :=
  {| XMLName := XMLName p; Item_ := Item_ p; UserID := UserID p;
     Password := v; TestMode := TestMode p;
     AccountNumber := AccountNumber p; CompanyName := CompanyName p;
     Street := Street p; City := City p; State := State p;
     Zipcode := Zipcode p; ContactName := ContactName p;
     ContactPhone := ContactPhone p; PickupDate := PickupDate p;
     ReadyTime := ReadyTime p; CloseTime := CloseTime p;
     SpecialInstructions := SpecialInstructions p |}.
Definition set_TestMode (v : string) (p : Request) : Request :=
  {| XMLName := XMLName p; Item_ := Item_ p; UserID := UserID p;
     Password := Password p; TestMode := v;
     AccountNumber := AccountNumber p; CompanyName := CompanyName p;
     Street := Street p; City := City p; State := State p;
     Zipcode := Zipcode p; ContactName := ContactName p;
     ContactPhone := ContactPhone p; PickupDate := PickupDate p;
     ReadyTime := ReadyTime p; CloseTime := CloseTime p;
     SpecialInstructions := SpecialInstructions p |}.
Definition set_AccountNumber (v : string) (p : Request) : Request :=
  {| XMLName := XMLName p; Item_ := Item_ p; UserID := UserID p;
     Password := Password p; TestMode := TestMode p; AccountNumber := v;
     CompanyName := CompanyName p; Street := Street p; City := City p;
     State := State p; Zipcode := Zipcode p; ContactName := ContactName p;
     ContactPhone := ContactPhone p; PickupDate := PickupDate p;
     ReadyTime := ReadyTime p; CloseTime := CloseTime p;
     SpecialInstructions := SpecialInstructions p |}.
Definition set_CompanyName (v : string) (p : Request) : Request :=
  {| XMLName := XMLName p; Item_ := Item_ p; UserID := UserID p;
     Password := Password p; TestMode := TestMode p;
     AccountNumber := AccountNumber p; CompanyName := v;
     Street := Street p; City := City p; State := State p;
     Zipcode := Zipcode p; ContactName := ContactName p;
     ContactPhone := ContactPhone p; PickupDate := PickupDate p;
     ReadyTime := ReadyTime p; CloseTime := CloseTime p;
     SpecialInstructions := SpecialInstructions p |}.
Definition set_Street (v : string) (p : Request) : Request :=
  {| XMLName := XMLName p; Item_ := Item_ p; UserID := UserID p;
     Password := Password p; TestMode := TestMode p;
     AccountNumber := AccountNumber p; CompanyName := CompanyName p;
     Street := v; City := City p; State := State p; Zipcode := Zipcode p;
     ContactName := ContactName p; ContactPhone := ContactPhone p;
     PickupDate := PickupDate p; ReadyTime := ReadyTime p;
     CloseTime := CloseTime p;
     SpecialInstructions := SpecialInstructions p |}.
Definition set_City (v : string) (p : Request) : Request :=
  {| XMLName := XMLName p; Item_ := Item_ p; UserID := UserID p;
     Password := Password p; TestMode := TestMode p;
     AccountNumber := AccountNumber p; CompanyName := CompanyName p;
     Street := Street p; City := v; State := State p;
     Zipcode := Zipcode p; ContactName := ContactName p;
     ContactPhone := ContactPhone p; PickupDate := PickupDate p;
     ReadyTime := ReadyTime p; CloseTime := CloseTime p;
     SpecialInstructions := SpecialInstructions p |}.
Definition set_State (v : string) (p : Request) : Request :=
  {| XMLName := XMLName p; Item_ := Item_ p; UserID := UserID p;
     Password := Password p; TestMode := TestMode p;
     AccountNumber := AccountNumber p; CompanyName := CompanyName p;
     Street := Street p; City := City p; State := v; Zipcode := Zipcode p;
     ContactName := ContactName p; ContactPhone := ContactPhone p;
     PickupDate := PickupDate p; ReadyTime := ReadyTime p;
     CloseTime := CloseTime p;
     SpecialInstructions := SpecialInstructions p |}.
Definition set_Zipcode (v : string) (p : Request) : Request :=
  {| XMLName := XMLName p; Item_ := Item_ p; UserID := UserID p;
     Password := Password p; TestMode := TestMode p;
     AccountNumber := AccountNumber p; CompanyName := CompanyName p;
     Street := Street p; City := City p; State := State p; Zipcode := v;
     ContactName := ContactName p; ContactPhone := ContactPhone p;
     PickupDate := PickupDate p; ReadyTime := ReadyTime p;
     CloseTime := CloseTime p;
     SpecialInstructions := SpecialInstructions p |}.
Definition set_ContactName (v : string) (p : Request) : Request :=
  {| XMLName := XMLName p; Item_ := Item_ p; UserID := UserID p;
     Password := Password p; TestMode := TestMode p;
     AccountNumber := AccountNumber p; CompanyName := CompanyName p;
     Street := Street p; City := City p; State := State p;
     Zipcode := Zipcode p; ContactName := v;
     ContactPhone := ContactPhone p; PickupDate := PickupDate p;
     ReadyTime := ReadyTime p; CloseTime := CloseTime p;
     SpecialInstructions := SpecialInstructions p |}.
Definition set_ContactPhone (v : string) (p : Request) : Request :=
  {| XMLName := XMLName p; Item_ := Item_ p; UserID := UserID p;
     Password := Password p; TestMode := TestMode p;
     AccountNumber := AccountNumber p; CompanyName := CompanyName p;
     Street := Street p; City := City p; State := State p;
     Zipcode := Zipcode p; ContactName := ContactName p;
     ContactPhone := v; PickupDate := PickupDate p;
     ReadyTime := ReadyTime p; CloseTime := CloseTime p;
     SpecialInstructions := SpecialInstructions p |}.
Definition set_PickupDate (v : string) (p : Request) : Request :=
  {| XMLName := XMLName p; Item_ := Item_ p; UserID := UserID p;
     Password := Password p; TestMode := TestMode p;
     AccountNumber := AccountNumber p; CompanyName := CompanyName p;
     Street := Street p; City := City p; State := State p;
     Zipcode := Zipcode p; ContactName := ContactName p;
     ContactPhone := ContactPhone p; PickupDate := v;
     ReadyTime := ReadyTime p; CloseTime := CloseTime p;
     SpecialInstructions := SpecialInstructions p |}.
Definition set_ReadyTime (v : string) (p : Request) : Request :=
  {| XMLName := XMLName p; Item_ := Item_ p; UserID := UserID p;
     Password := Password p; TestMode := TestMode p;
     AccountNumber := AccountNumber p; CompanyName := CompanyName p;
     Street := Street p; City := City p; State := State p;
     Zipcode := Zipcode p; ContactName := ContactName p;
     ContactPhone := ContactPhone p; PickupDate := PickupDate p;
     ReadyTime := v; CloseTime := CloseTime p;
     SpecialInstructions := SpecialInstructions p |}.
Definition set_CloseTime (v : string) (p : Request) : Request :=
  {| XMLName := XMLName p; Item_ := Item_ p; UserID := UserID p;
     Password := Password p; TestMode := TestMode p;
     AccountNumber := AccountNumber p; CompanyName := CompanyName p;
     Street := Street p; City := City p; State := State p;
     Zipcode := Zipcode p; ContactName := ContactName p;
     ContactPhone := ContactPhone p; PickupDate := PickupDate p;
     ReadyTime := ReadyTime p; CloseTime := v;
     SpecialInstructions := SpecialInstructions p |}.
Definition set_SpecialInstructions (v : string) (p : Request) : Request :=
  {| XMLName := XMLName p; Item_ := Item_ p; UserID := UserID p;
     Password := Password p; TestMode := TestMode p;
     AccountNumber := AccountNumber p; CompanyName := CompanyName p;
     Street := Street p; City := City p; State := State p;
     Zipcode := Zipcode p; ContactName := ContactName p;
     ContactPhone := ContactPhone p; PickupDate := PickupDate p;
     ReadyTime := ReadyTime p; CloseTime := CloseTime p;
     SpecialInstructions := v |}.

(** Assignments to the fields of a terminal and of a response. *)
Definition set_ID (v : string) (t : PickupTerminal) : PickupTerminal :=
  {| ID := v; Name := Name t; Manager := Manager t; Address1 := Address1 t;
     Address2 := Address2 t; TerminalCity := TerminalCity t;
     TerminalState := TerminalState t; TerminalZipcode := TerminalZipcode t;
     CityDispatchPhone := CityDispatchPhone t;
     CustomerServicePhone := CustomerServicePhone t;
     TollFreePhone := TollFreePhone t; Fax := Fax t |}.

Definition set_Name (v : string) (t : PickupTerminal) : PickupTerminal :=
  {| ID := ID t; Name := v; Manager := Manager t; Address1 := Address1 t;
     Address2 := Address2 t; TerminalCity := TerminalCity t;
     TerminalState := TerminalState t; TerminalZipcode := TerminalZipcode t;
     CityDispatchPhone := CityDispatchPhone t;
     CustomerServicePhone := CustomerServicePhone t;
     TollFreePhone := TollFreePhone t; Fax := Fax t |}.

Definition set_Manager (v : string) (t : PickupTerminal) : PickupTerminal :=
  {| ID := ID t; Name := Name t; Manager := v; Address1 := Address1 t;
     Address2 := Address2 t; TerminalCity := TerminalCity t;
     TerminalState := TerminalState t; TerminalZipcode := TerminalZipcode t;
     CityDispatchPhone := CityDispatchPhone t;
     CustomerServicePhone := CustomerServicePhone t;
     TollFreePhone := TollFreePhone t; Fax := Fax t |}.

Definition set_Address1 (v : string) (t : PickupTerminal) : PickupTerminal :=
  {| ID := ID t; Name := Name t; Manager := Manager t; Address1 := v;
     Address2 := Address2 t; TerminalCity := TerminalCity t;
     TerminalState := TerminalState t; TerminalZipcode := TerminalZipcode t;
     CityDispatchPhone := CityDispatchPhone t;
     CustomerServicePhone := CustomerServicePhone t;
     TollFreePhone := TollFreePhone t; Fax := Fax t |}.

Definition set_Address2 (v : string) (t : PickupTerminal) : PickupTerminal :=
  {| ID := ID t; Name := Name t; Manager := Manager t;
     Address1 := Address1 t; Address2 := v; TerminalCity := TerminalCity t;
     TerminalState := TerminalState t; TerminalZipcode := TerminalZipcode t;
     CityDispatchPhone := CityDispatchPhone t;
     CustomerServicePhone := CustomerServicePhone t;
     TollFreePhone := TollFreePhone t; Fax := Fax t |}.

Definition set_TerminalCity (v : string) (t : PickupTerminal) : PickupTerminal :=
  {| ID := ID t; Name := Name t; Manager := Manager t;
     Address1 := Address1 t; Address2 := Address2 t; TerminalCity := v;
     TerminalState := TerminalState t; TerminalZipcode := TerminalZipcode t;
     CityDispatchPhone := CityDispatchPhone t;
     CustomerServicePhone := CustomerServicePhone t;
     TollFreePhone := TollFreePhone t; Fax := Fax t |}.

Definition set_TerminalState (v : string) (t : PickupTerminal) : PickupTerminal :=
  {| ID := ID t; Name := Name t; Manager := Manager t;
     Address1 := Address1 t; Address2 := Address2 t;
     TerminalCity := TerminalCity t; TerminalState := v;
     TerminalZipcode := TerminalZipcode t;
     CityDispatchPhone := CityDispatchPhone t;
     CustomerServicePhone := CustomerServicePhone t;
     TollFreePhone := TollFreePhone t; Fax := Fax t |}.

Definition set_TerminalZipcode (v : string) (t : PickupTerminal) : PickupTerminal :=
  {| ID := ID t; Name := Name t; Manager := Manager t;
     Address1 := Address1 t; Address2 := Address2 t;
     TerminalCity := TerminalCity t; TerminalState := TerminalState t;
     TerminalZipcode := v; CityDispatchPhone := CityDispatchPhone t;
     CustomerServicePhone := CustomerServicePhone t;
     TollFreePhone := TollFreePhone t; Fax := Fax t |}.

Definition set_CityDispatchPhone (v : string) (t : PickupTerminal) : PickupTerminal :=
  {| ID := ID t; Name := Name t; Manager := Manager t;
     Address1 := Address1 t; Address2 := Address2 t;
     TerminalCity := TerminalCity t; TerminalState := TerminalState t;
     TerminalZipcode := TerminalZipcode t; CityDispatchPhone := v;
     CustomerServicePhone := CustomerServicePhone t;
     TollFreePhone := TollFreePhone t; Fax := Fax t |}.

Definition set_CustomerServicePhone (v : string) (t : PickupTerminal) : PickupTerminal :=
  {| ID := ID t; Name := Name t; Manager := Manager t;
     Address1 := Address1 t; Address2 := Address2 t;
     TerminalCity := TerminalCity t; TerminalState := TerminalState t;
     TerminalZipcode := TerminalZipcode t;
     CityDispatchPhone := CityDispatchPhone t; CustomerServicePhone := v;
     TollFreePhone := TollFreePhone t; Fax := Fax t |}.

Definition set_TollFreePhone (v : string) (t : PickupTerminal) : PickupTerminal :=
  {| ID := ID t; Name := Name t; Manager := Manager t;
     Address1 := Address1 t; Address2 := Address2 t;
     TerminalCity := TerminalCity t; TerminalState := TerminalState t;
     TerminalZipcode := TerminalZipcode t;
     CityDispatchPhone := CityDispatchPhone t;
     CustomerServicePhone := CustomerServicePhone t; TollFreePhone := v;
     Fax := Fax t |}.

Definition set_Fax (v : string) (t : PickupTerminal) : PickupTerminal :=
  {| ID := ID t; Name := Name t; Manager := Manager t;
     Address1 := Address1 t; Address2 := Address2 t;
     TerminalCity := TerminalCity t; TerminalState := TerminalState t;
     TerminalZipcode := TerminalZipcode t;
     CityDispatchPhone := CityDispatchPhone t;
     CustomerServicePhone := CustomerServicePhone t;
     TollFreePhone := TollFreePhone t; Fax := v |}.

Definition set_Code (v : string) (r : ResponseData) : ResponseData :=
  {| Code := v; Element := Element r; Fault := Fault r; Message := Message r;
     ResponseTestMode := ResponseTestMode r; PickupNumber := PickupNumber r;
     TotalPieces := TotalPieces r; TotalWeight := TotalWeight r;
     NextBusinessDay := NextBusinessDay r;
     PickupTerminal_ := PickupTerminal_ r |}.

Definition set_Element (v : string) (r : ResponseData) : ResponseData :=
  {| Code := Code r; Element := v; Fault := Fault r; Message := Message r;
     ResponseTestMode := ResponseTestMode r; PickupNumber := PickupNumber r;
     TotalPieces := TotalPieces r; TotalWeight := TotalWeight r;
     NextBusinessDay := NextBusinessDay r;
     PickupTerminal_ := PickupTerminal_ r |}.

Definition set_Fault (v : string) (r : ResponseData) : ResponseData :=
  {| Code := Code r; Element := Element r; Fault := v; Message := Message r;
     ResponseTestMode := ResponseTestMode r; PickupNumber := PickupNumber r;
     TotalPieces := TotalPieces r; TotalWeight := TotalWeight r;
     NextBusinessDay := NextBusinessDay r;
     PickupTerminal_ := PickupTerminal_ r |}.

Definition set_Message (v : string) (r : ResponseData) : ResponseData :=
  {| Code := Code r; Element := Element r; Fault := Fault r; Message := v;
     ResponseTestMode := ResponseTestMode r; PickupNumber := PickupNumber r;
     TotalPieces := TotalPieces r; TotalWeight := TotalWeight r;
     NextBusinessDay := NextBusinessDay r;
     PickupTerminal_ := PickupTerminal_ r |}.

Definition set_ResponseTestMode (v : string) (r : ResponseData) : ResponseData :=
  {| Code := Code r; Element := Element r; Fault := Fault r;
     Message := Message r; ResponseTestMode := v;
     PickupNumber := PickupNumber r; TotalPieces := TotalPieces r;
     TotalWeight := TotalWeight r; NextBusinessDay := NextBusinessDay r;
     PickupTerminal_ := PickupTerminal_ r |}.

Definition set_PickupNumber (v : string) (r : ResponseData) : ResponseData :=
  {| Code := Code r; Element := Element r; Fault := Fault r;
     Message := Message r; ResponseTestMode := ResponseTestMode r;
     PickupNumber := v; TotalPieces := TotalPieces r;
     TotalWeight := TotalWeight r; NextBusinessDay := NextBusinessDay r;
     PickupTerminal_ := PickupTerminal_ r |}.

Definition set_TotalPieces (v : N) (r : ResponseData) : ResponseData :=
  {| Code := Code r; Element := Element r; Fault := Fault r;
     Message := Message r; ResponseTestMode := ResponseTestMode r;
     PickupNumber := PickupNumber r; TotalPieces := v;
     TotalWeight := TotalWeight r; NextBusinessDay := NextBusinessDay r;
     PickupTerminal_ := PickupTerminal_ r |}.

Definition set_TotalWeight (v : float64) (r : ResponseData) : ResponseData :=
  {| Code := Code r; Element := Element r; Fault := Fault r;
     Message := Message r; ResponseTestMode := ResponseTestMode r;
     PickupNumber := PickupNumber r; TotalPieces := TotalPieces r;
     TotalWeight := v; NextBusinessDay := NextBusinessDay r;
     PickupTerminal_ := PickupTerminal_ r |}.

Definition set_NextBusinessDay (v : string) (r : ResponseData) : ResponseData :=
  {| Code := Code r; Element := Element r; Fault := Fault r;
     Message := Message r; ResponseTestMode := ResponseTestMode r;
     PickupNumber := PickupNumber r; TotalPieces := TotalPieces r;
     TotalWeight := TotalWeight r; NextBusinessDay := v;
     PickupTerminal_ := PickupTerminal_ r |}.

Definition set_PickupTerminal (v : PickupTerminal) (r : ResponseData) : ResponseData :=
  {| Code := Code r; Element := Element r; Fault := Fault r;
     Message := Message r; ResponseTestMode := ResponseTestMode r;
     PickupNumber := PickupNumber r; TotalPieces := TotalPieces r;
     TotalWeight := TotalWeight r; NextBusinessDay := NextBusinessDay r;
     PickupTerminal_ := v |}.

(** The text of a [float64] ([marshalSimple]) and its reading
    ([copyValue]), with the conversions of [strconv]. *)
Definition floatKindOf (format : float64 -> string)
           (parse : string -> option float64) : xml.kind float64 :=
  {| xml.marshalSimple := format;
     xml.copyValue := fun src =>
       match src with
       | EmptyString => Some 0
       | _ => parse (strings.TrimSpace src)
       end |}.

(** The fields of [PickupTerminal] and of [ResponseData], as reflection
    lists them: no field has a tag, so each is an element of its name. *)
Definition PickupTerminal_fields : list (xml.fieldCodec PickupTerminal) :=
  [ xml.simpleField (xml.field "ID") xml.stringKind ID set_ID;
    xml.simpleField (xml.field "Name") xml.stringKind Name set_Name;
    xml.simpleField (xml.field "Manager") xml.stringKind Manager set_Manager;
    xml.simpleField (xml.field "Address1") xml.stringKind Address1 set_Address1;
    xml.simpleField (xml.field "Address2") xml.stringKind Address2 set_Address2;
    xml.simpleField (xml.field "City") xml.stringKind
      TerminalCity set_TerminalCity;
    xml.simpleField (xml.field "State") xml.stringKind
      TerminalState set_TerminalState;
    xml.simpleField (xml.field "Zipcode") xml.stringKind
      TerminalZipcode set_TerminalZipcode;
    xml.simpleField (xml.field "CityDispatchPhone") xml.stringKind
      CityDispatchPhone set_CityDispatchPhone;
    xml.simpleField (xml.field "CustomerServicePhone") xml.stringKind
      CustomerServicePhone set_CustomerServicePhone;
    xml.simpleField (xml.field "TollFreePhone") xml.stringKind
      TollFreePhone set_TollFreePhone;
    xml.simpleField (xml.field "Fax") xml.stringKind Fax set_Fax ].

Definition ResponseData_fields (fk : xml.kind float64)
  : list (xml.fieldCodec ResponseData) :=
  [ xml.simpleField (xml.field "Code") xml.stringKind Code set_Code;
    xml.simpleField (xml.field "Element") xml.stringKind Element set_Element;
    xml.simpleField (xml.field "Fault") xml.stringKind Fault set_Fault;
    xml.simpleField (xml.field "Message") xml.stringKind Message set_Message;
    xml.simpleField (xml.field "TestMode") xml.stringKind
      ResponseTestMode set_ResponseTestMode;
    xml.simpleField (xml.field "PickupNumber") xml.stringKind
      PickupNumber set_PickupNumber;
    xml.simpleField (xml.field "TotalPieces") xml.uintKind
      TotalPieces set_TotalPieces;
    xml.simpleField (xml.field "TotalWeight") fk TotalWeight set_TotalWeight;
    xml.simpleField (xml.field "NextBusinessDay") xml.stringKind
      NextBusinessDay set_NextBusinessDay;
    xml.structField (xml.field "PickupTerminal") PickupTerminal_fields
      PickupTerminal_ set_PickupTerminal ].

(** [xml.Unmarshal(data, &responseData)] as the model of the decoder has
    it: the struct has no [XMLName], so the first start element is taken
    whatever its name; then the fields are read. *)
Definition unmarshalResponseData (fk : xml.kind float64) (data : string)
           (rd : ResponseData) : option ResponseData :=
  let fuel := S (String.length data) in
  match xml.findStart fuel (xml.NewDecoder data) with
  | Some (_, d) =>
    match xml.unmarshalStruct (ResponseData_fields fk) fuel d rd with
    | Some (rd', _) => Some rd'
    | None => None
    end
  | None => None
  end.

(** What this development leaves as parameters of the Go libraries: the
    conversions between [float64] and text of package [strconv], and the
    decoding of a response document into a [ResponseData] by
    [xml.Unmarshal], which gives the struct as far as it was filled and an
    error or [nil]. *)
Class Library : Type := {
  FormatFloat : float64 -> string;        (* strconv.FormatFloat(f, 'g', -1, 64) *)
  ParseFloat : string -> option float64;  (* strconv.ParseFloat(s, 64) *)
  Unmarshal_ResponseData :                (* xml.Unmarshal(body, &responseData) *)
    string -> ResponseData -> ResponseData * option errors.error
}.

(** What a call of the package does to the world outside. *)
Inductive event : Type :=
| LogPrint (text : string)                        (* log.Print, log.Println *)
| LogPrintf (format : string) (v : ResponseData)  (* log.Printf(format, v) *)
| HTTPPost (client : http.Client) (url contentType body : string)
| BodyReadAll                                     (* ioutil.ReadAll(res.Body) *)
| BodyClose.                                      (* res.Body.Close() *)

(** What [RequestPickup] leaves: the request its receiver points to, its two
    results, and the events of the call, first to last. *)
Record Outcome : Type := {
  request : Request;
  responseData : ResponseData;
  err : option errors.error;
  events : list event
}.

Section Saia.

Context {lib : Library}.

Definition floatKind : xml.kind float64 := floatKindOf FormatFloat ParseFloat.

(** The fields of [Item], as reflection lists them. *)
Definition Item_fields : list (xml.fieldCodec Item) :=
  [ xml.simpleField (xml.field "DestinationZipcode") xml.stringKind
      DestinationZipcode set_DestinationZipcode;
    xml.simpleField (xml.field "Pieces") xml.uintKind Pieces set_Pieces;
    xml.simpleField (xml.field "Package") xml.stringKind Package set_Package;
    xml.simpleField (xml.field "Weight") floatKind Weight set_Weight;
    xml.simpleField (xml.field "DestinationCountry") xml.stringKind
      DestinationCountry set_DestinationCountry;
    xml.simpleField (xml.field "Freezable") xml.stringKind
      Freezable set_Freezable ].

(** The fields of [Request] but [XMLName], as reflection lists them. *)
Definition Request_fields : list (xml.fieldCodec Request) :=
  [ (* Item Item `xml:"Details>DetailItem"` *)
    xml.structField {| xml.parents := ["Details"]; xml.name := "DetailItem" |}
      Item_fields Item_ set_Item;
    xml.simpleField (xml.field "UserID") xml.stringKind UserID set_UserID;
    xml.simpleField (xml.field "Password") xml.stringKind Password set_Password;
    xml.simpleField (xml.field "TestMode") xml.stringKind TestMode set_TestMode;
    xml.simpleField (xml.field "AccountNumber") xml.stringKind
      AccountNumber set_AccountNumber;
    xml.simpleField (xml.field "CompanyName") xml.stringKind
      CompanyName set_CompanyName;
    xml.simpleField (xml.field "Street") xml.stringKind Street set_Street;
    xml.simpleField (xml.field "City") xml.stringKind City set_City;
    xml.simpleField (xml.field "State") xml.stringKind State set_State;
    xml.simpleField (xml.field "Zipcode") xml.stringKind Zipcode set_Zipcode;
    xml.simpleField (xml.field "ContactName") xml.stringKind
      ContactName set_ContactName;
    xml.simpleField (xml.field "ContactPhone") xml.stringKind
      ContactPhone set_ContactPhone;
    xml.simpleField (xml.field "PickupDate") xml.stringKind
      PickupDate set_PickupDate;
    xml.simpleField (xml.field "ReadyTime") xml.stringKind ReadyTime set_ReadyTime;
    xml.simpleField (xml.field "CloseTime") xml.stringKind CloseTime set_CloseTime;
    xml.simpleField (xml.field "SpecialInstructions") xml.stringKind
      SpecialInstructions set_SpecialInstructions ].

(** The element name of a [Request]: [XMLName xml.Name `xml:"Create"`]. *)
Definition Request_xmlname : string := "Create".

(** [xml.Marshal(p)] for [p *Request]: the element named by the tag of
    [XMLName], around the fields.  No value of the type makes it fail. *)
Definition xml_Marshal (p : Request) : string * option errors.error :=
  (xml.element Request_xmlname (xml.marshalStructOf Request_fields p), None).

(** [xml.Unmarshal(data, &p)] for [p *Request]: the first start element
    must have the name of the tag of [XMLName], which records it; then the
    fields are read. *)
Definition xml_Unmarshal (data : string) (p : Request) : option Request :=
  let fuel := S (String.length data) in
  match xml.findStart fuel (xml.NewDecoder data) with
  | Some (start, d) =>
    if String.eqb Request_xmlname start then
      let p := set_XMLName {| xml.Space := EmptyString; xml.Local := start |} p in
      match xml.unmarshalStruct Request_fields fuel d p with
      | Some (p', _) => Some p'
      | None => None
      end
    else None
  | None => None
  end.

(** SetProductionMode chooses the production url for use *)
Definition SetProductionMode (yes : bool) (g : Globals) : Globals :=
  if yes then {| testMode := "N"; timeout := timeout g |} else g.

(** SetTimeout updates the timeout value to something the user sets *)
Definition SetTimeout (seconds : time.Duration) (g : Globals) : Globals :=
  {| testMode := testMode g; timeout := time.mul seconds time.Second |}.

(** RequestPickup performs the call to the saia API to schedule a pickup *)
Definition RequestPickup (g : Globals) (net : http.Transport) (p : Request)
  : Outcome :=
  (* set test mode flag as needed *)
  let p := set_TestMode (testMode g) p in
  let responseData := zero_ResponseData in
  (* convert to xml *)
  match xml_Marshal p with
  | (_, Some e) =>
    {| request := p; responseData := responseData;
       err := errors.Wrap (Some e) "saia.RequestPickup - could not marshal xml";
       events := [] |}
  | (xmlBytes, None) =>
    (* add the xml header *)
    let xmlString := xml.Header ++ xmlBytes in
    let log1 := [LogPrint xmlString] in
    (* make the call to the saia API *)
    let httpClient := {| http.Timeout := timeout g |} in
    let post := HTTPPost httpClient saiaURL "text/xml" xmlString in
    match net httpClient saiaURL "text/xml" xmlString with
    | http.PostError e =>
      {| request := p; responseData := responseData;
         err := errors.Wrap (Some e)
                  "saia.RequestPickup - could not make post request";
         events := log1 ++ [post] |}
    | http.PostOk res =>
      (* read the response; the body is closed when the call returns *)
      match http.Body res with
      | (_, Some e) =>
        {| request := p; responseData := responseData;
           err := errors.Wrap (Some e)
                    "saia.RequestPickup - could not read response 1";
           events := log1 ++ [post; BodyReadAll; BodyClose] |}
      | (body, None) =>
        match Unmarshal_ResponseData body responseData with
        | (responseData, Some e) =>
          {| request := p; responseData := responseData;
             err := errors.Wrap (Some e)
                      "saia.RequestPickup - could not read response 2";
             events := log1 ++ [post; BodyReadAll; BodyClose] |}
        | (responseData, None) =>
          if negb (String.eqb (Code responseData) EmptyString)
             || String.eqb (PickupNumber responseData) EmptyString
          then
            {| request := p; responseData := responseData;
               err := errors.Wrap
                        (errors.New "saia.RequestPickup - pickup request failed")
                        (Message responseData);
               events := log1 ++ [post; BodyReadAll;
                           LogPrint "saia.RequestPickup - pickup request failed";
                           LogPrintf "%+v" responseData; BodyClose] |}
          else
            (* pickup request successful *)
            {| request := p; responseData := responseData; err := None;
               events := log1 ++ [post; BodyReadAll;
                           LogPrintf "%+v" responseData; BodyClose] |}
        end
      end
    end
  end.

(** The exported operations of the package, and a program that calls
    them one after the other.  A call of [RequestPickup] comes with what
    the network answers to it. *)
Inductive operation : Type :=
| CallSetProductionMode (yes : bool)
| CallSetTimeout (seconds : time.Duration)
| CallRequestPickup (net : http.Transport) (p : Request).

(** The package-level variables after an operation, and the outcome of a
    request. *)
Definition step (g : Globals) (o : operation) : Globals * option Outcome :=
  match o with
  | CallSetProductionMode yes => (SetProductionMode yes g, None)
  | CallSetTimeout seconds => (SetTimeout seconds g, None)
  | CallRequestPickup net p => (g, Some (RequestPickup g net p))
  end.

Fixpoint run (g : Globals) (os : list operation) : Globals :=
  match os with
  | [] => g
  | o :: os' => run (fst (step g o)) os'
  end.

(** The outcomes of the requests of a program, in order. *)
Fixpoint outcomes (g : Globals) (os : list operation) : list Outcome :=
  match os with
  | [] => []
  | o :: os' =>
    match step g o with
    | (g', Some out) => out :: outcomes g' os'
    | (g', None) => outcomes g' os'
    end
  end.

(** The URLs of the POSTs among some events. *)
Fixpoint postURLs (es : list event) : list string :=
  match es with
  | [] => []
  | HTTPPost _ url _ _ :: es' => url :: postURLs es'
  | _ :: es' => postURLs es'
  end.

(** The document [RequestPickup] posts for a request: the header, then the
    request marshalled with the test mode of the package. *)
Definition posted (g : Globals) (p : Request) : string :=
  xml.Header ++ fst (xml_Marshal (set_TestMode (testMode g) p)).

(** The client [RequestPickup] posts with. *)
Definition client (g : Globals) : http.Client := {| http.Timeout := timeout g |}.

(** The answer of the network to the POST of a request. *)
Definition answer (g : Globals) (net : http.Transport) (p : Request)
  : http.PostResult :=
  net (client g) saiaURL "text/xml" (posted g p).

(** The document of the carrier for a request, written out: the root
    element [Create], the item under [Details > DetailItem], then the other
    fields, each an element with the escaped text of the field. *)
Definition itemDocument (i : Item) : string :=
  "<DestinationZipcode>" ++ xml.EscapeString (DestinationZipcode i)
  ++ "</DestinationZipcode><Pieces>"
  ++ xml.EscapeString (strconv.FormatUint (Pieces i))
  ++ "</Pieces><Package>" ++ xml.EscapeString (Package i)
  ++ "</Package><Weight>" ++ xml.EscapeString (FormatFloat (Weight i))
  ++ "</Weight><DestinationCountry>" ++ xml.EscapeString (DestinationCountry i)
  ++ "</DestinationCountry><Freezable>" ++ xml.EscapeString (Freezable i)
  ++ "</Freezable>".

Definition document (p : Request) : string :=
  "<Create><Details><DetailItem>" ++ itemDocument (Item_ p)
  ++ "</DetailItem></Details><UserID>" ++ xml.EscapeString (UserID p)
  ++ "</UserID><Password>" ++ xml.EscapeString (Password p)
  ++ "</Password><TestMode>" ++ xml.EscapeString (TestMode p)
  ++ "</TestMode><AccountNumber>" ++ xml.EscapeString (AccountNumber p)
  ++ "</AccountNumber><CompanyName>" ++ xml.EscapeString (CompanyName p)
  ++ "</CompanyName><Street>" ++ xml.EscapeString (Street p)
  ++ "</Street><City>" ++ xml.EscapeString (City p)
  ++ "</City><State>" ++ xml.EscapeString (State p)
  ++ "</State><Zipcode>" ++ xml.EscapeString (Zipcode p)
  ++ "</Zipcode><ContactName>" ++ xml.EscapeString (ContactName p)
  ++ "</ContactName><ContactPhone>" ++ xml.EscapeString (ContactPhone p)
  ++ "</ContactPhone><PickupDate>" ++ xml.EscapeString (PickupDate p)
  ++ "</PickupDate><ReadyTime>" ++ xml.EscapeString (ReadyTime p)
  ++ "</ReadyTime><CloseTime>" ++ xml.EscapeString (CloseTime p)
  ++ "</CloseTime><SpecialInstructions>"
  ++ xml.EscapeString (SpecialInstructions p)
  ++ "</SpecialInstructions></Create>".


(** The fields of an item and of a request after [Item], each with the
    assignment that reading the element of the field written for [i], for
    [p], comes to. *)
Definition Item_reading (i : Item) : list (xml.fieldCodec Item * (Item -> Item)) :=
  combine Item_fields
    [ set_DestinationZipcode (DestinationZipcode i);
      set_Pieces (Pieces i);
      set_Package (Package i);
      set_Weight (Weight i);
      set_DestinationCountry (DestinationCountry i);
      set_Freezable (Freezable i) ].

Definition Request_reading (p : Request)
  : list (xml.fieldCodec Request * (Request -> Request)) :=
  combine (tl Request_fields)
    [ set_UserID (UserID p);
      set_Password (Password p);
      set_TestMode (TestMode p);
      set_AccountNumber (AccountNumber p);
      set_CompanyName (CompanyName p);
      set_Street (Street p);
      set_City (City p);
      set_State (State p);
      set_Zipcode (Zipcode p);
      set_ContactName (ContactName p);
      set_ContactPhone (ContactPhone p);
      set_PickupDate (PickupDate p);
      set_ReadyTime (ReadyTime p);
      set_CloseTime (CloseTime p);
      set_SpecialInstructions (SpecialInstructions p) ].

(** The name [xml.Unmarshal] records in [XMLName]. *)
Definition Create : xml.Name :=
  {| xml.Space := EmptyString; xml.Local := Request_xmlname |}.

End Saia.

(* ===================================================================== *)
(** ** Notions the properties are stated with *)
(* ===================================================================== *)

(** The POSTs among some events: client, URL, content type and body. *)
Fixpoint posts (es : list event) : list (http.Client * string * string * string) :=
  match es with
  | [] => []
  | HTTPPost c url contentType body :: es' =>
    (c, url, contentType, body) :: posts es'
  | _ :: es' => posts es'
  end.

(** [sub] occurs in [s]. *)
Definition contains (s sub : string) : Prop :=
  exists before after : string, s = before ++ sub ++ after.

(** A string the decoder takes as character data as it is: valid UTF-8,
    every rune in the character range of XML. *)
Definition validText (s : string) : bool :=
  xml.checkRunes (String.length s) s.

(** A text of visible ASCII bytes, none of which is written escaped, and at
    least one. *)
Definition plainByte (c : ascii) : bool :=
  let b := byte c in
  (33 <=? b) && (b <=? 126)
  && negb ((b =? 34) || (b =? 38) || (b =? 39) || (b =? 60) || (b =? 62)).

Definition plainText (s : string) : bool :=
  match s with
  | EmptyString => false
  | _ => xml.allBytes plainByte s
  end.

(** [math.IsNaN], on the bits: the exponent all ones, the fraction not zero. *)
Definition isNaN (w : float64) : bool :=
  (Z.land (Z.shiftr w 52) 0x7FF =? 0x7FF) && negb (Z.land w (2 ^ 52 - 1) =? 0).

(** The values of the types, as far as the types of this development are
    wider. *)
Definition isUint (n : N) : bool := (n <? 2 ^ 64)%N.
Definition isFloat64 (w : float64) : bool := (0 <=? w) && (w <? 2 ^ 64).

(** What the text conversions of [float64] are known to do: the shortest
    decimal text [FormatFloat] gives for a number is plain ASCII (digits,
    sign, point, exponent, [Inf]), and [ParseFloat] reads it back to the
    same number. *)
Record LawfulFloat (lib : Library) : Prop := {
  FormatFloat_plain :
    forall w : float64, isFloat64 w = true -> plainText (FormatFloat w) = true;
  ParseFloat_FormatFloat :
    forall w : float64, isFloat64 w = true -> isNaN w = false ->
      ParseFloat (FormatFloat w) = Some w
}.

(** The items and requests that go through XML without loss: texts the
    decoder takes as they are, numbers of their types, a weight that is a
    number.  The [TestMode] and [XMLName] of the request are not looked
    at. *)
Definition validItem (i : Item) : bool :=
  validText (DestinationZipcode i) && isUint (Pieces i)
  && validText (Package i)
  && isFloat64 (Weight i) && negb (isNaN (Weight i))
  && validText (DestinationCountry i) && validText (Freezable i).

Definition validRequest (p : Request) : bool :=
  validItem (Item_ p)
  && validText (UserID p) && validText (Password p)
  && validText (AccountNumber p) && validText (CompanyName p)
  && validText (Street p) && validText (City p) && validText (State p)
  && validText (Zipcode p) && validText (ContactName p)
  && validText (ContactPhone p) && validText (PickupDate p)
  && validText (ReadyTime p) && validText (CloseTime p)
  && validText (SpecialInstructions p).

(** A byte the decoder takes into the character data as it is. *)
Definition verbatim (c : ascii) : Prop :=
  byte c <> 60 /\ byte c <> 62 /\ byte c <> 38 /\ byte c <> 13 /\ byte c <> 10.

(** The elements of some fields of a struct, one after the other: what
    [marshalStruct] writes for fields without parents. *)
Fixpoint flat {S : Type} (fs : list (xml.fieldCodec S)) (sv : S) : string :=
  match fs with
  | [] => EmptyString
  | f :: fs' =>
    xml.element (xml.name (xml.finfo f)) (xml.marshalField f sv) ++ flat fs' sv
  end.

(** A field [f] of the struct with fields [tinfo] reads what was written
    of it for the struct [sv]: after the start tag of its element the
    decoder takes the content and the end tag, and the struct read into
    becomes [upd] of it.  [K] is the fuel that is enough for it. *)
Definition fieldReads {S : Type} (tinfo : list (xml.fieldCodec S)) (K : nat)
           (sv : S) (f : xml.fieldCodec S) (upd : S -> S) : Prop :=
  xml.isName (xml.name (xml.finfo f)) = true
  /\ xml.findField tinfo [] (xml.name (xml.finfo f)) = xml.Perfect f
  /\ forall (fuel : nat) (acc : S) (rest : string) (stk : list string),
      (K <= fuel)%nat ->
      xml.unmarshalField f fuel
        {| xml.input := xml.marshalField f sv
                        ++ xml.writeEnd (xml.name (xml.finfo f)) ++ rest;
           xml.stk := xml.name (xml.finfo f) :: stk;
           xml.needClose := None |} acc
      = Some (upd acc,
              {| xml.input := rest; xml.stk := stk; xml.needClose := None |}).

(** A library for the examples: it writes a weight as the decimal number
    of its bits, and takes the body of a response for the pickup number. *)
Definition exampleLibrary : Library :=
  {| FormatFloat := fun w => strconv.FormatUint (Z.to_N w);
     ParseFloat := fun s =>
       match strconv.ParseUint s with
       | Some n => Some (Z.of_N n)
       | None => None
       end;
     Unmarshal_ResponseData := fun body r =>
       ({| Code := Code r; Element := Element r; Fault := Fault r;
           Message := Message r; ResponseTestMode := ResponseTestMode r;
           PickupNumber := body; TotalPieces := TotalPieces r;
           TotalWeight := TotalWeight r; NextBusinessDay := NextBusinessDay r;
           PickupTerminal_ := PickupTerminal_ r |}, None) |}.

(** A network that is down, and one that answers every POST with a given
    status and body. *)
Definition netDown : http.Transport :=
  fun _ _ _ _ => http.PostError (errors.foreign "dial tcp: connection refused").

Definition netAnswers (status : Z) (body : string * option errors.error)
  : http.Transport :=
  fun _ _ _ _ => http.PostOk {| http.StatusCode := status; http.Body := body |}.

(** A request for the examples: two skids of 150 lbs (the bits of the
    [float64] 150.0) from an account in Atlanta. *)
Definition exampleRequest : Request :=
  {| XMLName := zero_Name;
     Item_ := {| DestinationZipcode := "30301"; Pieces := 2%N;
                 Package := "SK"; Weight := 0x4062C00000000000;
                 DestinationCountry := "US"; Freezable := "N" |};
     UserID := "user"; Password := "p&ss<word>"; TestMode := "N";
     AccountNumber := "0123456"; CompanyName := "Smith & Sons";
     Street := "1 Main St"; City := "Atlanta"; State := "GA";
     Zipcode := "30301"; ContactName := "Ann"; ContactPhone := "555-0100";
     PickupDate := "2020-01-31"; ReadyTime := "09:00:00";
     CloseTime := "17:00:00"; SpecialInstructions := EmptyString |}.

(** The response the example library reads from the body [PU0001]. *)
Definition exampleResponse : ResponseData :=
  fst (Unmarshal_ResponseData (Library := exampleLibrary) "PU0001" zero_ResponseData).

(** The number of calls of [RequestPickup] in a program. *)
Fixpoint requests (os : list operation) : nat :=
  match os with
  | [] => O
  | CallRequestPickup _ _ :: os' => S (requests os')
  | _ :: os' => requests os'
  end.

(** Whether a program calls [SetProductionMode(true)]. *)
Fixpoint productionCalled (os : list operation) : bool :=
  match os with
  | [] => false
  | CallSetProductionMode true :: _ => true
  | _ :: os' => productionCalled os'
  end.

(** The events of all the requests of a program, first to last. *)
Definition programEvents {lib : Library} (g : Globals) (os : list operation)
  : list event :=
  concat (map events (outcomes g os)).

(** A request without what a round trip through XML does not keep of it:
    its [XMLName] and its [TestMode]. *)
Definition content (p : Request) : Request :=
  set_XMLName zero_Name (set_TestMode EmptyString p).

(** A library whose decoder of responses gives up after the code of the
    response: it leaves the code it has read and returns an error. *)
Definition truncatingLibrary : Library :=
  {| FormatFloat := FormatFloat (Library := exampleLibrary);
     ParseFloat := ParseFloat (Library := exampleLibrary);
     Unmarshal_ResponseData := fun body r =>
       ({| Code := body; Element := Element r; Fault := Fault r;
           Message := Message r; ResponseTestMode := ResponseTestMode r;
           PickupNumber := PickupNumber r; TotalPieces := TotalPieces r;
           TotalWeight := TotalWeight r; NextBusinessDay := NextBusinessDay r;
           PickupTerminal_ := PickupTerminal_ r |},
        Some (errors.foreign "XML syntax error: unexpected EOF")) |}.


(** The events that write to the log. *)
Definition isLog (e : event) : bool :=
  match e with
  | LogPrint _ | LogPrintf _ _ => true
  | _ => false
  end.

(** How often the body of the answer is read, and how often it is closed,
    among some events. *)
Fixpoint bodyReads (es : list event) : nat :=
  match es with
  | [] => O
  | BodyReadAll :: es' => S (bodyReads es')
  | _ :: es' => bodyReads es'
  end.

Fixpoint bodyCloses (es : list event) : nat :=
  match es with
  | [] => O
  | BodyClose :: es' => S (bodyCloses es')
  | _ :: es' => bodyCloses es'
  end.

(** A text as a reader of XML gets it back: each byte that is no valid
    UTF-8 and each rune outside the character range of XML gives way to
    U+FFFD, everything else stays. *)
Fixpoint replaceRunes (fuel : nat) (s : string) : string :=
  match fuel with
  | O => EmptyString
  | S fuel' =>
    match s with
    | EmptyString => EmptyString
    | _ =>
      let (r, width) := utf8.DecodeRune s in
      (if negb (xml.isInCharacterRange r)
          || ((r =? utf8.RuneError) && (width =? 1)%nat)
       then xml.escFFFD else take width s)
      ++ replaceRunes fuel' (drop width s)
    end
  end.

Definition sanitized (s : string) : string := replaceRunes (String.length s) s.

(** The tokens of an element without attributes that holds a text, or
    nothing. *)
Definition fieldTokens (n text : string) : list xml.Token :=
  xml.StartElement n []
  :: match text with
     | EmptyString => [xml.EndElement n]
     | _ => [xml.CharData text; xml.EndElement n]
     end.

(** The tokens of the document of the carrier for a request: the XML
    declaration and a line feed, then the element [Create], in it the
    fields of the item under [Details > DetailItem] and the other fields,
    every field an element of its name with the text of the field. *)
Definition declarationToken : xml.Token :=
  xml.ProcInst "xml"
    ("version=" ++ xml.quot ++ "1.0" ++ xml.quot
     ++ " encoding=" ++ xml.quot ++ "UTF-8" ++ xml.quot).

Definition itemTokens {lib : Library} (i : Item) : list xml.Token :=
  (fieldTokens "DestinationZipcode" (sanitized (DestinationZipcode i))
   ++ fieldTokens "Pieces" (strconv.FormatUint (Pieces i))
   ++ fieldTokens "Package" (sanitized (Package i))
   ++ fieldTokens "Weight" (sanitized (FormatFloat (Weight i)))
   ++ fieldTokens "DestinationCountry" (sanitized (DestinationCountry i))
   ++ fieldTokens "Freezable" (sanitized (Freezable i)))%list.

Definition requestTokens {lib : Library} (p : Request) : list xml.Token :=
  ([xml.StartElement "Create" []; xml.StartElement "Details" [];
    xml.StartElement "DetailItem" []]
   ++ itemTokens (Item_ p)
   ++ [xml.EndElement "DetailItem"; xml.EndElement "Details"]
   ++ fieldTokens "UserID" (sanitized (UserID p))
   ++ fieldTokens "Password" (sanitized (Password p))
   ++ fieldTokens "TestMode" (sanitized (TestMode p))
   ++ fieldTokens "AccountNumber" (sanitized (AccountNumber p))
   ++ fieldTokens "CompanyName" (sanitized (CompanyName p))
   ++ fieldTokens "Street" (sanitized (Street p))
   ++ fieldTokens "City" (sanitized (City p))
   ++ fieldTokens "State" (sanitized (State p))
   ++ fieldTokens "Zipcode" (sanitized (Zipcode p))
   ++ fieldTokens "ContactName" (sanitized (ContactName p))
   ++ fieldTokens "ContactPhone" (sanitized (ContactPhone p))
   ++ fieldTokens "PickupDate" (sanitized (PickupDate p))
   ++ fieldTokens "ReadyTime" (sanitized (ReadyTime p))
   ++ fieldTokens "CloseTime" (sanitized (CloseTime p))
   ++ fieldTokens "SpecialInstructions" (sanitized (SpecialInstructions p))
   ++ [xml.EndElement "Create"])%list.

Definition documentTokens {lib : Library} (p : Request) : list xml.Token :=
  declarationToken :: xml.CharData xml.newline :: requestTokens p.

(** The decoder at [d] gives the tokens [ts] and is at [d'] then: what it
    gives from [d'] on follows them. *)
Definition reads (ts : list xml.Token) (d d' : xml.Decoder) : Prop :=
  forall (fuel : nat) (l : list xml.Token),
    xml.tokensLoop fuel d' = Some l ->
    xml.tokensLoop (List.length ts + fuel) d = Some (ts ++ l)%list.

(** The weight [w] goes through its text without loss: [FormatFloat]
    writes it in plain ASCII (digits, sign, point, exponent, [Inf]) and
    [ParseFloat] reads that text back to [w], as [strconv] documents for
    every number. *)
Definition readsBack {lib : Library} (w : float64) : Prop :=
  plainText (FormatFloat w) = true /\ ParseFloat (FormatFloat w) = Some w.

(** The whole number below a million that the bits of a [float64] stand
    for, if they do; and the bits of the [float64] of a whole number below
    [2^53]. *)
Definition whole (w : float64) : option N :=
  if w =? 0 then Some 0%N
  else
    let e := Z.shiftr w 52 in
    let m := Z.land w (2 ^ 52 - 1) in
    if (1023 <=? e) && (e <=? 1042) then
      let k := 1075 - e in
      if Z.land (2 ^ 52 + m) (Z.ones k) =? 0 then
        let n := Z.shiftr (2 ^ 52 + m) k in
        if n <? 1000000 then Some (Z.to_N n) else None
      else None
    else None.

Definition float64Of (n : N) : float64 :=
  if (n =? 0)%N then 0
  else
    let k := Z.log2 (Z.of_N n) in
    Z.shiftl (1023 + k) 52 + (Z.shiftl (Z.of_N n) (52 - k) - 2 ^ 52).

(** A library for the examples with the conversions of [strconv] on the
    whole numbers: a whole number below a million is written with its
    decimal digits, and decimal digits are read as the number they
    write, below [2^53].  (Of any other number this library has no
    text, and of any other text no number: the examples have none.)  Its
    decoder of responses is the model of the decoder of this file; where
    that fails, the struct is given as it was, with an error: what the
    library has filled in by then is not modelled. *)
Definition wholeFormat (w : float64) : string :=
  match whole w with
  | Some n => strconv.FormatUint n
  | None => EmptyString
  end.

Definition wholeParse (s : string) : option float64 :=
  match strconv.ParseUint s with
  | Some n => if (n <? 2 ^ 53)%N then Some (float64Of n) else None
  | None => None
  end.

Definition carrierLibrary : Library :=
  {| FormatFloat := wholeFormat;
     ParseFloat := wholeParse;
     Unmarshal_ResponseData := fun body r =>
       match unmarshalResponseData (floatKindOf wholeFormat wholeParse) body r with
       | Some r' => (r', None)
       | None => (r, Some (errors.foreign "XML syntax error"))
       end |}.

(** A response of the carrier that refuses a pickup, and what the
    decoder reads of it. *)
Definition refusal : string :=
  "<?xml version='1.0' encoding='utf-8'?><Response><Code>E07</Code>"
  ++ "<Element>Zipcode</Element><Fault>C</Fault>"
  ++ "<Message>Invalid zip</Message><TestMode>Y</TestMode></Response>".

Definition refused : ResponseData :=
  {| Code := "E07"; Element := "Zipcode"; Fault := "C";
     Message := "Invalid zip"; ResponseTestMode := "Y";
     PickupNumber := EmptyString; TotalPieces := 0%N; TotalWeight := 0;
     NextBusinessDay := EmptyString; PickupTerminal_ := zero_PickupTerminal |}.

(* ===================================================================== *)
(** ** Strings *)
(* ===================================================================== *)

Lemma append_assoc (a b c : string) : (a ++ b) ++ c = a ++ (b ++ c).
Proof.
  induction a as [| x a IH]; simpl; [reflexivity | now rewrite IH].
Qed.

Lemma append_empty_r (a : string) : a ++ EmptyString = a.
Proof.
  induction a as [| x a IH]; simpl; [reflexivity | now rewrite IH].
Qed.

Lemma length_append (a b : string) :
  String.length (a ++ b) = (String.length a + String.length b)%nat.
Proof.
  induction a as [| x a IH]; simpl; [reflexivity | now rewrite IH].
Qed.

(* ===================================================================== *)
(** ** The document of a request *)
(* ===================================================================== *)

Section Document.

Context {lib : Library}.

(** [xml.Marshal] writes a request as the document the carrier expects. *)
Lemma xml_Marshal_document (p : Request) :
  xml_Marshal p = (document p, None).
Proof.
  unfold xml_Marshal, document, itemDocument. f_equal.
  unfold xml.marshalStructOf, xml.marshalStruct.
  cbn -[xml.EscapeString strconv.FormatUint].
  repeat (rewrite !append_assoc; cbn [String.append]).
  reflexivity.
Qed.

Lemma posted_document (g : Globals) (p : Request) :
  posted g p = xml.Header ++ document (set_TestMode (testMode g) p).
Proof. unfold posted. now rewrite xml_Marshal_document. Qed.

End Document.

(* ===================================================================== *)
(** ** Properties of the configuration *)
(* ===================================================================== *)

Section Configuration.

Context {lib : Library}.

Lemma int64_small (z : Z) :
  - 2 ^ 63 <= z < 2 ^ 63 -> time.int64 z = z.
Proof.
  intros H. unfold time.int64.
  rewrite Z.mod_small by lia. lia.
Qed.

Lemma mul_Second_small (d : Z) :
  -9223372036 <= d <= 9223372036 -> time.mul d time.Second = d * 1000000000.
Proof.
  intros H. unfold time.mul.
  change time.Second with 1000000000.
  apply int64_small. lia.
Qed.

Lemma testMode_step_N (g : Globals) (o : operation) :
  testMode g = "N" -> testMode (fst (step g o)) = "N".
Proof.
  intros H. destruct o as [yes | seconds | net p]; simpl.
  - destruct yes; [reflexivity | exact H].
  - exact H.
  - exact H.
Qed.

Lemma testMode_run_N (os : list operation) :
  forall g : Globals, testMode g = "N" -> testMode (run g os) = "N".
Proof.
  induction os as [| o os IH]; intros g H; simpl.
  - exact H.
  - apply IH. apply testMode_step_N. exact H.
Qed.

Lemma testMode_run_YN (os : list operation) :
  forall g : Globals,
    testMode g = "Y" \/ testMode g = "N" ->
    testMode (run g os) = "Y" \/ testMode (run g os) = "N".
Proof.
  induction os as [| o os IH]; intros g H; simpl.
  - exact H.
  - apply IH. destruct o as [yes | seconds | net p]; simpl.
    + destruct yes; [right; reflexivity | exact H].
    + exact H.
    + exact H.
Qed.

Lemma outcomes_TestMode (os : list operation) :
  forall g : Globals, testMode g = "N" ->
    Forall (fun out => TestMode (request out) = "N") (outcomes g os).
Proof.
  induction os as [| o os IH]; intros g H; simpl.
  - constructor.
  - destruct o as [yes | seconds | net p]; simpl.
    + apply IH. destruct yes; [reflexivity | exact H].
    + apply IH. exact H.
    + constructor.
      * unfold RequestPickup. simpl.
        destruct (net _ _ _ _) as [e | res]; [exact H |].
        destruct (http.Body res) as [body [e |]]; [exact H |].
        destruct (Unmarshal_ResponseData body zero_ResponseData) as [rd [e |]];
          [exact H |].
        destruct (_ || _); exact H.
      * apply IH. exact H.
Qed.

End Configuration.

(* ===================================================================== *)
(** ** Properties of RequestPickup *)
(* ===================================================================== *)

Section Pickup.

Context {lib : Library}.

Lemma RequestPickup_posts (g : Globals) (net : http.Transport) (p : Request) :
  posts (events (RequestPickup g net p))
  = [(client g, saiaURL, "text/xml", posted g p)].
Proof.
  unfold RequestPickup, posted, client. simpl.
  destruct (net _ _ _ _) as [e | res]; [reflexivity |].
  destruct (http.Body res) as [body [e |]]; [reflexivity |].
  destruct (Unmarshal_ResponseData body zero_ResponseData) as [rd [e |]];
    [reflexivity |].
  destruct (_ || _); reflexivity.
Qed.

Lemma RequestPickup_request (g : Globals) (net : http.Transport) (p : Request) :
  request (RequestPickup g net p) = set_TestMode (testMode g) p.
Proof.
  unfold RequestPickup. simpl.
  destruct (net _ _ _ _) as [e | res]; [reflexivity |].
  destruct (http.Body res) as [body [e |]]; [reflexivity |].
  destruct (Unmarshal_ResponseData body zero_ResponseData) as [rd [e |]];
    [reflexivity |].
  destruct (_ || _); reflexivity.
Qed.

(** The outcome of a request that was answered, read and parsed. *)
Lemma RequestPickup_parsed (g : Globals) (net : http.Transport) (p : Request)
      (res : http.Response) (body : string) (rd : ResponseData) :
  answer g net p = http.PostOk res ->
  http.Body res = (body, None) ->
  Unmarshal_ResponseData body zero_ResponseData = (rd, None) ->
  responseData (RequestPickup g net p) = rd
  /\ err (RequestPickup g net p)
     = if negb (String.eqb (Code rd) EmptyString)
          || String.eqb (PickupNumber rd) EmptyString
       then Some (errors.withMessage
                    (errors.fundamental "saia.RequestPickup - pickup request failed")
                    (Message rd))
       else None.
Proof.
  unfold answer, posted, client, RequestPickup. simpl.
  intros Hnet Hbody Hxml.
  rewrite Hnet, Hbody, Hxml.
  destruct (_ || _); split; reflexivity.
Qed.

Lemma business_failure_iff (rd : ResponseData) :
  negb (String.eqb (Code rd) EmptyString)
  || String.eqb (PickupNumber rd) EmptyString = false
  <-> Code rd = EmptyString /\ PickupNumber rd <> EmptyString.
Proof.
  rewrite orb_false_iff, negb_false_iff.
  rewrite String.eqb_eq, String.eqb_neq. reflexivity.
Qed.

End Pickup.

(* ===================================================================== *)
(** ** Bytes and runes *)
(* ===================================================================== *)

Lemma byte_range (c : ascii) : 0 <= byte c < 256.
Proof.
  unfold byte. pose proof (N_ascii_bounded c). lia.
Qed.

Lemma chr_byte (c : ascii) : chr (byte c) = c.
Proof.
  unfold chr, byte. rewrite N2Z.id. apply ascii_N_embedding.
Qed.

Lemma byte_eq (c : ascii) (z : Z) : byte c = z -> c = chr z.
Proof. intros H. rewrite <- H. symmetry. apply chr_byte. Qed.

Lemma eqb_byte_neq (c k : ascii) : byte c <> byte k -> (c =? k)%char = false.
Proof.
  intros H. apply Ascii.eqb_neq. intros E. apply H. now rewrite E.
Qed.

Lemma land_le_r (a b : Z) : 0 <= a -> 0 <= b -> Z.land a b <= b.
Proof.
  intros Ha Hb. destruct a as [| p | p]; [simpl; lia | | lia].
  destruct b as [| q | q]; [rewrite Z.land_0_r; lia | | lia].
  pose proof (N.land_le_r (N.pos p) (N.pos q)) as H.
  change (Z.land (Z.pos p) (Z.pos q)) with (Z.of_N (N.land (N.pos p) (N.pos q))).
  lia.
Qed.

Lemma lor_ge_l (a b : Z) : 0 <= a -> 0 <= b -> a <= Z.lor a b.
Proof.
  intros Ha Hb. pose proof (Z.add_lor_land a b).
  pose proof (land_le_r a b Ha Hb). lia.
Qed.

Lemma lor_ge_r (a b : Z) : 0 <= a -> 0 <= b -> b <= Z.lor a b.
Proof.
  intros Ha Hb. rewrite Z.lor_comm. now apply lor_ge_l.
Qed.

Lemma land_mask_nonneg (a m : Z) : 0 <= m -> 0 <= Z.land a m.
Proof. intros H. apply Z.land_nonneg. now right. Qed.

(** The part of a first or continuation byte under a mask. *)
Lemma land_ones_sub (b lo n : Z) :
  0 <= n -> lo mod 2 ^ n = 0 -> lo <= b < lo + 2 ^ n ->
  Z.land b (Z.ones n) = b - lo.
Proof.
  intros Hn Hlo Hb. rewrite Z.land_ones by exact Hn.
  replace b with ((b - lo) + lo) at 1 by lia.
  rewrite <- Zplus_mod_idemp_r, Hlo, Z.add_0_r.
  apply Z.mod_small. lia.
Qed.


Ltac split_if :=
  match goal with
  | |- context [if (?a <? ?b) then _ else _] => destruct (Z.ltb_spec a b)
  | |- context [if (?a <=? ?b) then _ else _] => destruct (Z.leb_spec a b)
  | |- context [if (?a =? ?b) then _ else _] => destruct (Z.eqb_spec a b)
  end.

Lemma first_cases (p0 : Z) :
  0 <= p0 < 256 ->
  (p0 < 128 /\ utf8.first p0 = utf8.as')
  \/ (128 <= p0 /\
      (utf8.first p0 = utf8.xx
       \/ (194 <= p0 < 224 /\ utf8.first p0 = utf8.s1)
       \/ (p0 = 224 /\ utf8.first p0 = utf8.s2)
       \/ (225 <= p0 < 240 /\ p0 <> 237 /\ utf8.first p0 = utf8.s3)
       \/ (p0 = 237 /\ utf8.first p0 = utf8.s4)
       \/ (p0 = 240 /\ utf8.first p0 = utf8.s5)
       \/ (241 <= p0 < 244 /\ utf8.first p0 = utf8.s6)
       \/ (p0 = 244 /\ utf8.first p0 = utf8.s7))).
Proof.
  intros R. unfold utf8.first.
  repeat split_if; try lia;
    first [ left; split; [lia | reflexivity]
          | right; split; [lia |];
            first [ left; reflexivity
                  | right; left; split; [lia | reflexivity]
                  | do 2 right; left; split; [lia | reflexivity]
                  | do 3 right; left; split; [lia | split; [lia | reflexivity]]
                  | do 4 right; left; split; [lia | reflexivity]
                  | do 5 right; left; split; [lia | reflexivity]
                  | do 6 right; left; split; [lia | reflexivity]
                  | do 7 right; split; [lia | reflexivity] ] ].
Qed.

Ltac bad_rune :=
  let H := fresh in let H' := fresh in
  intros H H'; apply pair_equal_spec in H; destruct H as [<- <-];
  discriminate H'.

Lemma lor3_ge (a b c : Z) :
  0 <= a -> 0 <= b -> 0 <= c ->
  a <= Z.lor (Z.lor a b) c /\ b <= Z.lor (Z.lor a b) c.
Proof.
  intros Ha Hb Hc.
  assert (0 <= Z.lor a b) by (apply Z.lor_nonneg; lia).
  pose proof (lor_ge_l a b Ha Hb). pose proof (lor_ge_r a b Ha Hb).
  pose proof (lor_ge_l (Z.lor a b) c ltac:(assumption) Hc). lia.
Qed.

Lemma lor4_ge (a b c d : Z) :
  0 <= a -> 0 <= b -> 0 <= c -> 0 <= d ->
  a <= Z.lor (Z.lor (Z.lor a b) c) d /\ b <= Z.lor (Z.lor (Z.lor a b) c) d.
Proof.
  intros Ha Hb Hc Hd.
  destruct (lor3_ge a b c Ha Hb Hc) as [H1 H2].
  assert (0 <= Z.lor (Z.lor a b) c)
    by (apply Z.lor_nonneg; split; [apply Z.lor_nonneg |]; lia).
  pose proof (lor_ge_l (Z.lor (Z.lor a b) c) d ltac:(assumption) Hd). lia.
Qed.

Lemma maskx_nonneg (b : Z) : 0 <= Z.land b utf8.maskx.
Proof. apply land_mask_nonneg. unfold utf8.maskx. lia. Qed.

Lemma maskx_sub (b : Z) : 128 <= b < 192 -> Z.land b utf8.maskx = b - 128.
Proof. intros H. apply (land_ones_sub b 128 6); [lia | reflexivity | lia]. Qed.

(** The rune of an encoding of three or four bytes is no ASCII byte. *)
Ltac rune_bound lo n :=
  match goal with
  | |- 128 <= Z.lor (Z.lor (Z.shiftl (Z.land ?p ?m) 12)
                           (Z.shiftl (Z.land ?b1 utf8.maskx) 6))
                    (Z.land ?b2 utf8.maskx) =>
    let A0 := fresh in let A1 := fresh in let B := fresh in
    assert (A0 : Z.land p m = p - lo)
      by (apply (land_ones_sub p lo n); [lia | reflexivity | lia]);
    assert (A1 : Z.land b1 utf8.maskx = b1 - 128) by (apply maskx_sub; lia);
    rewrite A0, A1, !Z.shiftl_mul_pow2 by lia;
    pose proof (lor3_ge ((p - lo) * 2 ^ 12) ((b1 - 128) * 2 ^ 6)
                  (Z.land b2 utf8.maskx)
                  ltac:(lia) ltac:(lia) (maskx_nonneg b2)) as B;
    lia
  | |- 128 <= Z.lor (Z.lor (Z.lor (Z.shiftl (Z.land ?p ?m) 18)
                                  (Z.shiftl (Z.land ?b1 utf8.maskx) 12))
                           (Z.shiftl (Z.land ?b2 utf8.maskx) 6))
                    (Z.land ?b3 utf8.maskx) =>
    let A0 := fresh in let A1 := fresh in let A2 := fresh in let B := fresh in
    assert (A0 : Z.land p m = p - lo)
      by (apply (land_ones_sub p lo n); [lia | reflexivity | lia]);
    assert (A1 : Z.land b1 utf8.maskx = b1 - 128) by (apply maskx_sub; lia);
    assert (A2 : Z.land b2 utf8.maskx = b2 - 128) by (apply maskx_sub; lia);
    rewrite A0, A1, A2, !Z.shiftl_mul_pow2 by lia;
    pose proof (lor4_ge ((p - lo) * 2 ^ 18) ((b1 - 128) * 2 ^ 12)
                  ((b2 - 128) * 2 ^ 6) (Z.land b3 utf8.maskx)
                  ltac:(lia) ltac:(lia) ltac:(lia) (maskx_nonneg b3)) as B;
    lia
  end.

Ltac eval_closed t := let v := eval vm_compute in t in change t with v.

Ltac four_bytes :=
  cbv iota beta zeta;
  destruct (_ <? 4); [bad_rune |];
  let c1 := fresh "c1" in let c2 := fresh "c2" in let c3 := fresh "c3" in
  let s2 := fresh "s2" in let s3 := fresh "s3" in let s4 := fresh "s4" in
  match goal with
  | |- match ?s with EmptyString => _ | String _ _ => _ end = _ -> _ =>
    destruct s as [| c1 s2]; [bad_rune |]
  end;
  pose proof (byte_range c1);
  cbn [fst snd]; unfold utf8.locb, utf8.hicb;
  match goal with
  | |- context [byte c1 <? ?lo] => destruct (Z.ltb_spec (byte c1) lo); [bad_rune |]
  end;
  match goal with
  | |- context [?hi <? byte c1] => destruct (Z.ltb_spec hi (byte c1)); [bad_rune |]
  end;
  cbn [orb]; eval_closed (4 <=? 2); cbv iota;
  destruct s2 as [| c2 s3]; [bad_rune |];
  pose proof (byte_range c2);
  destruct (Z.ltb_spec (byte c2) 128); [bad_rune |];
  destruct (Z.ltb_spec 191 (byte c2)); [bad_rune |];
  cbn [orb]; eval_closed (4 <=? 3); cbv iota;
  destruct s3 as [| c3 s4]; [bad_rune |];
  pose proof (byte_range c3);
  destruct (Z.ltb_spec (byte c3) 128); [bad_rune |];
  destruct (Z.ltb_spec 191 (byte c3)); [bad_rune |];
  cbn [orb];
  let Hd := fresh "Hd" in
  intros Hd _; apply pair_equal_spec in Hd; destruct Hd as [<- <-]; right;
  split; [| split; [lia | right; right; split;
    [reflexivity | do 4 eexists; split; [reflexivity | lia]]]].

Ltac three_bytes :=
  cbv iota beta zeta;
  destruct (_ <? 3); [bad_rune |];
  let c1 := fresh "c1" in let c2 := fresh "c2" in
  let s2 := fresh "s2" in let s3 := fresh "s3" in
  match goal with
  | |- match ?s with EmptyString => _ | String _ _ => _ end = _ -> _ =>
    destruct s as [| c1 s2]; [bad_rune |]
  end;
  pose proof (byte_range c1);
  cbn [fst snd]; unfold utf8.locb, utf8.hicb;
  match goal with
  | |- context [byte c1 <? ?lo] => destruct (Z.ltb_spec (byte c1) lo); [bad_rune |]
  end;
  match goal with
  | |- context [?hi <? byte c1] => destruct (Z.ltb_spec hi (byte c1)); [bad_rune |]
  end;
  cbn [orb]; eval_closed (3 <=? 2); cbv iota;
  destruct s2 as [| c2 s3]; [bad_rune |];
  pose proof (byte_range c2);
  destruct (Z.ltb_spec (byte c2) 128); [bad_rune |];
  destruct (Z.ltb_spec 191 (byte c2)); [bad_rune |];
  cbn [orb]; eval_closed (3 <=? 3); cbv iota;
  let Hd := fresh "Hd" in
  intros Hd _; apply pair_equal_spec in Hd; destruct Hd as [<- <-]; right;
  split; [| split; [lia | right; left; split;
    [reflexivity | do 3 eexists; split; [reflexivity | lia]]]].



Lemma DecodeRune_cases (c0 : ascii) (s1 : string) (r : Z) (w : nat) :
  utf8.DecodeRune (String c0 s1) = (r, w) ->
  (r =? utf8.RuneError) && (w =? 1)%nat = false ->
  (w = 1%nat /\ r = byte c0 /\ r < 128)
  \/ (128 <= r /\ 128 <= byte c0
      /\ ((w = 2%nat /\ exists c1 s2, s1 = String c1 s2 /\ 128 <= byte c1)
          \/ (w = 3%nat
              /\ exists c1 c2 s3,
                  s1 = String c1 (String c2 s3)
                  /\ 128 <= byte c1 /\ 128 <= byte c2)
          \/ (w = 4%nat
              /\ exists c1 c2 c3 s4,
                  s1 = String c1 (String c2 (String c3 s4))
                  /\ 128 <= byte c1 /\ 128 <= byte c2 /\ 128 <= byte c3))).
Proof.
  unfold utf8.DecodeRune.
  pose proof (byte_range c0) as R0.
  set (p0 := byte c0) in *. clearbody p0.
  destruct (first_cases p0 R0) as [[L E] | [L [E | [[R E] | [[R E] | [[R [R' E]] | [[R E] | [[R E] | [[R E] | [R E]]]]]]]]]];
    rewrite E.
  - eval_closed (utf8.as' <=? utf8.as'). eval_closed (Z.odd utf8.as').
    cbv iota beta zeta. rewrite Z.ldiff_0_r, Z.land_0_r, Z.lor_0_r.
    intros Hd _. apply pair_equal_spec in Hd; destruct Hd as [<- <-]. left. lia.
  - eval_closed (utf8.as' <=? utf8.xx). eval_closed (Z.odd utf8.xx).
    cbv iota beta zeta. rewrite Z.ldiff_m1_r, Z.land_m1_r, Z.lor_0_l.
    bad_rune.
  - (* two bytes *)
    eval_closed (utf8.as' <=? utf8.s1). eval_closed (Z.land utf8.s1 7).
    eval_closed (utf8.acceptRanges (Z.shiftr utf8.s1 4)).
    cbv iota beta zeta.
    destruct (_ <? 2); [bad_rune |].
    destruct s1 as [| c1 s2]; [bad_rune |].
    pose proof (byte_range c1) as R1.
    cbn [fst snd]. unfold utf8.locb, utf8.hicb.
    destruct (Z.ltb_spec (byte c1) 128); [bad_rune |].
    destruct (Z.ltb_spec 191 (byte c1)); [bad_rune |].
    cbn [orb]. eval_closed (2 <=? 2). cbv iota.
    intros Hd _. apply pair_equal_spec in Hd; destruct Hd as [<- <-]. right.
    split; [| split; [lia | left; split; [reflexivity | eauto]]].
    assert (A : Z.land p0 utf8.mask2 = p0 - 192)
      by (apply (land_ones_sub p0 192 5); [lia | reflexivity | lia]).
    rewrite A, Z.shiftl_mul_pow2 by lia.
    pose proof (land_mask_nonneg (byte c1) utf8.maskx ltac:(unfold utf8.maskx; lia)).
    pose proof (lor_ge_l ((p0 - 192) * 2 ^ 6) (Z.land (byte c1) utf8.maskx)
                  ltac:(lia) ltac:(assumption)).
    lia.
  - (* three bytes, first byte E0 *)
    eval_closed (utf8.as' <=? utf8.s2). eval_closed (Z.land utf8.s2 7).
    eval_closed (utf8.acceptRanges (Z.shiftr utf8.s2 4)).
    three_bytes. rune_bound 224 4.
  - (* three bytes *)
    eval_closed (utf8.as' <=? utf8.s3). eval_closed (Z.land utf8.s3 7).
    eval_closed (utf8.acceptRanges (Z.shiftr utf8.s3 4)).
    three_bytes. rune_bound 224 4.
  - (* three bytes, first byte ED *)
    eval_closed (utf8.as' <=? utf8.s4). eval_closed (Z.land utf8.s4 7).
    eval_closed (utf8.acceptRanges (Z.shiftr utf8.s4 4)).
    three_bytes. rune_bound 224 4.
  - (* four bytes, first byte F0 *)
    eval_closed (utf8.as' <=? utf8.s5). eval_closed (Z.land utf8.s5 7).
    eval_closed (utf8.acceptRanges (Z.shiftr utf8.s5 4)).
    four_bytes. rune_bound 240 3.
  - (* four bytes *)
    eval_closed (utf8.as' <=? utf8.s6). eval_closed (Z.land utf8.s6 7).
    eval_closed (utf8.acceptRanges (Z.shiftr utf8.s6 4)).
    four_bytes. rune_bound 240 3.
  - (* four bytes, first byte F4 *)
    eval_closed (utf8.as' <=? utf8.s7). eval_closed (Z.land utf8.s7 7).
    eval_closed (utf8.acceptRanges (Z.shiftr utf8.s7 4)).
    four_bytes. rune_bound 240 3.
Qed.

(** [DecodeRune] looks at the bytes of the rune it decodes only. *)
Lemma first_size (p0 : Z) : Z.land (utf8.first p0) 7 <= 4.
Proof. unfold utf8.first. repeat split_if; vm_compute; discriminate. Qed.

Ltac bad_width :=
  let H := fresh in
  intros H; apply pair_equal_spec in H; destruct H as [_ H]; discriminate H.

(** The branches of [DecodeRune] over a string whose first bytes are
    known. *)
Ltac width_cases :=
  repeat match goal with
         | |- (if ?b then _ else _) = _ -> _ => destruct b eqn:?
         | |- (match ?s with EmptyString => _ | String _ _ => _ end) = _ -> _ =>
           destruct s
         | |- (_, _) = (_, _) -> _ => first [bad_width | intros ?]
         end.

Lemma DecodeRune_prefix2 (c0 c1 : ascii) (s t : string) (r : Z) :
  utf8.DecodeRune (String c0 (String c1 s)) = (r, 2%nat) ->
  utf8.DecodeRune (String c0 (String c1 t)) = (r, 2%nat).
Proof.
  unfold utf8.DecodeRune. cbv zeta.
  set (x := utf8.first (byte c0)).
  set (sz := Z.land x 7).
  set (bad1 := (byte c1 <? fst (utf8.acceptRanges (Z.shiftr x 4)))
               || (snd (utf8.acceptRanges (Z.shiftr x 4)) <? byte c1)).
  destruct (utf8.as' <=? x); [bad_width |].
  destruct (Z.ltb_spec (Z.of_nat (String.length (String c0 (String c1 s)))) sz);
    [bad_width |].
  destruct bad1; [bad_width |].
  destruct (Z.leb_spec sz 2) as [L | L].
  - intros Hd. destruct (Z.ltb_spec (Z.of_nat (String.length (String c0 (String c1 t)))) sz) as [L' | L'];
      [cbn [String.length] in L'; lia | exact Hd].
  - width_cases.
Qed.

Lemma DecodeRune_prefix3 (c0 c1 c2 : ascii) (s t : string) (r : Z) :
  utf8.DecodeRune (String c0 (String c1 (String c2 s))) = (r, 3%nat) ->
  utf8.DecodeRune (String c0 (String c1 (String c2 t))) = (r, 3%nat).
Proof.
  unfold utf8.DecodeRune. cbv zeta.
  set (x := utf8.first (byte c0)).
  set (sz := Z.land x 7).
  set (bad1 := (byte c1 <? fst (utf8.acceptRanges (Z.shiftr x 4)))
               || (snd (utf8.acceptRanges (Z.shiftr x 4)) <? byte c1)).
  set (bad2 := (byte c2 <? utf8.locb) || (utf8.hicb <? byte c2)).
  destruct (utf8.as' <=? x); [bad_width |].
  destruct (Z.ltb_spec (Z.of_nat (String.length (String c0 (String c1 (String c2 s))))) sz);
    [bad_width |].
  destruct bad1; [bad_width |].
  destruct (Z.leb_spec sz 2) as [L | L]; [bad_width |].
  destruct bad2; [bad_width |].
  destruct (Z.leb_spec sz 3) as [L3 | L3].
  - intros Hd.
    destruct (Z.ltb_spec (Z.of_nat (String.length (String c0 (String c1 (String c2 t))))) sz)
      as [L' | L']; [cbn [String.length] in L'; lia | exact Hd].
  - width_cases.
Qed.

Lemma DecodeRune_prefix4 (c0 c1 c2 c3 : ascii) (s t : string) (r : Z) :
  utf8.DecodeRune (String c0 (String c1 (String c2 (String c3 s)))) = (r, 4%nat) ->
  utf8.DecodeRune (String c0 (String c1 (String c2 (String c3 t)))) = (r, 4%nat).
Proof.
  unfold utf8.DecodeRune. cbv zeta.
  pose proof (first_size (byte c0)) as F.
  set (x := utf8.first (byte c0)) in *.
  set (sz := Z.land x 7) in *.
  set (bad1 := (byte c1 <? fst (utf8.acceptRanges (Z.shiftr x 4)))
               || (snd (utf8.acceptRanges (Z.shiftr x 4)) <? byte c1)).
  set (bad2 := (byte c2 <? utf8.locb) || (utf8.hicb <? byte c2)).
  set (bad3 := (byte c3 <? utf8.locb) || (utf8.hicb <? byte c3)).
  destruct (utf8.as' <=? x); [bad_width |].
  destruct (Z.ltb_spec
              (Z.of_nat (String.length (String c0 (String c1 (String c2 (String c3 s))))))
              sz); [bad_width |].
  destruct bad1; [bad_width |].
  destruct (Z.leb_spec sz 2) as [L | L]; [bad_width |].
  destruct bad2; [bad_width |].
  destruct (Z.leb_spec sz 3) as [L3 | L3]; [bad_width |].
  destruct bad3; [bad_width |].
  intros Hd.
  destruct (Z.ltb_spec
              (Z.of_nat (String.length (String c0 (String c1 (String c2 (String c3 t))))))
              sz) as [L' | L']; [cbn [String.length] in L'; lia | exact Hd].
Qed.

(* ===================================================================== *)
(** ** Character data: what is escaped is read back *)
(* ===================================================================== *)

Lemma DecodeRune_ascii (c : ascii) (s : string) :
  byte c < 128 -> utf8.DecodeRune (String c s) = (byte c, 1%nat).
Proof.
  intros H. unfold utf8.DecodeRune, utf8.first.
  destruct (Z.ltb_spec (byte c) 128) as [_ | H']; [| lia].
  eval_closed (utf8.as' <=? utf8.as'). eval_closed (Z.odd utf8.as').
  cbv iota beta zeta. now rewrite Z.ldiff_0_r, Z.land_0_r, Z.lor_0_r.
Qed.

Lemma escapeOf_high (r : Z) (w : nat) :
  128 <= r -> xml.isInCharacterRange r = true -> w <> 1%nat ->
  xml.escapeOf r w = None.
Proof.
  intros H R W. unfold xml.escapeOf.
  repeat split_if; try lia. rewrite R. cbn [negb orb].
  destruct (Nat.eqb_spec w 1); [contradiction |].
  rewrite andb_false_r. reflexivity.
Qed.

Lemma textLoop_verbatim (c b0 b1 : ascii) (s : string) :
  verbatim c ->
  xml.textLoop None false None b0 b1 (String c s)
  = xml.prepend (String c EmptyString) (xml.textLoop None false None b1 c s).
Proof.
  intros (H1 & H2 & H3 & H4 & H5). cbn [xml.textLoop xml.isQuote].
  rewrite (eqb_byte_neq c ">") by exact H2.
  rewrite (eqb_byte_neq c "<") by exact H1.
  rewrite (eqb_byte_neq c "&") by exact H3.
  rewrite andb_false_r. cbn [andb].
  destruct (Z.eqb_spec (byte c) 13); [contradiction |].
  destruct (Z.eqb_spec (byte c) 10); [contradiction |].
  rewrite andb_false_r. reflexivity.
Qed.

Lemma textLoop_amp (b0 b1 : ascii) (s : string) :
  xml.textLoop None false None b0 b1 (String "&" s) = xml.textLoop None false (Some EmptyString) b0 b1 s.
Proof. cbn [xml.textLoop xml.isQuote]. rewrite andb_false_r. reflexivity. Qed.

Lemma textLoop_lt (b0 b1 : ascii) (s : string) :
  xml.textLoop None false None b0 b1 (String "<" s) = Some (EmptyString, String "<" s).
Proof. cbn [xml.textLoop]. rewrite andb_false_r. reflexivity. Qed.

Lemma high_verbatim (c : ascii) : 128 <= byte c -> verbatim c.
Proof. unfold verbatim. lia. Qed.

Lemma substring_0_0 (s : string) : substring 0 0 s = EmptyString.
Proof. destruct s; reflexivity. Qed.

Lemma length_drop (n : nat) (s : string) :
  (String.length (drop n s) <= String.length s)%nat.
Proof.
  revert s. induction n as [| n IH]; intros [| c s]; cbn [drop String.length];
    try lia. specialize (IH s). lia.
Qed.

Lemma take_drop (n : nat) (s : string) : take n s ++ drop n s = s.
Proof.
  unfold take. revert s.
  induction n as [| n IH]; intros [| c s]; cbn [substring drop String.append];
    try reflexivity. now rewrite IH.
Qed.

(** A rune takes at least one byte. *)
Lemma DecodeRune_width (c0 : ascii) (s1 : string) (r : Z) (w : nat) :
  utf8.DecodeRune (String c0 s1) = (r, w) ->
  exists w' : nat, w = S w'.
Proof.
  intros D. destruct ((r =? utf8.RuneError) && (w =? 1)%nat) eqn:B.
  - apply andb_prop in B. destruct B as [_ B]. apply Nat.eqb_eq in B. eauto.
  - destruct (DecodeRune_cases c0 s1 r w D B)
      as [(-> & _) | (_ & _ & [(-> & _) | [(-> & _) | (-> & _)]])]; eauto.
Qed.

Lemma escapeOf_replaced (r : Z) (w : nat) :
  negb (xml.isInCharacterRange r) || ((r =? utf8.RuneError) && (w =? 1)%nat) = true ->
  xml.escapeOf r w = Some xml.escFFFD.
Proof.
  intros H. unfold xml.escapeOf.
  repeat split_if; subst; try discriminate H.
  change 65533 with utf8.RuneError. now rewrite H.
Qed.

Lemma textLoop_escFFFD (b0 b1 : ascii) (s : string) :
  xml.textLoop None false None b0 b1 (xml.escFFFD ++ s)
  = xml.prepend (String (chr 0xEF) EmptyString)
      (xml.prepend (String (chr 0xBF) EmptyString)
         (xml.prepend (String (chr 0xBD) EmptyString)
            (xml.textLoop None false None (chr 0xBF) (chr 0xBD) s))).
Proof.
  unfold xml.escFFFD. cbn [String.append].
  rewrite !textLoop_verbatim by (apply high_verbatim; vm_compute; discriminate).
  reflexivity.
Qed.

(** The case of a byte that is written as a reference. *)
Ltac entity E IH :=
  apply byte_eq in E; subst;
  rewrite append_assoc;
  cbv [xml.escQuot xml.escApos xml.escAmp xml.escLT xml.escGT
       xml.escTab xml.escNL xml.escCR];
  cbn [String.append]; rewrite textLoop_amp;
  cbn -[xml.escapeRunes replaceRunes String.append];
  rewrite IH by assumption; reflexivity.

(** What [EscapeString] writes for a text is read as the text, with
    U+FFFD for what is no character of XML in it. *)
Lemma textLoop_replaceRunes (fuel : nat) :
  forall s : string,
    (String.length s <= fuel)%nat ->
    forall (b0 b1 : ascii) (rest : string),
      xml.textLoop None false None b0 b1
        (xml.escapeRunes fuel s ++ String "<" rest)
      = Some (replaceRunes fuel s, String "<" rest).
Proof.
  induction fuel as [| fuel IH]; intros s L b0 b1 rest.
  - destruct s; [| simpl in L; lia]. apply textLoop_lt.
  - destruct s as [| c0 s1]; [apply textLoop_lt |].
    cbn [xml.escapeRunes replaceRunes].
    destruct (utf8.DecodeRune (String c0 s1)) as [r w] eqn:D.
    simpl in L.
    destruct (negb (xml.isInCharacterRange r)
              || ((r =? utf8.RuneError) && (w =? 1)%nat)) eqn:C.
    + (* a rune that is replaced *)
      rewrite escapeOf_replaced by exact C.
      destruct (DecodeRune_width c0 s1 r w D) as [w' ->].
      cbn [drop]. pose proof (length_drop w' s1) as Ld.
      rewrite append_assoc, textLoop_escFFFD.
      rewrite IH by lia. reflexivity.
    + apply orb_false_elim in C. destruct C as [B2 B1].
      apply negb_false_iff in B2.
      destruct (DecodeRune_cases c0 s1 r w D B1)
        as [(-> & -> & Lt) | (Ge & H0 & [(-> & c1 & s2 & -> & H1)
                                       | [(-> & c1 & c2 & s3 & -> & H1 & H2)
                                         | (-> & c1 & c2 & c3 & s4 & -> & H1 & H2 & H3)]])].
      * (* one byte *)
        cbn [drop] in *. pose proof (byte_range c0) as R0.
        assert (Hs1 : (String.length s1 <= fuel)%nat) by lia.
        unfold take. cbn [substring]. rewrite substring_0_0.
        unfold xml.escapeOf.
        destruct (Z.eqb_spec (byte c0) 34) as [E |]; [entity E IH |].
        destruct (Z.eqb_spec (byte c0) 39) as [E |]; [entity E IH |].
        destruct (Z.eqb_spec (byte c0) 38) as [E |]; [entity E IH |].
        destruct (Z.eqb_spec (byte c0) 60) as [E |]; [entity E IH |].
        destruct (Z.eqb_spec (byte c0) 62) as [E |]; [entity E IH |].
        destruct (Z.eqb_spec (byte c0) 9) as [E |]; [entity E IH |].
        destruct (Z.eqb_spec (byte c0) 10) as [E |]; [entity E IH |].
        destruct (Z.eqb_spec (byte c0) 13) as [E |]; [entity E IH |].
        rewrite B2. destruct (Z.eqb_spec (byte c0) 65533); [lia |].
        cbn [negb orb andb String.append].
        rewrite textLoop_verbatim by (unfold verbatim; lia).
        rewrite IH by assumption. reflexivity.
      * (* two bytes *)
        rewrite escapeOf_high by (try assumption; lia).
        unfold take. cbn [substring String.append drop String.length] in *.
        rewrite substring_0_0. cbn [String.append].
        rewrite !textLoop_verbatim by (apply high_verbatim; assumption).
        rewrite IH by (try assumption; lia). reflexivity.
      * (* three bytes *)
        rewrite escapeOf_high by (try assumption; lia).
        unfold take. cbn [substring String.append drop String.length] in *.
        rewrite substring_0_0. cbn [String.append].
        rewrite !textLoop_verbatim by (apply high_verbatim; assumption).
        rewrite IH by (try assumption; lia). reflexivity.
      * (* four bytes *)
        rewrite escapeOf_high by (try assumption; lia).
        unfold take. cbn [substring String.append drop String.length] in *.
        rewrite substring_0_0. cbn [String.append].
        rewrite !textLoop_verbatim by (apply high_verbatim; assumption).
        rewrite IH by (try assumption; lia). reflexivity.
Qed.

Lemma DecodeRune_escFFFD (t : string) :
  utf8.DecodeRune (xml.escFFFD ++ t) = (utf8.RuneError, 3%nat).
Proof. apply (DecodeRune_prefix3 _ _ _ EmptyString). reflexivity. Qed.

(** The text with its replacements is what the decoder lets through. *)
Lemma checkRunes_replaceRunes (fuel : nat) :
  forall s : string,
    (String.length s <= fuel)%nat ->
    forall k : nat,
      (String.length (replaceRunes fuel s) <= k)%nat ->
      xml.checkRunes k (replaceRunes fuel s) = true.
Proof.
  induction fuel as [| fuel IH]; intros s L k Lk.
  - destruct k; reflexivity.
  - destruct s as [| c0 s1]; [destruct k; reflexivity |].
    cbn [replaceRunes] in *.
    destruct (utf8.DecodeRune (String c0 s1)) as [r w] eqn:D.
    simpl in L.
    destruct (negb (xml.isInCharacterRange r)
              || ((r =? utf8.RuneError) && (w =? 1)%nat)) eqn:C.
    + destruct (DecodeRune_width c0 s1 r w D) as [w' ->].
      cbn [drop] in *. pose proof (length_drop w' s1) as Ld.
      rewrite length_append in Lk. change (String.length xml.escFFFD) with 3%nat in Lk.
      destruct k as [| k]; [lia |].
      change (xml.escFFFD ++ replaceRunes fuel (drop w' s1))
        with (String (chr 0xEF) (String (chr 0xBF) (String (chr 0xBD)
                (replaceRunes fuel (drop w' s1))))) at 1.
      cbn [xml.checkRunes].
      change (String (chr 0xEF) (String (chr 0xBF) (String (chr 0xBD)
                (replaceRunes fuel (drop w' s1)))))
        with (xml.escFFFD ++ replaceRunes fuel (drop w' s1)).
      rewrite DecodeRune_escFFFD.
      eval_closed ((utf8.RuneError =? utf8.RuneError) && (3 =? 1)%nat).
      eval_closed (xml.isInCharacterRange utf8.RuneError).
      cbn [negb]. change (drop 3 (xml.escFFFD ++ replaceRunes fuel (drop w' s1)))
        with (replaceRunes fuel (drop w' s1)).
      apply IH; lia.
    + apply orb_false_elim in C. destruct C as [B2 B1].
      apply negb_false_iff in B2.
      destruct (DecodeRune_cases c0 s1 r w D B1)
        as [(-> & -> & Lt) | (Ge & H0 & [(-> & c1 & s2 & -> & H1)
                                       | [(-> & c1 & c2 & s3 & -> & H1 & H2)
                                         | (-> & c1 & c2 & c3 & s4 & -> & H1 & H2 & H3)]])].
      * unfold take in *. cbn [substring drop] in *.
        rewrite substring_0_0 in *. cbn [String.append String.length] in *.
        destruct k as [| k]; [lia |].
        cbn [xml.checkRunes]. rewrite DecodeRune_ascii by exact Lt.
        rewrite B1, B2. cbn [negb drop]. apply IH; lia.
      * unfold take in *. cbn [substring drop String.length] in *.
        rewrite substring_0_0 in *. cbn [String.append String.length] in *.
        destruct k as [| k]; [lia |].
        cbn [xml.checkRunes]. rewrite (DecodeRune_prefix2 _ _ _ _ _ D).
        rewrite B1, B2. cbn [negb drop]. apply IH; lia.
      * unfold take in *. cbn [substring drop String.length] in *.
        rewrite substring_0_0 in *. cbn [String.append String.length] in *.
        destruct k as [| k]; [lia |].
        cbn [xml.checkRunes]. rewrite (DecodeRune_prefix3 _ _ _ _ _ _ D).
        rewrite B1, B2. cbn [negb drop]. apply IH; lia.
      * unfold take in *. cbn [substring drop String.length] in *.
        rewrite substring_0_0 in *. cbn [String.append String.length] in *.
        destruct k as [| k]; [lia |].
        cbn [xml.checkRunes]. rewrite (DecodeRune_prefix4 _ _ _ _ _ _ _ D).
        rewrite B1, B2. cbn [negb drop]. apply IH; lia.
Qed.

(** A text the decoder takes as it is has nothing to replace. *)
Lemma replaceRunes_valid (fuel : nat) :
  forall s : string, xml.checkRunes fuel s = true -> replaceRunes fuel s = s.
Proof.
  induction fuel as [| fuel IH]; intros s V.
  - destruct s; [reflexivity | discriminate V].
  - destruct s as [| c0 s1]; [reflexivity |].
    cbn [xml.checkRunes replaceRunes] in *.
    destruct (utf8.DecodeRune (String c0 s1)) as [r w].
    destruct ((r =? utf8.RuneError) && (w =? 1)%nat); [discriminate V |].
    destruct (xml.isInCharacterRange r); [| discriminate V].
    cbn [negb orb] in *. rewrite IH by exact V. apply take_drop.
Qed.

Lemma sanitized_valid (s : string) : validText s = true -> sanitized s = s.
Proof. apply replaceRunes_valid. Qed.

Lemma sanitized_nonempty (s : string) :
  s <> EmptyString -> sanitized s <> EmptyString.
Proof.
  destruct s as [| c0 s1]; [contradiction |]. intros _.
  unfold sanitized. cbn [String.length replaceRunes].
  destruct (utf8.DecodeRune (String c0 s1)) as [r w] eqn:D.
  destruct (DecodeRune_width c0 s1 r w D) as [w' ->].
  destruct (_ || _); discriminate.
Qed.

Lemma text_sanitized (s rest : string) :
  xml.text None false (xml.EscapeString s ++ String "<" rest)
  = Some (sanitized s, String "<" rest).
Proof.
  unfold xml.text, xml.EscapeString, sanitized.
  rewrite textLoop_replaceRunes by lia. cbv iota zeta.
  now rewrite checkRunes_replaceRunes by lia.
Qed.

Lemma text_EscapeString (s rest : string) :
  validText s = true ->
  xml.text None false (xml.EscapeString s ++ String "<" rest)
  = Some (s, String "<" rest).
Proof. intros V. now rewrite text_sanitized, sanitized_valid. Qed.

(* ===================================================================== *)
(** ** Tokens *)
(* ===================================================================== *)

Lemma isName_bytes (n : string) :
  xml.isName n = true ->
  exists c n', n = String c n'
               /\ (c =? "/")%char = false /\ (c =? "?")%char = false
               /\ (c =? "!")%char = false
               /\ xml.allBytes xml.isNameByte n = true.
Proof.
  destruct n as [| c n']; [discriminate |]. cbn [xml.isName xml.allBytes].
  intros H. apply andb_prop in H. destruct H as [H1 H2].
  exists c, n'. split; [reflexivity |].
  assert (Hne : forall k : ascii,
             xml.isNameStart k = false -> (c =? k)%char = false).
  { intros k Hk. apply Ascii.eqb_neq. intros E. subst k.
    rewrite H1 in Hk. discriminate Hk. }
  repeat (split; [apply Hne; reflexivity |]).
  apply andb_true_intro. split.
  - unfold xml.isNameStart in H1. unfold xml.isNameByte.
    destruct ((65 <=? byte c) && (byte c <=? 90)
              || (97 <=? byte c) && (byte c <=? 122)) eqn:A.
    + reflexivity.
    + cbn [orb] in H1. rewrite H1. now rewrite !orb_true_r.
  - clear H1 Hne. induction n' as [| x n' IH]; [reflexivity |].
    cbn [xml.allBytes] in *. apply andb_prop in H2. destruct H2 as [H2 H3].
    apply andb_prop in H2. destruct H2 as [H2 _].
    rewrite H2. now apply IH.
Qed.

Lemma readName_stop (n rest : string) (c : ascii) :
  xml.allBytes xml.isNameByte n = true ->
  (byte c <? 128) && negb (xml.isNameByte c) = true ->
  xml.readName (n ++ String c rest) = (n, String c rest).
Proof.
  intros H Hc. induction n as [| x n IH]; cbn [String.append xml.readName].
  - now rewrite Hc.
  - cbn [xml.allBytes] in H. apply andb_prop in H. destruct H as [H1 H2].
    rewrite H1, andb_false_r. now rewrite IH.
Qed.

Lemma nsname_gt (n rest : string) :
  xml.isName n = true ->
  xml.nsname (n ++ String ">" rest) = Some (n, String ">" rest).
Proof.
  intros H. destruct (isName_bytes n H) as (c & n' & E & _ & _ & _ & B).
  unfold xml.nsname. rewrite readName_stop by (exact B || reflexivity).
  now rewrite H.
Qed.

Lemma Token_start (n rest : string) (stk : list string) :
  xml.isName n = true ->
  xml.Token_ {| xml.input := String "<" (n ++ String ">" rest);
                xml.stk := stk; xml.needClose := None |}
  = Some (xml.StartElement n [],
          {| xml.input := rest; xml.stk := n :: stk; xml.needClose := None |}).
Proof.
  intros H. destruct (isName_bytes n H) as (c & n' & E & S1 & S2 & S3 & _).
  unfold xml.Token_. cbn [xml.needClose xml.input xml.stk].
  change ("<" =? "<")%char with true. cbv iota.
  subst n. cbn [String.append]. rewrite S1, S2, S3. cbv iota.
  change (String c (n' ++ String ">" rest)) with (String c n' ++ String ">" rest).
  rewrite nsname_gt by exact H. reflexivity.
Qed.

Lemma Token_end (n rest : string) (stk : list string) :
  xml.isName n = true ->
  xml.Token_ {| xml.input := String "<" (String "/" (n ++ String ">" rest));
                xml.stk := n :: stk; xml.needClose := None |}
  = Some (xml.EndElement n,
          {| xml.input := rest; xml.stk := stk; xml.needClose := None |}).
Proof.
  intros H. unfold xml.Token_. cbn [xml.needClose xml.input xml.stk].
  change ("<" =? "<")%char with true. change ("/" =? "/")%char with true.
  cbv iota. rewrite nsname_gt by exact H.
  cbn [xml.space]. change (byte ">") with 62. cbn [Z.eqb orb].
  cbv iota. now rewrite String.eqb_refl.
Qed.

Lemma Token_text_sanitized (s rest : string) (stk : list string) :
  s <> EmptyString ->
  xml.Token_ {| xml.input := xml.EscapeString s ++ String "<" rest;
                xml.stk := stk; xml.needClose := None |}
  = Some (xml.CharData (sanitized s),
          {| xml.input := String "<" rest; xml.stk := stk;
             xml.needClose := None |}).
Proof.
  intros Hs. pose proof (text_sanitized s rest) as T.
  apply sanitized_nonempty in Hs.
  unfold xml.Token_. cbn [xml.needClose xml.input xml.stk].
  destruct (xml.EscapeString s ++ String "<" rest) as [| b t] eqn:E.
  - discriminate T.
  - destruct (Ascii.eqb_spec b "<") as [-> | _].
    + unfold xml.text in T. rewrite textLoop_lt in T. cbn in T.
      inversion T. congruence.
    + now rewrite T.
Qed.

Lemma Token_text (s rest : string) (stk : list string) :
  s <> EmptyString -> validText s = true ->
  xml.Token_ {| xml.input := xml.EscapeString s ++ String "<" rest;
                xml.stk := stk; xml.needClose := None |}
  = Some (xml.CharData s,
          {| xml.input := String "<" rest; xml.stk := stk;
             xml.needClose := None |}).
Proof.
  intros Hs V. rewrite Token_text_sanitized by exact Hs.
  now rewrite sanitized_valid.
Qed.

(* ===================================================================== *)
(** ** Reading back the fields of a struct *)
(* ===================================================================== *)

Lemma EscapeString_empty : xml.EscapeString EmptyString = EmptyString.
Proof. reflexivity. Qed.

Lemma writeEnd_shape (n rest : string) :
  xml.writeEnd n ++ rest = String "<" (String "/" (n ++ String ">" rest)).
Proof.
  unfold xml.writeEnd. cbn [String.append].
  rewrite !append_assoc. reflexivity.
Qed.

Lemma writeStart_shape (n rest : string) :
  xml.writeStart n ++ rest = String "<" (n ++ String ">" rest).
Proof.
  unfold xml.writeStart. cbn [String.append].
  rewrite !append_assoc. reflexivity.
Qed.

Lemma element_shape (n content rest : string) :
  xml.element n content ++ rest
  = String "<" (n ++ String ">" (content ++ xml.writeEnd n ++ rest)).
Proof.
  unfold xml.element. rewrite !append_assoc. apply writeStart_shape.
Qed.

(** The character data of an element of a simple kind is read back, with
    the end tag of the element. *)
Lemma unmarshalData_EscapeString (fuel : nat) (t n rest : string)
      (stk : list string) :
  (2 <= fuel)%nat -> xml.isName n = true -> validText t = true ->
  xml.unmarshalData fuel EmptyString
    {| xml.input := xml.EscapeString t ++ xml.writeEnd n ++ rest;
       xml.stk := n :: stk; xml.needClose := None |}
  = Some (t, {| xml.input := rest; xml.stk := stk; xml.needClose := None |}).
Proof.
  intros F N V. rewrite writeEnd_shape.
  destruct fuel as [| [| fuel]]; try lia.
  destruct t as [| c t].
  - rewrite EscapeString_empty. cbn [String.append xml.unmarshalData].
    now rewrite Token_end.
  - cbn [xml.unmarshalData].
    rewrite Token_text by (discriminate || exact V).
    now rewrite Token_end.
Qed.

Lemma simpleField_reads {S A : Type} (tinfo : list (xml.fieldCodec S))
      (sv : S) (n : string) (k : xml.kind A) (get : S -> A) (set : A -> S -> S) :
  xml.isName n = true ->
  xml.findField tinfo [] n = xml.Perfect (xml.simpleField (xml.field n) k get set) ->
  validText (xml.marshalSimple k (get sv)) = true ->
  xml.copyValue k (xml.marshalSimple k (get sv)) = Some (get sv) ->
  fieldReads tinfo 2 sv (xml.simpleField (xml.field n) k get set) (set (get sv)).
Proof.
  intros N F V C. split; [exact N |]. split; [exact F |].
  intros fuel acc rest stk L.
  cbn [xml.unmarshalField xml.simpleField xml.marshalField xml.finfo xml.name
       xml.field].
  rewrite unmarshalData_EscapeString by assumption.
  now rewrite C.
Qed.

(** The fields written one after the other are read back one after the
    other, up to the end tag of the element around them. *)
Lemma unmarshalStruct_flat {S : Type} (tinfo : list (xml.fieldCodec S))
      (K : nat) (sv : S) (outer : string) :
  xml.isName outer = true ->
  forall fs : list (xml.fieldCodec S * (S -> S)),
    Forall (fun fu => fieldReads tinfo K sv (fst fu) (snd fu)) fs ->
    forall (fuel : nat) (acc : S) (rest : string) (stk : list string),
      (List.length fs + K + 2 <= fuel)%nat ->
      xml.unmarshalStruct tinfo fuel
        {| xml.input := flat (map fst fs) sv ++ xml.writeEnd outer ++ rest;
           xml.stk := outer :: stk; xml.needClose := None |} acc
      = Some (fold_left (fun a fu => snd fu a) fs acc,
              {| xml.input := rest; xml.stk := stk; xml.needClose := None |}).
Proof.
  intros O fs H. induction H as [| [f upd] fs (N & F & R) _ IH];
    intros fuel acc rest stk L.
  - cbn [map flat String.append fold_left]. rewrite writeEnd_shape.
    destruct fuel as [| fuel]; [simpl in L; lia |].
    cbn [xml.unmarshalStruct]. now rewrite Token_end.
  - cbn [map flat fold_left fst snd] in *.
    rewrite append_assoc, element_shape.
    destruct fuel as [| fuel]; [simpl in L; lia |].
    cbn [xml.unmarshalStruct]. rewrite Token_start by exact N.
    destruct fuel as [| fuel']; [simpl in L; lia |].
    cbn [xml.unmarshalPath]. rewrite F.
    rewrite R by (simpl in L; lia).
    apply IH. simpl in L. lia.
Qed.

(* ===================================================================== *)
(** ** Numbers as text *)
(* ===================================================================== *)

Lemma plainByte_range (c : ascii) :
  plainByte c = true ->
  33 <= byte c <= 126
  /\ byte c <> 34 /\ byte c <> 38 /\ byte c <> 39 /\ byte c <> 60 /\ byte c <> 62.
Proof.
  unfold plainByte. intros H.
  apply andb_prop in H. destruct H as [H1 H2].
  apply andb_prop in H1. destruct H1 as [H0 H1].
  apply negb_true_iff in H2. repeat (apply orb_false_elim in H2; destruct H2 as [H2 ?]).
  repeat match goal with
         | H : (_ =? _) = false |- _ => apply Z.eqb_neq in H
         | H : (_ <=? _) = true |- _ => apply Z.leb_le in H
         end.
  lia.
Qed.

Lemma checkRunes_plain (s : string) :
  forall fuel : nat,
    (String.length s <= fuel)%nat ->
    xml.allBytes plainByte s = true -> xml.checkRunes fuel s = true.
Proof.
  induction s as [| c s IH]; intros fuel L H.
  - destruct fuel; reflexivity.
  - destruct fuel as [| fuel]; [simpl in L; lia |].
    cbn [xml.allBytes] in H. apply andb_prop in H. destruct H as [H1 H2].
    apply plainByte_range in H1.
    cbn [xml.checkRunes]. rewrite DecodeRune_ascii by lia.
    unfold utf8.RuneError.
    destruct (Z.eqb_spec (byte c) 65533); [lia |]. cbn [andb].
    assert (R : xml.isInCharacterRange (byte c) = true).
    { unfold xml.isInCharacterRange.
      destruct (Z.leb_spec 32 (byte c)); [| lia].
      destruct (Z.leb_spec (byte c) 55295); [| lia].
      cbn [andb]. now rewrite !orb_true_r. }
    rewrite R. cbn [negb drop]. apply IH; [simpl in L; lia | exact H2].
Qed.

Lemma plainText_all (s : string) :
  plainText s = true -> s <> EmptyString /\ xml.allBytes plainByte s = true.
Proof.
  destruct s; [discriminate |]. intros H. split; [discriminate | exact H].
Qed.

Lemma plainText_valid (s : string) : plainText s = true -> validText s = true.
Proof.
  intros H. apply plainText_all in H. destruct H as [_ H].
  apply checkRunes_plain; [lia | exact H].
Qed.

Lemma plainByte_no_space (c : ascii) :
  plainByte c = true -> strings.asciiSpace c = false.
Proof.
  intros H. apply plainByte_range in H. unfold strings.asciiSpace.
  repeat match goal with
         | |- context [byte c =? ?k] => destruct (Z.eqb_spec (byte c) k); [lia |]
         end.
  reflexivity.
Qed.

Lemma trimRight_plain (s : string) :
  xml.allBytes plainByte s = true -> strings.trimRight s = s.
Proof.
  induction s as [| c s IH]; [reflexivity |]. cbn [xml.allBytes].
  intros H. apply andb_prop in H. destruct H as [H1 H2].
  cbn [strings.trimRight]. rewrite IH by exact H2.
  rewrite plainByte_no_space by exact H1. destruct s; reflexivity.
Qed.

Lemma TrimSpace_plain (s : string) :
  xml.allBytes plainByte s = true -> strings.TrimSpace s = s.
Proof.
  intros H. unfold strings.TrimSpace.
  assert (L : strings.trimLeft s = s).
  { destruct s as [| c s]; [reflexivity |]. cbn [xml.allBytes] in H.
    apply andb_prop in H. destruct H as [H1 _].
    cbn [strings.trimLeft]. now rewrite plainByte_no_space. }
  rewrite L. now apply trimRight_plain.
Qed.

Lemma string_of_uint_plain (d : Decimal.uint) :
  xml.allBytes plainByte (NilEmpty.string_of_uint d) = true.
Proof.
  induction d; cbn [NilEmpty.string_of_uint xml.allBytes];
    [reflexivity | rewrite IHd; reflexivity ..].
Qed.

Lemma to_uint_nonnil (n : N) : N.to_uint n <> Decimal.Nil.
Proof.
  destruct n as [| p]; [discriminate |].
  apply DecimalPos.Unsigned.to_uint_nonnil.
Qed.

Lemma FormatUint_NilEmpty (n : N) :
  strconv.FormatUint n = NilEmpty.string_of_uint (N.to_uint n).
Proof.
  unfold strconv.FormatUint. pose proof (to_uint_nonnil n).
  destruct (N.to_uint n); [contradiction | reflexivity ..].
Qed.

Lemma FormatUint_plain (n : N) : plainText (strconv.FormatUint n) = true.
Proof.
  rewrite FormatUint_NilEmpty. pose proof (to_uint_nonnil n) as H.
  pose proof (string_of_uint_plain (N.to_uint n)) as P.
  destruct (N.to_uint n); [contradiction | exact P ..].
Qed.

Lemma ParseUint_FormatUint (n : N) :
  isUint n = true -> strconv.ParseUint (strconv.FormatUint n) = Some n.
Proof.
  intros U. pose proof (FormatUint_plain n) as P.
  apply plainText_all in P. destruct P as [P _].
  unfold strconv.ParseUint.
  destruct (strconv.FormatUint n) eqn:E; [contradiction |].
  rewrite <- E, FormatUint_NilEmpty, NilEmpty.usu, Unsigned.of_to.
  unfold isUint in U. now rewrite U.
Qed.

Lemma copyValue_uint (n : N) :
  isUint n = true ->
  xml.copyValue xml.uintKind (xml.marshalSimple xml.uintKind n) = Some n.
Proof.
  intros U. cbn [xml.copyValue xml.marshalSimple xml.uintKind].
  pose proof (FormatUint_plain n) as P.
  apply plainText_all in P. destruct P as [P A].
  rewrite TrimSpace_plain by exact A.
  rewrite ParseUint_FormatUint by exact U.
  destruct (strconv.FormatUint n); [contradiction | reflexivity].
Qed.

Lemma copyValue_readsBack {lib : Library} (w : float64) :
  readsBack w ->
  xml.copyValue floatKind (xml.marshalSimple floatKind w) = Some w.
Proof.
  intros [P R]. cbn [xml.copyValue xml.marshalSimple floatKind floatKindOf].
  apply plainText_all in P. destruct P as [P A].
  rewrite TrimSpace_plain by exact A.
  rewrite R.
  destruct (FormatFloat w); [contradiction | reflexivity].
Qed.

Lemma lawful_readsBack {lib : Library} (w : float64) :
  LawfulFloat lib -> isFloat64 w = true -> isNaN w = false -> readsBack w.
Proof. intros [P R] F Nan. split; [apply P | apply R]; assumption. Qed.

Lemma exampleLibrary_lawful : LawfulFloat exampleLibrary.
Proof.
  split.
  - intros w _. apply FormatUint_plain.
  - intros w F _. cbn [ParseFloat FormatFloat exampleLibrary].
    unfold isFloat64 in F. apply andb_prop in F. destruct F as [F1 F2].
    apply Z.leb_le in F1. apply Z.ltb_lt in F2.
    rewrite ParseUint_FormatUint.
    + now rewrite Z2N.id.
    + unfold isUint. apply N.ltb_lt.
      change (2 ^ 64)%N with (Z.to_N (2 ^ 64)). apply Z2N.inj_lt; lia.
Qed.

(* ===================================================================== *)
(** ** Reading back a request *)
(* ===================================================================== *)

Lemma unmarshalStruct_S {S : Type} (tinfo : list (xml.fieldCodec S))
      (fuel : nat) (d : xml.Decoder) (sv : S) :
  xml.unmarshalStruct tinfo (Datatypes.S fuel) d sv
  = match xml.Token_ d with
    | Some (xml.StartElement t _, d1) =>
      match xml.unmarshalPath tinfo fuel d1 sv [] t with
      | Some (true, sv1, d2) => xml.unmarshalStruct tinfo fuel d2 sv1
      | Some (false, sv1, d2) =>
        match xml.Skip fuel 0 d2 with
        | Some d3 => xml.unmarshalStruct tinfo fuel d3 sv1
        | None => None
        end
      | None => None
      end
    | Some (xml.EndElement _, d1) => Some (sv, d1)
    | Some (_, d1) => xml.unmarshalStruct tinfo fuel d1 sv
    | None => None
    end.
Proof. reflexivity. Qed.

Lemma unmarshalPath_S {S : Type} (tinfo : list (xml.fieldCodec S))
      (fuel : nat) (d : xml.Decoder) (sv : S) (ps : list string) (start : string) :
  xml.unmarshalPath tinfo (Datatypes.S fuel) d sv ps start
  = match xml.findField tinfo ps start with
    | xml.Perfect f =>
      match xml.unmarshalField f fuel d sv with
      | Some (sv1, d1) => Some (true, sv1, d1)
      | None => None
      end
    | xml.NoMatch => Some (false, sv, d)
    | xml.Prefix ps' => xml.pathLoop tinfo fuel d sv ps'
    end.
Proof. reflexivity. Qed.

Lemma pathLoop_S {S : Type} (tinfo : list (xml.fieldCodec S))
      (fuel : nat) (d : xml.Decoder) (sv : S) (ps : list string) :
  xml.pathLoop tinfo (Datatypes.S fuel) d sv ps
  = match xml.Token_ d with
    | Some (xml.StartElement t _, d1) =>
      match xml.unmarshalPath tinfo fuel d1 sv ps t with
      | Some (true, sv1, d2) => xml.pathLoop tinfo fuel d2 sv1 ps
      | Some (false, sv1, d2) =>
        match xml.Skip fuel 0 d2 with
        | Some d3 => xml.pathLoop tinfo fuel d3 sv1 ps
        | None => None
        end
      | None => None
      end
    | Some (xml.EndElement _, d1) => Some (true, sv, d1)
    | Some (_, d1) => xml.pathLoop tinfo fuel d1 sv ps
    | None => None
    end.
Proof. reflexivity. Qed.

Lemma findStart_S (fuel : nat) (d : xml.Decoder) :
  xml.findStart (S fuel) d
  = match xml.Token_ d with
    | Some (xml.StartElement t _, d1) => Some (t, d1)
    | Some (_, d1) => xml.findStart fuel d1
    | None => None
    end.
Proof. reflexivity. Qed.

(** The declaration at the head of a posted document, and the line feed
    after it. *)
Lemma Token_Header (rest : string) :
  xml.Token_ (xml.NewDecoder (xml.Header ++ rest))
  = Some (declarationToken,
          {| xml.input := xml.newline ++ rest; xml.stk := [];
             xml.needClose := None |}).
Proof. reflexivity. Qed.

Lemma Token_newline (rest : string) (stk : list string) :
  xml.Token_ {| xml.input := xml.newline ++ String "<" rest;
                xml.stk := stk; xml.needClose := None |}
  = Some (xml.CharData xml.newline,
          {| xml.input := String "<" rest; xml.stk := stk;
             xml.needClose := None |}).
Proof. reflexivity. Qed.

Section RoundTrip.

Context {lib : Library}.

Lemma validItem_fields (i : Item) :
  validItem i = true ->
  validText (DestinationZipcode i) = true /\ isUint (Pieces i) = true
  /\ validText (Package i) = true
  /\ isFloat64 (Weight i) = true /\ isNaN (Weight i) = false
  /\ validText (DestinationCountry i) = true /\ validText (Freezable i) = true.
Proof.
  unfold validItem. intros H.
  repeat (apply andb_prop in H; destruct H as [H ?]).
  rewrite negb_true_iff in *. tauto.
Qed.

Lemma Item_reads (i : Item) :
  validItem i = true -> readsBack (Weight i) ->
  Forall (fun fu => fieldReads Item_fields 2 i (fst fu) (snd fu)) (Item_reading i).
Proof.
  intros V W. apply validItem_fields in V.
  destruct V as (V1 & V2 & V3 & V4 & V5 & V6 & V7).
  unfold Item_reading, Item_fields. cbn [combine].
  repeat (apply Forall_cons; [cbn [fst snd] |]); [.. | apply Forall_nil].
  - apply simpleField_reads; [reflexivity | reflexivity | exact V1 | reflexivity].
  - apply simpleField_reads; [reflexivity | reflexivity | |].
    + apply plainText_valid, FormatUint_plain.
    + now apply copyValue_uint.
  - apply simpleField_reads; [reflexivity | reflexivity | exact V3 | reflexivity].
  - apply simpleField_reads; [reflexivity | reflexivity | |].
    + apply plainText_valid, W.
    + now apply copyValue_readsBack.
  - apply simpleField_reads; [reflexivity | reflexivity | exact V6 | reflexivity].
  - apply simpleField_reads; [reflexivity | reflexivity | exact V7 | reflexivity].
Qed.

Lemma validRequest_fields (p : Request) :
  validRequest p = true ->
  validItem (Item_ p) = true
  /\ validText (UserID p) = true /\ validText (Password p) = true
  /\ validText (AccountNumber p) = true /\ validText (CompanyName p) = true
  /\ validText (Street p) = true /\ validText (City p) = true
  /\ validText (State p) = true /\ validText (Zipcode p) = true
  /\ validText (ContactName p) = true /\ validText (ContactPhone p) = true
  /\ validText (PickupDate p) = true /\ validText (ReadyTime p) = true
  /\ validText (CloseTime p) = true
  /\ validText (SpecialInstructions p) = true.
Proof.
  unfold validRequest. intros H.
  do 14 (apply andb_prop in H; destruct H as [H ?]).
  repeat split; assumption.
Qed.

Lemma Request_reads (p : Request) :
  validRequest p = true -> validText (TestMode p) = true ->
  Forall (fun fu => fieldReads Request_fields 2 p (fst fu) (snd fu))
         (Request_reading p).
Proof.
  intros V T. apply validRequest_fields in V.
  destruct V as (_ & V).
  unfold Request_reading, Request_fields. cbn [combine tl].
  repeat (apply Forall_cons; [cbn [fst snd] |]); [.. | apply Forall_nil];
    (apply simpleField_reads;
     [reflexivity | reflexivity | tauto | reflexivity]).
Qed.

Lemma document_flat (p : Request) :
  document p
  = xml.writeStart "Create"
    ++ xml.writeStart "Details"
    ++ xml.writeStart "DetailItem"
    ++ (flat (map fst (Item_reading (Item_ p))) (Item_ p)
        ++ xml.writeEnd "DetailItem"
        ++ xml.writeEnd "Details"
        ++ (flat (map fst (Request_reading p)) p
            ++ xml.writeEnd "Create" ++ EmptyString)).
Proof.
  unfold document, itemDocument, Item_reading, Request_reading,
    Item_fields, Request_fields.
  cbn -[xml.EscapeString strconv.FormatUint].
  repeat (rewrite !append_assoc; cbn [String.append]).
  reflexivity.
Qed.

Lemma length_document (p : Request) : (40 <= String.length (document p))%nat.
Proof.
  unfold document. rewrite !length_append. cbn [String.length]. lia.
Qed.

Lemma Item_read_back (i acc : Item) :
  fold_left (fun a fu => snd fu a) (Item_reading i) acc = i.
Proof. destruct i. reflexivity. Qed.

Lemma Request_read_back (p acc : Request) :
  fold_left (fun a fu => snd fu a) (Request_reading p)
            (set_Item (Item_ p) (set_XMLName Create acc))
  = set_XMLName Create p.
Proof. destruct p. reflexivity. Qed.

(** After the start tag of [Create], the fields of a valid request are
    read back into the request. *)
Lemma Request_fields_read (p q : Request) (fuel : nat) :
  validRequest p = true -> readsBack (Weight (Item_ p)) ->
  validText (TestMode p) = true ->
  (24 <= fuel)%nat ->
  xml.unmarshalStruct Request_fields fuel
    {| xml.input :=
         xml.writeStart "Details"
         ++ xml.writeStart "DetailItem"
         ++ (flat (map fst (Item_reading (Item_ p))) (Item_ p)
             ++ xml.writeEnd "DetailItem"
             ++ xml.writeEnd "Details"
             ++ (flat (map fst (Request_reading p)) p
                 ++ xml.writeEnd "Create" ++ EmptyString));
       xml.stk := ["Create"]; xml.needClose := None |}
    (set_XMLName Create q)
  = Some (set_XMLName Create p,
          {| xml.input := EmptyString; xml.stk := []; xml.needClose := None |}).
Proof.
  intros V W T L.
  do 13 (destruct fuel as [| fuel]; [lia |]).
  (* the item, under Details > DetailItem *)
  rewrite unmarshalStruct_S.
  rewrite writeStart_shape, Token_start by reflexivity.
  rewrite unmarshalPath_S.
  change (xml.findField Request_fields [] "Details") with
    (xml.Prefix (S := Request) ["Details"]).
  cbv iota. rewrite pathLoop_S.
  rewrite writeStart_shape, Token_start by reflexivity.
  rewrite unmarshalPath_S.
  change (xml.findField Request_fields ["Details"] "DetailItem") with
    (xml.Perfect (xml.structField
                    {| xml.parents := ["Details"]; xml.name := "DetailItem" |}
                    Item_fields Item_ set_Item)).
  cbv iota. cbn [xml.unmarshalField xml.structField].
  rewrite (unmarshalStruct_flat Item_fields 2 (Item_ p) "DetailItem" eq_refl
             (Item_reading (Item_ p)))
    by (try (apply Item_reads; [apply validRequest_fields, V | exact W]);
        simpl; lia).
  rewrite Item_read_back.
  rewrite pathLoop_S, writeEnd_shape, Token_end by reflexivity.
  (* the other fields *)
  rewrite (unmarshalStruct_flat Request_fields 2 p "Create" eq_refl
             (Request_reading p))
    by (try (now apply Request_reads); simpl; lia).
  cbn [set_Item Item_ XMLName set_XMLName].
  now rewrite <- (Request_read_back p q).
Qed.

(** [xml.Unmarshal] reads the document of a valid request back into the
    request, whatever the struct it reads into held; and so it does when
    the document comes after the header, as it is posted. *)
Lemma xml_Unmarshal_marshalled (p q : Request) :
  validRequest p = true -> readsBack (Weight (Item_ p)) ->
  validText (TestMode p) = true ->
  xml_Unmarshal (document p) q = Some (set_XMLName Create p).
Proof.
  intros V W T. unfold xml_Unmarshal.
  pose proof (length_document p) as L.
  remember (String.length (document p)) as n eqn:En. clear En.
  rewrite document_flat.
  rewrite findStart_S. unfold xml.NewDecoder.
  rewrite writeStart_shape, Token_start by reflexivity.
  change (String.eqb Request_xmlname "Create") with true. cbv iota.
  change {| xml.Space := EmptyString; xml.Local := "Create" |} with Create.
  rewrite Request_fields_read by (assumption || lia). reflexivity.
Qed.

Lemma xml_Unmarshal_posted (p q : Request) :
  validRequest p = true -> readsBack (Weight (Item_ p)) ->
  validText (TestMode p) = true ->
  xml_Unmarshal (xml.Header ++ document p) q = Some (set_XMLName Create p).
Proof.
  intros V W T. unfold xml_Unmarshal.
  pose proof (length_document p) as L.
  assert (L' : (40 <= String.length (xml.Header ++ document p))%nat)
    by (rewrite length_append; lia).
  remember (String.length (xml.Header ++ document p)) as n eqn:En. clear En L.
  do 3 (destruct n as [| n]; [lia |]).
  rewrite document_flat.
  rewrite findStart_S, Token_Header. unfold declarationToken. cbv iota.
  rewrite writeStart_shape.
  rewrite findStart_S, Token_newline.
  rewrite findStart_S, Token_start by reflexivity.
  change (String.eqb Request_xmlname "Create") with true. cbv iota.
  change {| xml.Space := EmptyString; xml.Local := "Create" |} with Create.
  rewrite Request_fields_read by (assumption || lia). reflexivity.
Qed.

Lemma xml_Unmarshal_document (lawful : LawfulFloat lib) (p q : Request) :
  validRequest p = true -> validText (TestMode p) = true ->
  xml_Unmarshal (document p) q = Some (set_XMLName Create p).
Proof.
  intros V T. apply xml_Unmarshal_marshalled; [exact V | | exact T].
  destruct (validItem_fields (Item_ p)) as (_ & _ & _ & F & Nan & _).
  { apply validRequest_fields, V. }
  now apply lawful_readsBack.
Qed.

End RoundTrip.

(* ===================================================================== *)
(** ** The tokens of a document *)
(* ===================================================================== *)

Lemma reads_one (t : xml.Token) (d d' : xml.Decoder) :
  xml.Token_ d = Some (t, d') -> reads [t] d d'.
Proof.
  intros T fuel l H. cbn [List.length Nat.add xml.tokensLoop app].
  now rewrite T, H.
Qed.

Lemma reads_app (a b : list xml.Token) (d d1 d2 : xml.Decoder) :
  reads a d d1 -> reads b d1 d2 -> reads (a ++ b) d d2.
Proof.
  intros Ha Hb fuel l H.
  rewrite length_app, <- Nat.add_assoc, <- app_assoc.
  apply Ha, Hb, H.
Qed.

Lemma reads_cons (t : xml.Token) (ts : list xml.Token) (d d1 d2 : xml.Decoder) :
  reads [t] d d1 -> reads ts d1 d2 -> reads (t :: ts) d d2.
Proof. apply (reads_app [t]). Qed.

Lemma reads_start (n rest : string) (stk : list string) :
  xml.isName n = true ->
  reads [xml.StartElement n []]
        {| xml.input := xml.writeStart n ++ rest; xml.stk := stk;
           xml.needClose := None |}
        {| xml.input := rest; xml.stk := n :: stk; xml.needClose := None |}.
Proof.
  intros N. apply reads_one. rewrite writeStart_shape. now apply Token_start.
Qed.

Lemma reads_end (n rest : string) (stk : list string) :
  xml.isName n = true ->
  reads [xml.EndElement n]
        {| xml.input := xml.writeEnd n ++ rest; xml.stk := n :: stk;
           xml.needClose := None |}
        {| xml.input := rest; xml.stk := stk; xml.needClose := None |}.
Proof.
  intros N. apply reads_one. rewrite writeEnd_shape. now apply Token_end.
Qed.

(** The element of a field gives its start, its text if it has one, and
    its end. *)
Lemma reads_field (n t rest : string) (stk : list string) :
  xml.isName n = true ->
  reads (fieldTokens n (sanitized t))
        {| xml.input := xml.element n (xml.EscapeString t) ++ rest;
           xml.stk := stk; xml.needClose := None |}
        {| xml.input := rest; xml.stk := stk; xml.needClose := None |}.
Proof.
  intros N. unfold xml.element, fieldTokens. rewrite !append_assoc.
  eapply reads_cons; [now apply reads_start |].
  destruct t as [| c t].
  - change (sanitized EmptyString) with EmptyString. cbv iota.
    rewrite EscapeString_empty. cbn [String.append]. now apply reads_end.
  - pose proof (sanitized_nonempty (String c t) ltac:(discriminate)) as Hs.
    destruct (sanitized (String c t)) as [| c' t'] eqn:E; [contradiction |].
    rewrite <- E.
    eapply reads_cons; [| now apply reads_end].
    apply reads_one. rewrite writeEnd_shape.
    apply Token_text_sanitized. discriminate.
Qed.

Lemma reads_field_valid (n t rest : string) (stk : list string) :
  xml.isName n = true -> validText t = true ->
  reads (fieldTokens n t)
        {| xml.input := xml.element n (xml.EscapeString t) ++ rest;
           xml.stk := stk; xml.needClose := None |}
        {| xml.input := rest; xml.stk := stk; xml.needClose := None |}.
Proof.
  intros N V. rewrite <- (sanitized_valid t V) at 1. now apply reads_field.
Qed.

Lemma length_fieldTokens (n t : string) :
  (List.length (fieldTokens n t) <= 3)%nat.
Proof. destruct t; cbn; lia. Qed.

Section DocumentTokens.

Context {lib : Library}.

(** The document of a request, element by element. *)
Lemma document_elements (p : Request) :
  document p
  = xml.writeStart "Create"
    ++ xml.writeStart "Details"
    ++ xml.writeStart "DetailItem"
    ++ xml.element "DestinationZipcode"
         (xml.EscapeString (DestinationZipcode (Item_ p)))
    ++ xml.element "Pieces"
         (xml.EscapeString (strconv.FormatUint (Pieces (Item_ p))))
    ++ xml.element "Package" (xml.EscapeString (Package (Item_ p)))
    ++ xml.element "Weight" (xml.EscapeString (FormatFloat (Weight (Item_ p))))
    ++ xml.element "DestinationCountry"
         (xml.EscapeString (DestinationCountry (Item_ p)))
    ++ xml.element "Freezable" (xml.EscapeString (Freezable (Item_ p)))
    ++ xml.writeEnd "DetailItem"
    ++ xml.writeEnd "Details"
    ++ xml.element "UserID" (xml.EscapeString (UserID p))
    ++ xml.element "Password" (xml.EscapeString (Password p))
    ++ xml.element "TestMode" (xml.EscapeString (TestMode p))
    ++ xml.element "AccountNumber" (xml.EscapeString (AccountNumber p))
    ++ xml.element "CompanyName" (xml.EscapeString (CompanyName p))
    ++ xml.element "Street" (xml.EscapeString (Street p))
    ++ xml.element "City" (xml.EscapeString (City p))
    ++ xml.element "State" (xml.EscapeString (State p))
    ++ xml.element "Zipcode" (xml.EscapeString (Zipcode p))
    ++ xml.element "ContactName" (xml.EscapeString (ContactName p))
    ++ xml.element "ContactPhone" (xml.EscapeString (ContactPhone p))
    ++ xml.element "PickupDate" (xml.EscapeString (PickupDate p))
    ++ xml.element "ReadyTime" (xml.EscapeString (ReadyTime p))
    ++ xml.element "CloseTime" (xml.EscapeString (CloseTime p))
    ++ xml.element "SpecialInstructions"
         (xml.EscapeString (SpecialInstructions p))
    ++ xml.writeEnd "Create" ++ EmptyString.
Proof.
  unfold document, itemDocument, xml.element, xml.writeStart, xml.writeEnd.
  repeat (rewrite !append_assoc; cbn [String.append]).
  reflexivity.
Qed.

Lemma document_starts (p : Request) :
  exists rest : string, document p = String "<" rest.
Proof. unfold document. cbn [String.append]. eexists. reflexivity. Qed.

Lemma length_requestTokens (p : Request) :
  (List.length (requestTokens p) <= 69)%nat.
Proof.
  unfold requestTokens, itemTokens.
  repeat rewrite ?length_app, ?length_cons.
  repeat match goal with
         | |- context [List.length (fieldTokens ?n ?t)] =>
           let H := fresh in
           pose proof (length_fieldTokens n t) as H;
           generalize dependent (List.length (fieldTokens n t)); intros
         end.
  cbn [List.length]. lia.
Qed.

(** The decoder reads the document of a request, whatever the request
    holds, as the element [Create] with the fields of the request in it. *)
Lemma reads_request (p : Request) :
  reads (requestTokens p)
        {| xml.input := document p; xml.stk := []; xml.needClose := None |}
        {| xml.input := EmptyString; xml.stk := []; xml.needClose := None |}.
Proof.
  rewrite document_elements. unfold requestTokens, itemTokens.
  repeat rewrite <- app_assoc. cbn [app].
  do 3 (eapply reads_cons; [apply reads_start; reflexivity |]).
  eapply reads_app; [apply reads_field; reflexivity |].
  eapply reads_app;
    [apply reads_field_valid;
     [reflexivity | apply plainText_valid, FormatUint_plain] |].
  do 4 (eapply reads_app; [apply reads_field; reflexivity |]).
  do 2 (eapply reads_cons; [apply reads_end; reflexivity |]).
  do 15 (eapply reads_app; [apply reads_field; reflexivity |]).
  apply reads_end. reflexivity.
Qed.

(** The tokens of the document as it is posted, after the header. *)
Lemma Tokens_posted (p : Request) :
  xml.Tokens (xml.Header ++ document p) = Some (documentTokens p).
Proof.
  unfold xml.Tokens, documentTokens.
  pose proof (length_document p) as L.
  pose proof (length_requestTokens p) as Lt.
  assert (E : S (String.length (xml.Header ++ document p))
              = (2 + (List.length (requestTokens p)
                      + S (37 + String.length (document p)
                           - List.length (requestTokens p))))%nat).
  { rewrite length_append. change (String.length xml.Header) with 39%nat. lia. }
  rewrite E. cbn [Nat.add].
  cbn [xml.tokensLoop]. rewrite Token_Header.
  cbn [xml.tokensLoop].
  destruct (document_starts p) as [rest D].
  pose proof (reads_request p) as R. rewrite D in *.
  rewrite Token_newline.
  rewrite (R _ []); [now rewrite app_nil_r | reflexivity].
Qed.

End DocumentTokens.

(* ===================================================================== *)
(** ** The specification: configuration and RequestPickup *)
(* ===================================================================== *)

Section Claims.

Context {lib : Library}.

(** C1, as amended.  The package has one URL: every request is posted to
    [saiaURL], in production mode as in test mode.  What
    [SetProductionMode(true)] changes for the next request is the
    [TestMode] element of its document, which is [N] afterwards and [Y] when
    [SetProductionMode] was never called. *)
Theorem C1_one_url_mode_in_document
        (g : Globals) (net : http.Transport) (p : Request) :
  postURLs (events (RequestPickup g net p)) = [saiaURL]
  /\ postURLs (events (RequestPickup (SetProductionMode true g) net p)) = [saiaURL]
  /\ posts (events (RequestPickup (SetProductionMode true g) net p))
     = [(client g, saiaURL, "text/xml", xml.Header ++ document (set_TestMode "N" p))]
  /\ posts (events (RequestPickup initial net p))
     = [(client initial, saiaURL, "text/xml",
         xml.Header ++ document (set_TestMode "Y" p))].
Proof.
  assert (U : forall g', postURLs (events (RequestPickup g' net p)) = [saiaURL]).
  { intros g'. unfold RequestPickup. simpl.
    destruct (net _ _ _ _) as [e | res]; [reflexivity |].
    destruct (http.Body res) as [body [e |]]; [reflexivity |].
    destruct (Unmarshal_ResponseData body zero_ResponseData) as [rd [e |]];
      [reflexivity |].
    destruct (_ || _); reflexivity. }
  repeat split.
  - apply U.
  - apply U.
  - rewrite RequestPickup_posts, posted_document. reflexivity.
  - rewrite RequestPickup_posts, posted_document. reflexivity.
Qed.

(** C2.  When the response was received and parsed, [RequestPickup] returns
    a nil error exactly when the code of the response is empty and its
    pickup number is not.  The status code of the response has no part in
    it: the outcome is the one of any answer with the same body. *)
Theorem C2_nil_error_iff
        (g : Globals) (net : http.Transport) (p : Request)
        (res : http.Response) (body : string) (rd : ResponseData) :
  answer g net p = http.PostOk res ->
  http.Body res = (body, None) ->
  Unmarshal_ResponseData body zero_ResponseData = (rd, None) ->
  (err (RequestPickup g net p) = None
   <-> Code rd = EmptyString /\ PickupNumber rd <> EmptyString)
  /\ forall status : Z,
       RequestPickup g (netAnswers status (body, None)) p = RequestPickup g net p.
Proof.
  intros Hnet Hbody Hxml. split.
  - destruct (RequestPickup_parsed g net p res body rd Hnet Hbody Hxml) as [_ E].
    rewrite E. rewrite <- business_failure_iff.
    destruct (_ || _); split; intros H; congruence.
  - intros status. unfold answer, posted, client in Hnet.
    unfold RequestPickup, netAnswers. simpl in *.
    rewrite Hnet, Hbody. reflexivity.
Qed.

(** C3.  [RequestPickup] puts the test mode of the package into the request
    before it marshals it: the request it leaves has it, the document it
    posts is the one of the request with it, and nothing of the outcome
    depends on the [TestMode] the caller had set. *)
Theorem C3_TestMode_overwritten
        (g : Globals) (net : http.Transport) (p : Request) (caller : string) :
  RequestPickup g net (set_TestMode caller p) = RequestPickup g net p
  /\ TestMode (request (RequestPickup g net p)) = testMode g
  /\ posts (events (RequestPickup g net p))
     = [(client g, saiaURL, "text/xml",
         xml.Header ++ document (set_TestMode (testMode g) p))].
Proof.
  repeat split.
  - rewrite RequestPickup_request. reflexivity.
  - rewrite RequestPickup_posts, posted_document. reflexivity.
Qed.

(** C4.  When a parsed response has a code or lacks a pickup number, the
    error [RequestPickup] returns reads: the message of the response, a
    colon, the description of the failure.  So its text has both in it. *)
Theorem C4_business_failure_text
        (g : Globals) (net : http.Transport) (p : Request)
        (res : http.Response) (body : string) (rd : ResponseData) :
  answer g net p = http.PostOk res ->
  http.Body res = (body, None) ->
  Unmarshal_ResponseData body zero_ResponseData = (rd, None) ->
  Code rd <> EmptyString \/ PickupNumber rd = EmptyString ->
  exists e : errors.error,
    err (RequestPickup g net p) = Some e
    /\ errors.Error e
       = Message rd ++ ": " ++ "saia.RequestPickup - pickup request failed"
    /\ contains (errors.Error e) "saia.RequestPickup - pickup request failed"
    /\ contains (errors.Error e) (Message rd).
Proof.
  intros Hnet Hbody Hxml Hfail.
  destruct (RequestPickup_parsed g net p res body rd Hnet Hbody Hxml) as [_ E].
  destruct (negb (String.eqb (Code rd) EmptyString)
            || String.eqb (PickupNumber rd) EmptyString) eqn:B.
  - eexists. split; [exact E |]. simpl. split; [reflexivity |]. split.
    + exists (Message rd ++ ": "), EmptyString.
      rewrite append_empty_r, append_assoc. reflexivity.
    + exists EmptyString, (": " ++ "saia.RequestPickup - pickup request failed").
      reflexivity.
  - apply business_failure_iff in B. destruct B as [B1 B2].
    destruct Hfail; contradiction.
Qed.

(** C5.  When the POST fails, or the reading of the body of the response
    does, [RequestPickup] returns at once: the error of the transport
    wrapped, the zero [ResponseData], and no event after the failure but
    the closing of the body.  It posts once, whatever happens. *)
Theorem C5_transport_failure
        (g : Globals) (net : http.Transport) (p : Request) :
  (forall e : errors.error,
      answer g net p = http.PostError e ->
      RequestPickup g net p
      = {| request := set_TestMode (testMode g) p;
           responseData := zero_ResponseData;
           err := Some (errors.withMessage e
                          "saia.RequestPickup - could not make post request");
           events := [LogPrint (posted g p);
                      HTTPPost (client g) saiaURL "text/xml" (posted g p)] |})
  /\ (forall (res : http.Response) (read : string) (e : errors.error),
         answer g net p = http.PostOk res ->
         http.Body res = (read, Some e) ->
         RequestPickup g net p
         = {| request := set_TestMode (testMode g) p;
              responseData := zero_ResponseData;
              err := Some (errors.withMessage e
                             "saia.RequestPickup - could not read response 1");
              events := [LogPrint (posted g p);
                         HTTPPost (client g) saiaURL "text/xml" (posted g p);
                         BodyReadAll; BodyClose] |})
  /\ List.length (posts (events (RequestPickup g net p))) = 1%nat.
Proof.
  split; [| split].
  - intros e Hnet. unfold answer, posted, client in Hnet.
    unfold RequestPickup, posted, client. simpl in *. rewrite Hnet. reflexivity.
  - intros res read e Hnet Hbody. unfold answer, posted, client in Hnet.
    unfold RequestPickup, posted, client. simpl in *.
    rewrite Hnet, Hbody. reflexivity.
  - rewrite RequestPickup_posts. reflexivity.
Qed.

(** C6.  Marshalling a request never fails, and the one POST of
    [RequestPickup] carries, with the content type [text/xml], the header
    of XML followed by the document of the request.  The header is, byte
    for byte, the XML declaration of version 1.0 and encoding UTF-8 and a
    line feed.  What is posted is an XML document whatever texts the
    request holds: a decoder reads it to its end as the declaration, then
    the one element [Create], in it the fields of the item under
    [Details > DetailItem] and the other fields, each an element of its
    name that holds the text of the field and nothing else, where a text
    that is valid is held as it is. *)
Theorem C6_posted_document
        (g : Globals) (net : http.Transport) (p : Request) :
  map byte (list_ascii_of_string xml.Header)
  = [60; 63; 120; 109; 108; 32; 118; 101; 114; 115; 105; 111; 110; 61; 34;
     49; 46; 48; 34; 32; 101; 110; 99; 111; 100; 105; 110; 103; 61; 34;
     85; 84; 70; 45; 56; 34; 63; 62; 10]
  /\ xml_Marshal (set_TestMode (testMode g) p)
     = (document (set_TestMode (testMode g) p), None)
  /\ posts (events (RequestPickup g net p))
     = [(client g, saiaURL, "text/xml",
         xml.Header ++ document (set_TestMode (testMode g) p))]
  /\ xml.Tokens (xml.Header ++ document (set_TestMode (testMode g) p))
     = Some (xml.ProcInst "xml"
               ("version=" ++ xml.quot ++ "1.0" ++ xml.quot
                ++ " encoding=" ++ xml.quot ++ "UTF-8" ++ xml.quot)
             :: xml.CharData xml.newline
             :: [xml.StartElement "Create" []; xml.StartElement "Details" [];
                 xml.StartElement "DetailItem" []]
             ++ itemTokens (Item_ p)
             ++ [xml.EndElement "DetailItem"; xml.EndElement "Details"]
             ++ fieldTokens "UserID" (sanitized (UserID p))
             ++ fieldTokens "Password" (sanitized (Password p))
             ++ fieldTokens "TestMode" (sanitized (testMode g))
             ++ fieldTokens "AccountNumber" (sanitized (AccountNumber p))
             ++ fieldTokens "CompanyName" (sanitized (CompanyName p))
             ++ fieldTokens "Street" (sanitized (Street p))
             ++ fieldTokens "City" (sanitized (City p))
             ++ fieldTokens "State" (sanitized (State p))
             ++ fieldTokens "Zipcode" (sanitized (Zipcode p))
             ++ fieldTokens "ContactName" (sanitized (ContactName p))
             ++ fieldTokens "ContactPhone" (sanitized (ContactPhone p))
             ++ fieldTokens "PickupDate" (sanitized (PickupDate p))
             ++ fieldTokens "ReadyTime" (sanitized (ReadyTime p))
             ++ fieldTokens "CloseTime" (sanitized (CloseTime p))
             ++ fieldTokens "SpecialInstructions"
                  (sanitized (SpecialInstructions p))
             ++ [xml.EndElement "Create"])%list
  /\ (forall s : string, validText s = true -> sanitized s = s).
Proof.
  split; [reflexivity |].
  split; [apply xml_Marshal_document |].
  split; [rewrite RequestPickup_posts, posted_document; reflexivity |].
  split; [rewrite Tokens_posted; reflexivity | apply sanitized_valid].
Qed.

(** C7.  When the package is loaded the test mode is [Y] and the timeout is
    ten seconds.  [SetTimeout] looks at no bound: it stores its argument
    times one second, in the arithmetic of 64 bits, and that is the
    timeout of the client of the requests after it.  A value that is not
    positive, down to -9223372036, is stored as that many seconds, which
    are not positive.  Below that the product wraps around: the value
    stored is never that many seconds, and it can be positive, as for the
    argument [-10 * time.Second]. *)
Theorem C7_defaults_and_SetTimeout :
  testMode initial = "Y"
  /\ timeout initial = 10 * 1000000000
  /\ (forall (d : time.Duration) (g : Globals),
         timeout (SetTimeout d g)
         = (d * 1000000000 + 2 ^ 63) mod 2 ^ 64 - 2 ^ 63
         /\ testMode (SetTimeout d g) = testMode g)
  /\ (forall (d : time.Duration) (g : Globals) (net : http.Transport)
             (p : Request),
         map (fun x => http.Timeout (fst (fst (fst x))))
             (posts (events (RequestPickup (SetTimeout d g) net p)))
         = [timeout (SetTimeout d g)])
  /\ (forall (d : time.Duration) (g : Globals),
         -9223372036 <= d <= 0 ->
         timeout (SetTimeout d g) = d * 1000000000
         /\ timeout (SetTimeout d g) <= 0)
  /\ (forall (d : time.Duration) (g : Globals),
         d < -9223372036 ->
         timeout (SetTimeout d g) <> d * 1000000000)
  /\ (forall g : Globals,
         timeout (SetTimeout (-10 * time.Second) g) = 8446744073709551616).
Proof.
  split; [reflexivity |]. split; [reflexivity |].
  split; [intros d g; split; reflexivity |].
  split; [intros d g net p; rewrite RequestPickup_posts; reflexivity |].
  split; [| split].
  - intros d g H. simpl.
    rewrite mul_Second_small by lia. lia.
  - intros d g H. cbn [timeout SetTimeout]. unfold time.mul, time.int64.
    change time.Second with 1000000000.
    pose proof (Z.mod_pos_bound (d * 1000000000 + 2 ^ 63) (2 ^ 64) ltac:(lia)).
    lia.
  - intros g. reflexivity.
Qed.

(** C9.  [SetProductionMode(false)] changes nothing.  So once
    [SetProductionMode(true)] was called, whatever operations of the
    package follow, the test mode stays [N], and every request after it is
    sent with [N]. *)
Theorem C9_no_way_back_to_test_mode :
  (forall g : Globals, SetProductionMode false g = g)
  /\ (forall (g : Globals) (os : list operation),
         testMode (run (SetProductionMode true g) os) = "N"
         /\ Forall (fun out => TestMode (request out) = "N")
                   (outcomes (SetProductionMode true g) os)).
Proof.
  split; [reflexivity |].
  intros g os. split.
  - apply testMode_run_N. reflexivity.
  - apply outcomes_TestMode. reflexivity.
Qed.

(** C10.  [SetTimeout(d)] sets the timeout to the product of [d] and one
    second, in the arithmetic of [Duration]; while it fits, that is [d]
    thousand million nanoseconds.  For the duration of five seconds it is
    five thousand million seconds. *)
Theorem C10_SetTimeout_multiplies (d : time.Duration) (g : Globals) :
  timeout (SetTimeout d g) = time.mul d time.Second
  /\ (-9223372036 <= d <= 9223372036 ->
      timeout (SetTimeout d g) = d * 1000000000)
  /\ timeout (SetTimeout (5 * time.Second) g) = 5000000000 * time.Second.
Proof.
  split; [reflexivity |]. split.
  - intros H. simpl. apply mul_Second_small. exact H.
  - reflexivity.
Qed.

End Claims.

(* ===================================================================== *)
(** ** The specification at examples *)
(* ===================================================================== *)

(** C1 as the specification has it fails: a request in production mode is posted to
    the very URL of a request in the default mode, not to another one. *)
Lemma C1_same_url_in_production_mode :
  ~ (postURLs (events (RequestPickup (lib := exampleLibrary)
                         (SetProductionMode true initial) netDown zero_Request))
     <> postURLs (events (RequestPickup (lib := exampleLibrary)
                            initial netDown zero_Request))).
Proof. intros H. apply H. reflexivity. Qed.

(** C2 at an answer with the status 500 and a pickup number. *)
Lemma C2_nil_error_iff_witness :
  (err (RequestPickup (lib := exampleLibrary) initial
          (netAnswers 500 ("PU0001", None)) zero_Request) = None
   <-> Code exampleResponse = EmptyString
       /\ PickupNumber exampleResponse <> EmptyString)
  /\ forall status : Z,
       RequestPickup (lib := exampleLibrary) initial
         (netAnswers status ("PU0001", None)) zero_Request
       = RequestPickup (lib := exampleLibrary) initial
           (netAnswers 500 ("PU0001", None)) zero_Request.
Proof.
  apply (C2_nil_error_iff (lib := exampleLibrary) initial
           (netAnswers 500 ("PU0001", None)) zero_Request
           {| http.StatusCode := 500; http.Body := ("PU0001", None) |}
           "PU0001" exampleResponse); reflexivity.
Defined.

(** C4 at an answer of the carrier that refuses the pickup, with the code
    [E07] and the message [Invalid zip]. *)
Lemma C4_business_failure_text_witness :
  exists e : errors.error,
    err (RequestPickup (lib := carrierLibrary) initial
           (netAnswers 200 (refusal, None)) exampleRequest) = Some e
    /\ errors.Error e
       = "Invalid zip" ++ ": " ++ "saia.RequestPickup - pickup request failed"
    /\ contains (errors.Error e) "saia.RequestPickup - pickup request failed"
    /\ contains (errors.Error e) "Invalid zip".
Proof.
  apply (C4_business_failure_text (lib := carrierLibrary) initial
           (netAnswers 200 (refusal, None)) exampleRequest
           {| http.StatusCode := 200; http.Body := (refusal, None) |}
           refusal refused);
    [reflexivity | reflexivity | vm_compute; reflexivity | left; discriminate].
Defined.

(** C5 at a network that is down. *)
Lemma C5_transport_failure_witness :
  RequestPickup (lib := exampleLibrary) initial netDown zero_Request
  = {| request := set_TestMode "Y" zero_Request;
       responseData := zero_ResponseData;
       err := Some (errors.withMessage
                      (errors.foreign "dial tcp: connection refused")
                      "saia.RequestPickup - could not make post request");
       events := [LogPrint (posted (lib := exampleLibrary) initial zero_Request);
                  HTTPPost (client initial) saiaURL "text/xml"
                    (posted (lib := exampleLibrary) initial zero_Request)] |}.
Proof.
  apply (proj1 (C5_transport_failure (lib := exampleLibrary)
                  initial netDown zero_Request)).
  reflexivity.
Defined.

(** C7 as the specification has it fails: the argument [-10 * time.Second] is a
    [Duration] that is not positive, and the timeout stored for it is
    positive, some 267 years. *)
Lemma C7_non_positive_stored_positive :
  -10 * time.Second <= 0
  /\ time.int64 (-10 * time.Second) = -10 * time.Second
  /\ timeout (SetTimeout (-10 * time.Second) initial) = 8446744073709551616
  /\ ~ (timeout (SetTimeout (-10 * time.Second) initial) <= 0)
  /\ timeout (SetTimeout (-10 * time.Second) initial)
     <> -10 * time.Second * 1000000000.
Proof.
  split; [vm_compute; discriminate |].
  split; [reflexivity |]. split; [reflexivity |].
  split; [vm_compute; intros H; apply H; reflexivity | vm_compute; discriminate].
Qed.

(** C7 at a timeout of minus one. *)
Lemma C7_defaults_and_SetTimeout_witness :
  timeout (SetTimeout (-1) initial) = -1 * 1000000000
  /\ timeout (SetTimeout (-1) initial) <= 0.
Proof.
  apply (proj1 (proj2 (proj2 (proj2 (proj2
           (C7_defaults_and_SetTimeout (lib := exampleLibrary))))))).
  lia.
Defined.

(** Beyond some 292 years the product of [SetTimeout] wraps around, as
    every product of [Duration]s does. *)
Example SetTimeout_wraps :
  timeout (SetTimeout (-9223372037) initial) = 9223372036709551616.
Proof. reflexivity. Qed.

(** C10 at a timeout of three. *)
Lemma C10_SetTimeout_multiplies_witness :
  timeout (SetTimeout 3 initial) = 3 * 1000000000.
Proof.
  apply (proj1 (proj2 (C10_SetTimeout_multiplies 3 initial))).
  lia.
Defined.

(* ===================================================================== *)
(** ** The specification: the round trip through XML *)
(* ===================================================================== *)

Section RoundTripClaim.

Context {lib : Library}.

(** C8.  A request is valid when its texts are valid UTF-8 of characters of
    XML, its number of pieces is a [uint] and its weight is a number whose
    text [strconv] reads back.  For every valid request, after any calls
    of the package, [RequestPickup] posts a document that [xml.Unmarshal]
    reads back, with its header or without, into any [Request], as the
    request itself but for two fields: its [TestMode], which is the test
    mode of the package, written before the marshalling, and its
    [XMLName], which is the name [Create] of the root element. *)
Theorem C8_round_trip
        (os : list operation) (net : http.Transport) (p q : Request) :
  validRequest p = true ->
  readsBack (Weight (Item_ p)) ->
  let g := run initial os in
  let sent := set_TestMode (testMode g) p in
  exists doc : string,
    xml_Marshal sent = (doc, None)
    /\ posts (events (RequestPickup g net p))
       = [(client g, saiaURL, "text/xml", xml.Header ++ doc)]
    /\ xml_Unmarshal (xml.Header ++ doc) q = Some (set_XMLName Create sent)
    /\ xml_Unmarshal doc q = Some (set_XMLName Create sent).
Proof.
  intros V W g sent. exists (document sent).
  split; [apply xml_Marshal_document |].
  split; [rewrite RequestPickup_posts, posted_document; reflexivity |].
  assert (T : validText (TestMode sent) = true).
  { unfold sent. cbn [TestMode set_TestMode].
    destruct (testMode_run_YN os initial (or_introl eq_refl)) as [E | E];
      fold g in E; rewrite E; reflexivity. }
  split; [apply xml_Unmarshal_posted | apply xml_Unmarshal_marshalled];
    assumption.
Qed.

End RoundTripClaim.

(** C8 as the specification has it fails: the example request is valid, and what is
    read back from the document posted for it differs from it in its
    [XMLName], which was empty and is now the name [Create]. *)
Lemma C8_XMLName_not_read_back :
  validRequest exampleRequest = true
  /\ readsBack (lib := carrierLibrary) (Weight (Item_ exampleRequest))
  /\ exists q : Request,
       xml_Unmarshal (lib := carrierLibrary)
         (posted (lib := carrierLibrary) initial exampleRequest) zero_Request
       = Some q
       /\ XMLName q <> XMLName exampleRequest
       /\ XMLName q = Create.
Proof.
  split; [vm_compute; reflexivity |].
  split; [split; vm_compute; reflexivity |].
  eexists. split; [vm_compute; reflexivity |].
  split; [discriminate | reflexivity].
Qed.

(** A text with a control byte is not valid, and is not read back: the
    encoder writes U+FFFD in its place. *)
Example control_byte_not_read_back :
  let p := set_UserID (String (chr 1) EmptyString) zero_Request in
  validRequest p = false
  /\ option_map UserID
       (xml_Unmarshal (lib := exampleLibrary)
          (fst (xml_Marshal (lib := exampleLibrary) p)) zero_Request)
     = Some xml.escFFFD.
Proof. split; vm_compute; reflexivity. Qed.

(** C8 at a request for two skids of 150 lbs, whose weight is written
    [150], in the default configuration, on a network that is down. *)
Lemma C8_round_trip_witness :
  exists doc : string,
    xml_Marshal (lib := carrierLibrary) (set_TestMode "Y" exampleRequest)
    = (doc, None)
    /\ posts (events (RequestPickup (lib := carrierLibrary)
                        initial netDown exampleRequest))
       = [(client initial, saiaURL, "text/xml", xml.Header ++ doc)]
    /\ xml_Unmarshal (lib := carrierLibrary) (xml.Header ++ doc) zero_Request
       = Some (set_XMLName Create (set_TestMode "Y" exampleRequest))
    /\ xml_Unmarshal (lib := carrierLibrary) doc zero_Request
       = Some (set_XMLName Create (set_TestMode "Y" exampleRequest)).
Proof.
  apply (C8_round_trip (lib := carrierLibrary) [] netDown exampleRequest
           zero_Request).
  - vm_compute. reflexivity.
  - split; vm_compute; reflexivity.
Defined.

(* ===================================================================== *)
(** ** Further properties of RequestPickup *)
(* ===================================================================== *)

Section Outcomes.

Context {lib : Library}.

(** X1.  [RequestPickup] returns a nil error in one case only: the POST was
    answered, the body of the answer was read to its end, the body was
    parsed, and the response has no code and has a pickup number. *)
Theorem nil_error_characterised
        (g : Globals) (net : http.Transport) (p : Request) :
  err (RequestPickup g net p) = None
  <-> exists (res : http.Response) (body : string) (rd : ResponseData),
        answer g net p = http.PostOk res
        /\ http.Body res = (body, None)
        /\ Unmarshal_ResponseData body zero_ResponseData = (rd, None)
        /\ Code rd = EmptyString /\ PickupNumber rd <> EmptyString.
Proof.
  split.
  - unfold answer, posted, client, RequestPickup. cbn [xml_Marshal fst].
    destruct (net _ _ _ _) as [e | res]; [discriminate |].
    destruct (http.Body res) as [body [e |]] eqn:B; [discriminate |].
    destruct (Unmarshal_ResponseData body zero_ResponseData) as [rd [e |]] eqn:U;
      [discriminate |].
    destruct (negb (String.eqb (Code rd) EmptyString)
              || String.eqb (PickupNumber rd) EmptyString) eqn:F;
      [discriminate |].
    intros _. exists res, body, rd. apply business_failure_iff in F. tauto.
  - intros (res & body & rd & Hnet & Hbody & Hxml & Hc & Hn).
    destruct (RequestPickup_parsed g net p res body rd Hnet Hbody Hxml) as [_ E].
    rewrite E, (proj2 (business_failure_iff rd) (conj Hc Hn)). reflexivity.
Qed.

(** X2.  When the body of the answer does not parse, [RequestPickup]
    returns the error of the decoder wrapped, and with it the response as
    far as the decoder had filled it, which need not be the zero value.
    Nothing is logged after the document; the body is closed. *)
Theorem decode_failure
        (g : Globals) (net : http.Transport) (p : Request)
        (res : http.Response) (body : string) (rd : ResponseData)
        (e : errors.error) :
  answer g net p = http.PostOk res ->
  http.Body res = (body, None) ->
  Unmarshal_ResponseData body zero_ResponseData = (rd, Some e) ->
  RequestPickup g net p
  = {| request := set_TestMode (testMode g) p;
       responseData := rd;
       err := Some (errors.withMessage e
                      "saia.RequestPickup - could not read response 2");
       events := [LogPrint (posted g p);
                  HTTPPost (client g) saiaURL "text/xml" (posted g p);
                  BodyReadAll; BodyClose] |}.
Proof.
  intros Hnet Hbody Hxml. unfold answer, posted, client in *.
  unfold RequestPickup. cbn [xml_Marshal fst] in *.
  rewrite Hnet, Hbody, Hxml. reflexivity.
Qed.

(** X3.  A response that was parsed is always handed to the caller and
    logged as a value, with a nil error or with the error of a failed
    pickup; a failed pickup is logged by one more line, before the
    value. *)
Theorem parsed_response_returned
        (g : Globals) (net : http.Transport) (p : Request)
        (res : http.Response) (body : string) (rd : ResponseData) :
  answer g net p = http.PostOk res ->
  http.Body res = (body, None) ->
  Unmarshal_ResponseData body zero_ResponseData = (rd, None) ->
  responseData (RequestPickup g net p) = rd
  /\ events (RequestPickup g net p)
     = ([LogPrint (posted g p);
         HTTPPost (client g) saiaURL "text/xml" (posted g p); BodyReadAll]
        ++ (match err (RequestPickup g net p) with
            | Some _ => [LogPrint "saia.RequestPickup - pickup request failed"]
            | None => []
            end)
        ++ [LogPrintf "%+v" rd; BodyClose])%list.
Proof.
  intros Hnet Hbody Hxml. unfold answer, posted, client in *.
  unfold RequestPickup. cbn [xml_Marshal fst] in *.
  rewrite Hnet, Hbody, Hxml.
  destruct (_ || _); split; reflexivity.
Qed.

(** X4.  Of the request its receiver points to, [RequestPickup] changes the
    [TestMode] and nothing else; a second call with the request it left,
    under the same configuration and network, has the outcome of the
    first. *)
Theorem request_left_behind
        (g : Globals) (net : http.Transport) (p : Request) :
  request (RequestPickup g net p) = set_TestMode (testMode g) p
  /\ content (request (RequestPickup g net p)) = content p
  /\ XMLName (request (RequestPickup g net p)) = XMLName p
  /\ RequestPickup g net (request (RequestPickup g net p)) = RequestPickup g net p.
Proof.
  rewrite RequestPickup_request. repeat split.
Qed.

(** X5.  Every error [RequestPickup] returns names the function: its text
    has [saia.RequestPickup - ] in it. *)
Theorem error_names_function
        (g : Globals) (net : http.Transport) (p : Request) (e : errors.error) :
  err (RequestPickup g net p) = Some e ->
  contains (errors.Error e) "saia.RequestPickup - ".
Proof.
  unfold RequestPickup. cbn [xml_Marshal fst].
  destruct (net _ _ _ _) as [e1 | res].
  - intros H. injection H as <-.
    exists EmptyString, ("could not make post request: " ++ errors.Error e1).
    reflexivity.
  - destruct (http.Body res) as [body [e1 |]].
    + intros H. injection H as <-.
      exists EmptyString, ("could not read response 1: " ++ errors.Error e1).
      reflexivity.
    + destruct (Unmarshal_ResponseData body zero_ResponseData) as [rd [e1 |]].
      * intros H. injection H as <-.
        exists EmptyString, ("could not read response 2: " ++ errors.Error e1).
        reflexivity.
      * destruct (_ || _); [| discriminate].
        intros H. injection H as <-.
        exists (Message rd ++ ": "), "pickup request failed".
        cbn [errors.Error]. rewrite append_assoc. reflexivity.
Qed.

(** X6.  Whenever the POST was answered, the body of the answer is read
    once, right after the POST, and closed once, as the last thing the
    call does, whatever happens to the answer; in between the call only
    writes to the log.  When the POST failed there is no body: the call
    logs the document, posts, and nothing is read or closed. *)
Theorem body_closed_once
        (g : Globals) (net : http.Transport) (p : Request) :
  (forall res : http.Response,
      answer g net p = http.PostOk res ->
      (exists logs : list event,
          events (RequestPickup g net p)
          = ([LogPrint (posted g p);
              HTTPPost (client g) saiaURL "text/xml" (posted g p);
              BodyReadAll] ++ logs ++ [BodyClose])%list
          /\ forallb isLog logs = true)
      /\ bodyReads (events (RequestPickup g net p)) = 1%nat
      /\ bodyCloses (events (RequestPickup g net p)) = 1%nat)
  /\ (forall e : errors.error,
         answer g net p = http.PostError e ->
         events (RequestPickup g net p)
         = [LogPrint (posted g p);
            HTTPPost (client g) saiaURL "text/xml" (posted g p)]
         /\ bodyReads (events (RequestPickup g net p)) = 0%nat
         /\ bodyCloses (events (RequestPickup g net p)) = 0%nat).
Proof.
  unfold answer, posted, client, RequestPickup. cbn [xml_Marshal fst].
  split.
  - intros res Hnet. rewrite Hnet.
    destruct (http.Body res) as [body [e1 |]].
    + split; [exists []; split; reflexivity | split; reflexivity].
    + destruct (Unmarshal_ResponseData body zero_ResponseData) as [rd [e1 |]].
      * split; [exists []; split; reflexivity | split; reflexivity].
      * destruct (_ || _).
        -- split; [eexists [_; _]; split; reflexivity | split; reflexivity].
        -- split; [eexists [_]; split; reflexivity | split; reflexivity].
  - intros e Hnet. rewrite Hnet. repeat split.
Qed.

End Outcomes.

(* ===================================================================== *)
(** ** Further properties of programs and of the configuration *)
(* ===================================================================== *)

Section Programs.

Context {lib : Library}.

Lemma posts_app (es1 es2 : list event) :
  posts (es1 ++ es2) = (posts es1 ++ posts es2)%list.
Proof.
  induction es1 as [| e es1 IH]; [reflexivity |].
  destruct e; cbn [posts app]; now rewrite ?IH.
Qed.

(** X7.  Nothing is cached and nothing is sent twice: a program makes as
    many POSTs as it calls [RequestPickup], each to [saiaURL] with the
    content type [text/xml], whatever the requests and the answers are. *)
Theorem one_post_per_request (os : list operation) :
  forall g : Globals,
    List.length (posts (programEvents g os)) = requests os
    /\ Forall (fun x => snd (fst (fst x)) = saiaURL /\ snd (fst x) = "text/xml")
              (posts (programEvents g os)).
Proof.
  unfold programEvents.
  induction os as [| o os IH]; intros g.
  - split; [reflexivity | constructor].
  - destruct o as [yes | seconds | net p]; cbn [outcomes step requests].
    + apply IH.
    + apply IH.
    + cbn [map concat]. rewrite posts_app, RequestPickup_posts.
      destruct (IH g) as [IH1 IH2]. split.
      * cbn [app List.length]. now rewrite IH1.
      * cbn [app]. constructor; [split; reflexivity | exact IH2].
Qed.

Lemma run_testMode_N (os : list operation) :
  forall g : Globals, testMode g = "N" -> testMode (run g os) = "N".
Proof.
  induction os as [| o os IH]; intros g H; [exact H |].
  cbn [run]. apply IH.
  destruct o as [[|] | seconds | net p]; cbn; (reflexivity || exact H).
Qed.

(** X8.  After a program run from the start, the test mode is [N] if the
    program has called [SetProductionMode(true)] and [Y] if it has not: no
    other value is ever stored. *)
Theorem testMode_after_program (os : list operation) :
  testMode (run initial os) = if productionCalled os then "N" else "Y".
Proof.
  assert (G : forall g, testMode (run g os)
                        = if productionCalled os then "N" else testMode g).
  { induction os as [| o os IH]; intros g; [reflexivity |].
    destruct o as [[|] | seconds | net p]; cbn [run step fst productionCalled].
    - apply run_testMode_N. reflexivity.
    - apply IH.
    - rewrite IH. reflexivity.
    - apply IH. }
  apply G.
Qed.

(** X9.  The two settings do not touch each other and compose as follows:
    the last [SetTimeout] wins, [SetProductionMode] is on once any of its
    calls asked for it, and the two may be called in either order. *)
Theorem settings_compose (g : Globals) (b1 b2 : bool) (d1 d2 : time.Duration) :
  SetTimeout d2 (SetTimeout d1 g) = SetTimeout d2 g
  /\ SetProductionMode b2 (SetProductionMode b1 g)
     = SetProductionMode (b1 || b2) g
  /\ SetTimeout d1 (SetProductionMode b1 g)
     = SetProductionMode b1 (SetTimeout d1 g)
  /\ timeout (SetProductionMode b1 g) = timeout g
  /\ testMode (SetTimeout d1 g) = testMode g.
Proof.
  repeat split; destruct b1, b2; reflexivity.
Qed.

End Programs.

(* ===================================================================== *)
(** ** Further properties of the document *)
(* ===================================================================== *)

Section Elements.

Context {lib : Library}.

Lemma contains_append_r (a b sub : string) :
  contains b sub -> contains (a ++ b) sub.
Proof.
  intros (x & y & ->). exists (a ++ x), y. now rewrite append_assoc.
Qed.

Lemma contains_append_l (a b sub : string) :
  contains a sub -> contains (a ++ b) sub.
Proof.
  intros (x & y & ->). exists x, (y ++ b). now rewrite !append_assoc.
Qed.

Lemma contains_flat {S : Type} (fs : list (xml.fieldCodec S)) (sv : S)
      (f : xml.fieldCodec S) :
  In f fs ->
  contains (flat fs sv)
           (xml.element (xml.name (xml.finfo f)) (xml.marshalField f sv)).
Proof.
  induction fs as [| f' fs IH]; [intros [] |].
  intros [-> | H]; cbn [flat].
  - exists EmptyString, (flat fs sv). reflexivity.
  - apply contains_append_r, IH, H.
Qed.

Lemma marshalStructOf_Item (i : Item) :
  xml.marshalStructOf Item_fields i = flat Item_fields i.
Proof.
  unfold xml.marshalStructOf, xml.marshalStruct, Item_fields.
  cbn -[xml.EscapeString strconv.FormatUint].
  repeat (rewrite !append_assoc; cbn [String.append]).
  reflexivity.
Qed.

(** X10.  No field is left out of the document when it is empty: for every
    request, every field of the item and every field of the request has
    its element in the document, around the escaped text of the field, and
    the element of the item is around the elements of its fields. *)
Theorem every_field_has_its_element (p : Request) :
  Forall (fun f =>
            contains (fst (xml_Marshal p))
                     (xml.element (xml.name (xml.finfo f))
                                  (xml.marshalField f (Item_ p))))
         Item_fields
  /\ Forall (fun f =>
               contains (fst (xml_Marshal p))
                        (xml.element (xml.name (xml.finfo f))
                                     (xml.marshalField f p)))
            Request_fields.
Proof.
  rewrite xml_Marshal_document. cbn [fst]. rewrite document_flat.
  change (map fst (Item_reading (Item_ p))) with Item_fields.
  change (map fst (Request_reading p)) with (tl Request_fields).
  split.
  - apply Forall_forall. intros f H.
    do 3 apply contains_append_r. apply contains_append_l.
    now apply contains_flat.
  - apply Forall_forall. intros f H.
    unfold Request_fields in H at 1. destruct H as [<- | H].
    + do 2 apply contains_append_r.
      cbn [xml.finfo xml.name xml.structField xml.marshalField].
      rewrite marshalStructOf_Item. unfold xml.element.
      exists EmptyString. eexists. cbn [String.append].
      rewrite !append_assoc. reflexivity.
    + do 3 apply contains_append_r. do 3 apply contains_append_r.
      apply contains_append_l. now apply contains_flat.
Qed.

(** X11.  Every call logs the whole document before it posts it, and the
    document has the user id and the password of the account in it, as
    their escaped text: they are in the log even when the network is
    down. *)
Theorem credentials_logged
        (g : Globals) (net : http.Transport) (p : Request) :
  (exists es : list event,
      events (RequestPickup g net p)
      = LogPrint (posted g p)
          :: HTTPPost (client g) saiaURL "text/xml" (posted g p) :: es)
  /\ contains (posted g p)
              (xml.element "UserID" (xml.EscapeString (UserID p)))
  /\ contains (posted g p)
              (xml.element "Password" (xml.EscapeString (Password p))).
Proof.
  split.
  - unfold RequestPickup, posted, client. cbn [xml_Marshal fst].
    destruct (net _ _ _ _) as [e | res]; [eexists; reflexivity |].
    destruct (http.Body res) as [body [e |]]; [eexists; reflexivity |].
    destruct (Unmarshal_ResponseData body zero_ResponseData) as [rd [e |]];
      [eexists; reflexivity |].
    destruct (_ || _); eexists; reflexivity.
  - destruct (every_field_has_its_element (set_TestMode (testMode g) p))
      as [_ F].
    rewrite Forall_forall in F. unfold posted. split.
    + apply contains_append_r.
      apply (F (xml.simpleField (xml.field "UserID") xml.stringKind
                  UserID set_UserID)).
      unfold Request_fields. cbn. tauto.
    + apply contains_append_r.
      apply (F (xml.simpleField (xml.field "Password") xml.stringKind
                  Password set_Password)).
      unfold Request_fields. cbn. tauto.
Qed.

Lemma append_inj_l (a b c : string) : a ++ b = a ++ c -> b = c.
Proof.
  induction a as [| x a IH]; cbn [String.append]; intros H; [exact H |].
  injection H as H. now apply IH.
Qed.

(** X12.  Two valid requests that are posted as the same document, under a
    configuration reached from the start, are the same request but for
    their [XMLName] and [TestMode]: no two requests share a document. *)
Theorem document_tells_request
        (os : list operation) (net1 net2 : http.Transport) (p1 p2 : Request) :
  LawfulFloat lib ->
  validRequest p1 = true -> validRequest p2 = true ->
  posts (events (RequestPickup (run initial os) net1 p1))
  = posts (events (RequestPickup (run initial os) net2 p2)) ->
  content p1 = content p2.
Proof.
  intros lawful V1 V2 H.
  set (g := run initial os) in *.
  assert (T : validText (testMode g) = true).
  { destruct (testMode_run_YN os initial (or_introl eq_refl)) as [E | E];
      fold g in E; rewrite E; reflexivity. }
  rewrite !RequestPickup_posts, !posted_document in H.
  assert (D : document (set_TestMode (testMode g) p1)
              = document (set_TestMode (testMode g) p2)).
  { apply (append_inj_l xml.Header).
    exact (f_equal (fun l => match l with
                             | [(_, _, _, body)] => body
                             | _ => EmptyString
                             end) H). }
  clear H. rename D into H.
  pose proof (xml_Unmarshal_document lawful (set_TestMode (testMode g) p1)
                zero_Request V1 T) as R1.
  pose proof (xml_Unmarshal_document lawful (set_TestMode (testMode g) p2)
                zero_Request V2 T) as R2.
  rewrite H, R2 in R1. symmetry.
  exact (f_equal (fun o => match o with
                           | Some r => content r
                           | None => content p1
                           end) R1).
Qed.

End Elements.

(* ===================================================================== *)
(** ** The further properties at examples *)
(* ===================================================================== *)

(** X2 at an answer the decoder gives up on after the code [E07]: the code
    is in the response returned with the error. *)
Lemma decode_failure_witness :
  RequestPickup (lib := truncatingLibrary) initial
    (netAnswers 200 ("E07", None)) zero_Request
  = {| request := set_TestMode "Y" zero_Request;
       responseData :=
         fst (Unmarshal_ResponseData (Library := truncatingLibrary)
                "E07" zero_ResponseData);
       err := Some (errors.withMessage
                      (errors.foreign "XML syntax error: unexpected EOF")
                      "saia.RequestPickup - could not read response 2");
       events := [LogPrint (posted (lib := truncatingLibrary) initial zero_Request);
                  HTTPPost (client initial) saiaURL "text/xml"
                    (posted (lib := truncatingLibrary) initial zero_Request);
                  BodyReadAll; BodyClose] |}.
Proof.
  apply (decode_failure (lib := truncatingLibrary) initial
           (netAnswers 200 ("E07", None)) zero_Request
           {| http.StatusCode := 200; http.Body := ("E07", None) |} "E07");
    reflexivity.
Defined.

(** X3 at an answer with a pickup number. *)
Lemma parsed_response_returned_witness :
  responseData (RequestPickup (lib := exampleLibrary) initial
                  (netAnswers 200 ("PU0001", None)) zero_Request)
  = exampleResponse
  /\ events (RequestPickup (lib := exampleLibrary) initial
               (netAnswers 200 ("PU0001", None)) zero_Request)
     = ([LogPrint (posted (lib := exampleLibrary) initial zero_Request);
         HTTPPost (client initial) saiaURL "text/xml"
           (posted (lib := exampleLibrary) initial zero_Request);
         BodyReadAll]
        ++ (match err (RequestPickup (lib := exampleLibrary) initial
                         (netAnswers 200 ("PU0001", None)) zero_Request) with
            | Some _ => [LogPrint "saia.RequestPickup - pickup request failed"]
            | None => []
            end)
        ++ [LogPrintf "%+v" exampleResponse; BodyClose])%list.
Proof.
  apply (parsed_response_returned (lib := exampleLibrary) initial
           (netAnswers 200 ("PU0001", None)) zero_Request
           {| http.StatusCode := 200; http.Body := ("PU0001", None) |}
           "PU0001" exampleResponse); reflexivity.
Defined.

(** X5 at a network that is down. *)
Lemma error_names_function_witness :
  contains
    (errors.Error
       (errors.withMessage (errors.foreign "dial tcp: connection refused")
          "saia.RequestPickup - could not make post request"))
    "saia.RequestPickup - ".
Proof.
  apply (error_names_function (lib := exampleLibrary) initial netDown
           zero_Request).
  reflexivity.
Defined.

(** X6 at an answer whose body breaks off while it is read. *)
Lemma body_closed_once_witness :
  (exists logs : list event,
      events (RequestPickup (lib := exampleLibrary) initial
                (netAnswers 200 ("<Resp", Some (errors.foreign "unexpected EOF")))
                zero_Request)
      = ([LogPrint (posted (lib := exampleLibrary) initial zero_Request);
          HTTPPost (client initial) saiaURL "text/xml"
            (posted (lib := exampleLibrary) initial zero_Request);
          BodyReadAll] ++ logs ++ [BodyClose])%list
      /\ forallb isLog logs = true)
  /\ bodyReads
       (events (RequestPickup (lib := exampleLibrary) initial
                  (netAnswers 200 ("<Resp", Some (errors.foreign "unexpected EOF")))
                  zero_Request)) = 1%nat
  /\ bodyCloses
       (events (RequestPickup (lib := exampleLibrary) initial
                  (netAnswers 200 ("<Resp", Some (errors.foreign "unexpected EOF")))
                  zero_Request)) = 1%nat.
Proof.
  apply (proj1 (body_closed_once (lib := exampleLibrary) initial
                  (netAnswers 200 ("<Resp", Some (errors.foreign "unexpected EOF")))
                  zero_Request)
               {| http.StatusCode := 200;
                  http.Body := ("<Resp", Some (errors.foreign "unexpected EOF")) |}).
  reflexivity.
Defined.

(** X12 at a request and the request read back from its document, sent
    over two networks. *)
Lemma document_tells_request_witness :
  content exampleRequest
  = content (set_XMLName Create (set_TestMode "Y" exampleRequest)).
Proof.
  apply (document_tells_request (lib := exampleLibrary) [] netDown
           (netAnswers 200 ("PU0001", None)) exampleRequest
           (set_XMLName Create (set_TestMode "Y" exampleRequest))
           exampleLibrary_lawful); reflexivity.
Defined.
